(** * ILORA RETREATS concierge: retrieval- and policy-gated dialogue core

  A shallow embedding of [services/qa_agent_new.py] (class [ConciergeBot])
  and of the booking-form directive of the two [/chat] handlers
  ([main_new.py], [main.py]), followed by the properties of the design
  document, each settled against the embedded code.  The rest of the
  program comes after the dialogue core: the start of the bot, the
  ticket, log, login and reply helpers of [main_new.py], the sign-up
  service ([auth_api.py]), the older bot ([services/qa_agent.py]) and
  the demo bookings of [main.py], and the WhatsApp dialogue
  ([twilio_webhook.py]); further properties of this code close the
  file.

  Conventions of the embedding.
  - Text is a [string], read as the UTF-8 byte sequence of the Python
    [str].  Case folding and white space are those of the ASCII range,
    where every literal of the program lives.
  - A spreadsheet cell is a [value]: [None], a string, an integer or a
    boolean (non-integral numbers are outside the model).
  - A Python [float] is the rational it denotes.  Where a property is
    about the value of a score, the arithmetic is exact ([_score_doc]);
    where scores are compared, as in the ranking of the sheet
    retrieval, every operation is rounded to binary64 as the
    interpreter rounds it ([Binary64], [_score_doc_float]).
  - Exceptions are values of [result]; the mutable bot is threaded
    explicitly. *)

From Stdlib Require Import ZArith QArith Lia Lqa Ascii.
From stdpp Require Import base tactics option list gmap strings pretty sorting.

Local Open Scope Z_scope.

(** ** Python built-ins used by the program *)

Module Py.

(** The line feed character, Python's ["\n"]. *)
Definition nl : string := String "010"%char "".

(** [str.isspace] on the ASCII range: TAB..CR, FS..US and the blank. *)
Definition isspace (c : ascii) : bool :=
  let n := N_of_ascii c in
  ((9 <=? n) && (n <=? 13) || (28 <=? n) && (n <=? 32))%N.

Definition isupper (c : ascii) : bool :=
  let n := N_of_ascii c in ((65 <=? n) && (n <=? 90))%N.

Definition islower (c : ascii) : bool :=
  let n := N_of_ascii c in ((97 <=? n) && (n <=? 122))%N.

Definition isdigit (c : ascii) : bool :=
  let n := N_of_ascii c in ((48 <=? n) && (n <=? 57))%N.

Definition lower_char (c : ascii) : ascii :=
  if isupper c then ascii_of_N (N_of_ascii c + 32) else c.

(** [s.lower()] *)
Fixpoint lower (s : string) : string :=
  match s with
  | "" => ""
  | String c s' => String (lower_char c) (lower s')
  end.

(** [s.lstrip()], [s.rstrip()], [s.strip()] *)
Fixpoint lstrip (s : string) : string :=
  match s with
  | "" => ""
  | String c s' => if isspace c then lstrip s' else s
  end.

Fixpoint rstrip (s : string) : string :=
  match s with
  | "" => ""
  | String c s' =>
      match rstrip s' with
      | "" => if isspace c then "" else String c ""
      | r => String c r
      end
  end.

Definition strip (s : string) : string := rstrip (lstrip s).

(** [sub in s] for two strings. *)
Fixpoint contains (s sub : string) : bool :=
  String.prefix sub s ||
  match s with
  | "" => false
  | String _ s' => contains s' sub
  end.

(** [s.split()]: the maximal runs of non-blank characters. *)
Fixpoint split (s : string) : list string :=
  match s with
  | "" => []
  | String c s' =>
      if isspace c then split s'
      else match s' with
           | "" => [String c ""]
           | String c' _ =>
               if isspace c' then String c "" :: split s'
               else match split s' with
                    | w :: ws => String c w :: ws
                    | [] => [String c ""]
                    end
           end
  end.

(** [sep.join(parts)] *)
Fixpoint join (sep : string) (parts : list string) : string :=
  match parts with
  | [] => ""
  | [p] => p
  | p :: ps => p +:+ sep +:+ join sep ps
  end.

(** [x in xs] for a list of strings. *)
Definition mem (x : string) (xs : list string) : bool :=
  bool_decide (x ∈ xs).

(** Exceptions the modelled code can meet. *)
Inductive exn : Type :=
| AttributeError
| TypeError
| KeyError
| RuntimeError
| ExternalError (msg : string).

Inductive result (A : Type) : Type :=
| Ok (a : A)
| Raise (e : exn).
Arguments Ok {A} a.
Arguments Raise {A} e.

Global Instance result_ret : MRet result := λ A a, Ok a.
Global Instance result_bind : MBind result := λ A B f m,
  match m with
  | Ok a => f a
  | Raise e => Raise e
  end.

(** A JSON cell as the sheet web application delivers it. *)
Inductive value : Type :=
| VNone
| VStr (s : string)
| VInt (n : Z)
| VBool (b : bool).

Global Instance value_eq_dec : EqDecision value.
Proof. solve_decision. Defined.

(** Truth value of a cell ([if v], [not v], [v or w]). *)
Definition truthy (v : value) : bool :=
  match v with
  | VNone => false
  | VStr s => negb (bool_decide (s = ""))
  | VInt n => negb (n =? 0)
  | VBool b => b
  end.

(** [v or w] *)
Definition por (v w : value) : value := if truthy v then v else w.

(** [str(v)], also what an f-string field prints. *)
Definition str (v : value) : string :=
  match v with
  | VNone => "None"
  | VStr s => s
  | VInt n => pretty n
  | VBool true => "True"
  | VBool false => "False"
  end.

(** A row object: a string-keyed dict in insertion order. *)
Definition row : Type := list (string * value).

(** [row.get(key)] and [row.get(key, default)] *)
Fixpoint get_default (r : row) (key : string) (d : value) : value :=
  match r with
  | [] => d
  | (k, v) :: r' => if bool_decide (k = key) then v else get_default r' key d
  end.

Definition get (r : row) (key : string) : value := get_default r key VNone.

(** [row.values()] *)
Definition values (r : row) : list value := r.*2.

(** A method of [str] called on a cell: anything but a string has no
    such attribute. *)
Definition as_str (v : value) : result string :=
  match v with
  | VStr s => Ok s
  | _ => Raise AttributeError
  end.

(** ['- ' + v]: string concatenation demands a string on the right. *)
Definition concat_str (s : string) (v : value) : result string :=
  match v with
  | VStr t => Ok (s +:+ t)
  | _ => Raise TypeError
  end.

End Py.

(** ** Binary64 rounding

  The floats of the interpreter are IEEE 754 binary64 numbers, and
  every operation on them returns the representable number nearest to
  the exact result, the one with the even significand when two are
  equally near.  A finite float is modelled by the rational it denotes;
  infinities and NaN are out of reach of the scores, which are computed
  from sizes and lengths and lie between 0 and 1. *)

Module Binary64.

(** [n * 2^s / d] as a fraction of integers. *)
Definition scaled (n : Z) (d : positive) (s : Z) : Z * positive :=
  if 0 <=? s then (n * 2 ^ s, d) else (n, (d * Z.to_pos (2 ^ (- s)))%positive).

(** The integer nearest to [n / d] for [n >= 0], the even one of two
    that are equally near. *)
Definition nearest_even (n : Z) (d : positive) : Z :=
  let k := n / Z.pos d in
  match 2 * (n mod Z.pos d) ?= Z.pos d with
  | Lt => k
  | Gt => k + 1
  | Eq => if Z.even k then k else k + 1
  end.

(** [floor (log2 (n / d))] for [n > 0]. *)
Definition exponent (n : Z) (d : positive) : Z :=
  let e := Z.log2 n - Z.log2 (Z.pos d) in
  let '(x, y) := scaled n d (- e) in
  if x <? Z.pos y then e - 1 else e.

(** Rounding of a positive fraction: 53 significant bits, and no bit
    below [2^-1074]. *)
Definition fl_pos (n : Z) (d : positive) : Q :=
  let s := Z.min (52 - exponent n d) 1074 in
  let '(x, y) := scaled n d s in
  let m := nearest_even x y in
  if 0 <=? s then m # Z.to_pos (2 ^ s) else inject_Z (m * 2 ^ (- s)).

(** [fl q]: the binary64 number nearest to [q], ties to even. *)
Definition fl (q : Q) : Q :=
  match Qnum q with
  | Z0 => 0%Q
  | Zpos _ => fl_pos (Qnum q) (Qden q)
  | Zneg _ => (- fl_pos (- Qnum q) (Qden q))%Q
  end.

(** [float(n)] *)
Definition of_int (n : Z) : Q := fl (inject_Z n).

(** [x + y], [x * y] and [x / y] on floats.  Python raises on a
    division by zero; the quotients below are taken where the divisor
    is not 0. *)
Definition add (x y : Q) : Q := fl (x + y).
Definition mul (x y : Q) : Q := fl (x * y).
Definition div (x y : Q) : Q := fl (x / y).

(** [n / m] for two integers: the quotient, rounded once. *)
Definition div_int (n m : Z) : Q := fl (inject_Z n / inject_Z m).

End Binary64.

(** ** [difflib.SequenceMatcher(None, a, b).ratio()]

  The standard-library matcher as the program calls it: no junk
  predicate ([isjunk] is [None], so the junk set is empty and the two
  junk-extension loops of [find_longest_match] never run) and the
  default [autojunk] heuristic. *)

Module Difflib.
Section Matcher.
Context {A : Type} `{EqDecision A}.
Variables a b : list A.

(** Positions of [x] in [b], ascending, counted from [i]. *)
Fixpoint indices_from (i : nat) (x : A) (l : list A) : list nat :=
  match l with
  | [] => []
  | y :: l' =>
      if bool_decide (y = x) then i :: indices_from (S i) x l'
      else indices_from (S i) x l'
  end.

(** [b2j.get(x, [])] after [__chain_b]: with 200 elements or more, an
    element occurring more than [n // 100 + 1] times is "popular" and
    is dropped from the index. *)
Definition b2j (x : A) : list nat :=
  let idxs := indices_from 0 x b in
  let n := length b in
  if (200 <=? n)%nat && (n / 100 + 1 <? length idxs)%nat then [] else idxs.

(** [j2len.get(j - 1, 0)] *)
Definition j2lenget (j2len : gmap nat nat) (j : nat) : nat :=
  match j with
  | O => O
  | S j' => default O (j2len !! j')
  end.

(** The three running values [besti, bestj, bestsize]. *)
Definition best : Type := (nat * nat * nat)%type.

(** The inner [for j in b2j.get(a[i], nothing)] loop: [continue] below
    [blo], [break] from [bhi] on. *)
Fixpoint scan_js (blo bhi i : nat) (j2len : gmap nat nat) (js : list nat)
    (newj2len : gmap nat nat) (bst : best) : gmap nat nat * best :=
  match js with
  | [] => (newj2len, bst)
  | j :: js' =>
      if (j <? blo)%nat then scan_js blo bhi i j2len js' newj2len bst
      else if (bhi <=? j)%nat then (newj2len, bst)
      else
        let k := S (j2lenget j2len j) in
        let bst' := if (bst.2 <? k)%nat then (i + 1 - k, j + 1 - k, k)%nat
                    else bst in
        scan_js blo bhi i j2len js' (<[j := k]> newj2len) bst'
  end.

(** The outer [for i in range(alo, ahi)] loop, over the slice
    [a[alo:ahi]] with [i] its running index. *)
Fixpoint scan_is (blo bhi i : nat) (ai : list A) (j2len : gmap nat nat)
    (bst : best) : best :=
  match ai with
  | [] => bst
  | x :: ai' =>
      let '(newj2len, bst') := scan_js blo bhi i j2len (b2j x) ∅ bst in
      scan_is blo bhi (S i) ai' newj2len bst'
  end.

(** [while besti > alo and bestj > blo and a[besti-1] == b[bestj-1]] *)
Fixpoint extend_left (alo blo besti bestj bestsize : nat) : best :=
  match besti, bestj with
  | S i', S j' =>
      if (alo <? besti)%nat && (blo <? bestj)%nat
         && bool_decide (a !! i' = b !! j')
      then extend_left alo blo i' j' (S bestsize)
      else (besti, bestj, bestsize)
  | _, _ => (besti, bestj, bestsize)
  end.

(** [while besti+bestsize < ahi and bestj+bestsize < bhi and
    a[besti+bestsize] == b[bestj+bestsize]]; [room] counts the
    elements of [a] left below [ahi]. *)
Fixpoint extend_right (bhi besti bestj : nat) (room bestsize : nat) : nat :=
  match room with
  | O => bestsize
  | S room' =>
      if (bestj + bestsize <? bhi)%nat
         && bool_decide (a !! (besti + bestsize)%nat = b !! (bestj + bestsize)%nat)
      then extend_right bhi besti bestj room' (S bestsize)
      else bestsize
  end.

Definition find_longest_match (alo ahi blo bhi : nat) : best :=
  let '(besti, bestj, bestsize) :=
    scan_is blo bhi alo (take (ahi - alo) (drop alo a)) ∅ (alo, blo, O) in
  let '(besti, bestj, bestsize) :=
    extend_left alo blo besti bestj bestsize in
  let bestsize :=
    extend_right bhi besti bestj (ahi - (besti + bestsize)) bestsize in
  (besti, bestj, bestsize).

(** An entry [(alo, ahi, blo, bhi)] of the work list. *)
Definition region : Type := (nat * nat * nat * nat)%type.

(** The [while queue] loop of [get_matching_blocks]: [queue.pop()]
    takes the entry appended last.  [None] only when [fuel] runs out. *)
Fixpoint matching_loop (fuel : nat) (queue : list region)
    (matching_blocks : list best) : option (list best) :=
  match fuel with
  | O => None
  | S fuel' =>
      match queue with
      | [] => Some matching_blocks
      | (alo, ahi, blo, bhi) :: queue' =>
          let '(i, j, k) := find_longest_match alo ahi blo bhi in
          if (k =? 0)%nat then matching_loop fuel' queue' matching_blocks
          else
            let q1 := if (alo <? i)%nat && (blo <? j)%nat
                      then (alo, i, blo, j) :: queue' else queue' in
            let q2 := if (i + k <? ahi)%nat && (j + k <? bhi)%nat
                      then (i + k, ahi, j + k, bhi)%nat :: q1 else q1 in
            matching_loop fuel' q2 (matching_blocks ++ [(i, j, k)])
      end
  end.

(** The blocks found by [get_matching_blocks], before they are sorted,
    adjacent ones merged and the empty sentinel [(la, lb, 0)] added:
    none of these steps changes the sum of the sizes, which is all that
    [ratio] reads. *)
Definition get_matching_blocks : option (list best) :=
  matching_loop (2 * length a + 2) [(O, length a, O, length b)] [].

Definition matches_of (blocks : list best) : nat :=
  foldr (λ t acc, (t.2 + acc)%nat) O blocks.

(** [_calculate_ratio(matches, length)] *)
Definition calculate_ratio (matches len : nat) : Q :=
  if (len =? 0)%nat then 1
  else (2 * Z.of_nat matches) # (Pos.of_nat len).

Definition ratio : option Q :=
  blocks ← get_matching_blocks;
  Some (calculate_ratio (matches_of blocks) (length a + length b)).

(** [2.0 * matches / length] with its two roundings. *)
Definition calculate_ratio_float (matches len : nat) : Q :=
  if (len =? 0)%nat then 1
  else Binary64.div (Binary64.mul 2 (Binary64.of_int (Z.of_nat matches)))
                    (Binary64.of_int (Z.of_nat len)).

Definition ratio_float : option Q :=
  blocks ← get_matching_blocks;
  Some (calculate_ratio_float (matches_of blocks) (length a + length b)).

End Matcher.
End Difflib.

(** ** [services/qa_agent_new.py] *)

Module QAAgent.
Import Py.

(** *** Text normalisation and scoring *)

(** One character under [re.sub(r"[^a-z0-9\s]", " ", s)]. *)
Definition keep_or_blank (c : ascii) : ascii :=
  if islower c || isdigit c || isspace c then c else " "%char.

Fixpoint sub_non_alnum (s : string) : string :=
  match s with
  | "" => ""
  | String c s' => String (keep_or_blank c) (sub_non_alnum s')
  end.

(** [re.sub(r"\s+", " ", s)]: every run of blanks becomes one space. *)
Fixpoint sub_spaces (s : string) : string :=
  match s with
  | "" => ""
  | String c s' =>
      if isspace c then
        match s' with
        | "" => " "
        | String c' _ =>
            if isspace c' then sub_spaces s' else String " " (sub_spaces s')
        end
      else String c (sub_spaces s')
  end.

Definition _normalize_text (s : string) : string :=
  if bool_decide (s = "") then ""
  else strip (sub_spaces (sub_non_alnum (lower s))).

(** [set(text.split())] *)
Definition token_set (text : string) : gset string :=
  list_to_set (split text).

(** [difflib.SequenceMatcher(None, a, b).ratio()]; the matcher always
    returns (lemma [ratio_is_Some] below), the default is never used. *)
Definition seq_ratio (x y : string) : Q :=
  default 0%Q
    (Difflib.ratio (String.list_ascii_of_string x)
                   (String.list_ascii_of_string y)).

Definition q_of_nat (n : nat) : Q := inject_Z (Z.of_nat n).

Definition _score_doc (doc_text query : string) : Q :=
  if bool_decide (query = "") || bool_decide (doc_text = "") then 0%Q
  else
    let query_norm := _normalize_text query in
    let doc_norm := _normalize_text doc_text in
    let query_tokens := token_set query_norm in
    let doc_tokens := token_set doc_norm in
    if bool_decide (query_tokens = ∅) || bool_decide (doc_tokens = ∅) then 0%Q
    else
      let overlap :=
        (q_of_nat (size (query_tokens ∩ doc_tokens))
         / q_of_nat (size query_tokens `min` size doc_tokens))%Q in
      let seq_sim := seq_ratio query_norm doc_norm in
      (0.65 * overlap + 0.35 * seq_sim)%Q.

(** The same two functions with the roundings of the interpreter: the
    literals [0.65] and [0.35] are the floats nearest to them, the
    quotient of the two sizes is rounded once, and so are each product
    and the sum. *)
Definition seq_ratio_float (x y : string) : Q :=
  default 0%Q
    (Difflib.ratio_float (String.list_ascii_of_string x)
                         (String.list_ascii_of_string y)).

Definition _score_doc_float (doc_text query : string) : Q :=
  if bool_decide (query = "") || bool_decide (doc_text = "") then 0%Q
  else
    let query_norm := _normalize_text query in
    let doc_norm := _normalize_text doc_text in
    let query_tokens := token_set query_norm in
    let doc_tokens := token_set doc_norm in
    if bool_decide (query_tokens = ∅) || bool_decide (doc_tokens = ∅) then 0%Q
    else
      let overlap :=
        Binary64.div_int (Z.of_nat (size (query_tokens ∩ doc_tokens)))
                         (Z.of_nat (size query_tokens `min` size doc_tokens)) in
      let seq_sim := seq_ratio_float query_norm doc_norm in
      Binary64.add (Binary64.mul (Binary64.fl 0.65) overlap)
                   (Binary64.mul (Binary64.fl 0.35) seq_sim).

(** *** Sheet retrieval *)

(** [for key in keys: if row.get(key): ...; break] *)
Fixpoint first_truthy (r : row) (keys : list string) : option value :=
  match keys with
  | [] => None
  | key :: keys' =>
      if truthy (get r key) then Some (get r key) else first_truthy r keys'
  end.

Definition _row_to_doc_text (r : row) : string :=
  let q_part :=
    match first_truthy r ["question"; "q"; "query"; "prompt"] with
    | Some v => ["Q: " +:+ str v]
    | None => []
    end in
  let a_part :=
    match first_truthy r ["answer"; "a"; "response"; "reply"] with
    | Some v => ["A: " +:+ str v]
    | None => []
    end in
  let text_parts := q_part ++ a_part in
  let text_parts :=
    match text_parts with
    | [] =>
        let text := join " | " (str <$> filter (λ v, truthy v = true) (values r)) in
        if bool_decide (text = "") then [] else [text]
    | _ => text_parts
    end in
  join nl text_parts.

(** One entry of [scored_results]. *)
Definition scored : Type := (Q * string * row)%type.

Definition score_of (x : scored) : Q := x.1.1.

(** [list.sort(key=lambda x: x[0], reverse=True)]: the stable sort of
    the library, written as a stable insertion from the right; an
    element goes in front of the first one that does not beat it. *)
Fixpoint insert_desc (x : scored) (l : list scored) : list scored :=
  match l with
  | [] => [x]
  | y :: l' =>
      if Qlt_le_dec (score_of x) (score_of y) then y :: insert_desc x l'
      else x :: l
  end.

Definition sort_desc (l : list scored) : list scored :=
  foldr insert_desc [] l.

(** [l[:k]] for an integer [k]; a negative [k] counts from the end. *)
Definition slice_to {X} (l : list X) (k : Z) : list X :=
  if (0 <=? k) then take (Z.to_nat k) l
  else take (length l - Z.to_nat (- k)) l.

Record passage : Type := Passage {
  page_content : string;
  score : Q;
  metadata : row
}.

(** [k or self.retriever_k] *)
Definition k_or (k : option Z) (retriever_k : Z) : Z :=
  match k with
  | Some n => if n =? 0 then retriever_k else n
  | None => retriever_k
  end.

(** [_retrieve_from_sheets], as a function of the two attributes it
    reads.  The sort compares the scores the interpreter computed. *)
Definition retrieve_rows (qna_rows : list row) (retriever_k : Z)
    (query : string) (k : option Z) : list passage :=
  let k := k_or k retriever_k in
  match qna_rows with
  | [] => []
  | _ =>
      let scored_results :=
        (λ r, let doc_text := _row_to_doc_text r in
              (_score_doc_float doc_text query, doc_text, r)) <$> qna_rows in
      let selected := slice_to (sort_desc scored_results) k in
      (λ x : scored, Passage x.1.2 x.1.1 x.2) <$> selected
  end.

(** *** The bot and the world around one call *)

Inductive role : Type := User | Assistant.

(** One entry of a conversation history:
    [{"role": ..., "text": ..., "timestamp": ...}]. *)
Record turn : Type := Turn {
  turn_role : role;
  turn_text : string;
  turn_timestamp : string
}.

(** A key of the [chat_history] dict.  Python identifies the keys
    [True] and [1] (and [False] and [0]). *)
Inductive hkey : Type :=
| KNone
| KStr (s : string)
| KInt (n : Z).

Global Instance hkey_eq_dec : EqDecision hkey.
Proof. solve_decision. Defined.

Global Instance hkey_countable : Countable hkey.
Proof.
  refine (inj_countable'
    (λ k, match k with
          | KNone => inl ()
          | KStr s => inr (inl s)
          | KInt n => inr (inr n)
          end)
    (λ x, match x with
          | inl _ => KNone
          | inr (inl s) => KStr s
          | inr (inr n) => KInt n
          end) _).
  by intros [].
Defined.

Definition key_of (v : value) : hkey :=
  match v with
  | VNone => KNone
  | VStr s => KStr s
  | VInt n => KInt n
  | VBool b => KInt (if b then 1 else 0)
  end.

Definition key_truthy (k : hkey) : bool :=
  match k with
  | KNone => false
  | KStr s => negb (bool_decide (s = ""))
  | KInt n => negb (n =? 0)
  end.

(** An instance attribute that [__init__] may have left unset. *)
Inductive attr (A : Type) : Type :=
| Unset
| Attr (x : A).
Arguments Unset {A}.
Arguments Attr {A} x.

Definition getattr {A} (x : attr A) : result A :=
  match x with
  | Unset => Raise AttributeError
  | Attr v => Ok v
  end.

(** The attributes of a [ConciergeBot] that [ask] reads or writes.
    [menu] is assigned by [_refresh_sheets] only ([__init__] sets
    [menu_rows]); [retriever] is assigned only on the vector-store
    path of [__init__], where [false] stands for [None]. *)
Record Bot : Type := MkBot {
  chat_history : gmap hkey (list turn);
  use_sheet : bool;
  retriever_k : Z;
  qna_sheet : string;
  dos_sheet : string;
  campaign_sheet : string;
  menu_sheet : string;
  client_sheet : string;
  qna_rows : list row;
  dos_donts : list row;
  campaigns : list row;
  menu : attr (list row);
  client_rows : list row;
  retriever : attr bool
}.

Definition set_chat_history (h : gmap hkey (list turn)) (st : Bot) : Bot :=
  MkBot h (use_sheet st) (retriever_k st) (qna_sheet st) (dos_sheet st)
    (campaign_sheet st) (menu_sheet st) (client_sheet st) (qna_rows st)
    (dos_donts st) (campaigns st) (menu st) (client_rows st) (retriever st).

Definition set_qna_rows (x : list row) (st : Bot) : Bot :=
  MkBot (chat_history st) (use_sheet st) (retriever_k st) (qna_sheet st)
    (dos_sheet st) (campaign_sheet st) (menu_sheet st) (client_sheet st) x
    (dos_donts st) (campaigns st) (menu st) (client_rows st) (retriever st).

Definition set_dos_donts (x : list row) (st : Bot) : Bot :=
  MkBot (chat_history st) (use_sheet st) (retriever_k st) (qna_sheet st)
    (dos_sheet st) (campaign_sheet st) (menu_sheet st) (client_sheet st)
    (qna_rows st) x (campaigns st) (menu st) (client_rows st) (retriever st).

Definition set_campaigns (x : list row) (st : Bot) : Bot :=
  MkBot (chat_history st) (use_sheet st) (retriever_k st) (qna_sheet st)
    (dos_sheet st) (campaign_sheet st) (menu_sheet st) (client_sheet st)
    (qna_rows st) (dos_donts st) x (menu st) (client_rows st) (retriever st).

Definition set_menu (x : list row) (st : Bot) : Bot :=
  MkBot (chat_history st) (use_sheet st) (retriever_k st) (qna_sheet st)
    (dos_sheet st) (campaign_sheet st) (menu_sheet st) (client_sheet st)
    (qna_rows st) (dos_donts st) (campaigns st) (Attr x) (client_rows st)
    (retriever st).

Definition set_client_rows (x : list row) (st : Bot) : Bot :=
  MkBot (chat_history st) (use_sheet st) (retriever_k st) (qna_sheet st)
    (dos_sheet st) (campaign_sheet st) (menu_sheet st) (client_sheet st)
    (qna_rows st) (dos_donts st) (campaigns st) (menu st) x (retriever st).

(** What one call of [ask] meets outside the bot. *)
Record World : Type := MkWorld {
  (** [_fetch_sheet_data(sheet_name)] *)
  fetch : string → result (list row);
  (** [time.time()] *)
  now : Q;
  (** [datetime.utcnow().isoformat()] at the two appends *)
  utcnow_user : string;
  utcnow_assistant : string;
  (** the objects of [data/agents.json]; none if the file is missing
      or unreadable *)
  agents_json : list row;
  (** [self.retriever.invoke(query)] *)
  retriever_invoke : string → result (list passage);
  (** [self.llm.invoke(prompt).content] *)
  llm_invoke : string → result string
}.

(** Computations on the bot that may raise. *)
Definition M (A : Type) : Type := Bot → Bot * result A.

Global Instance M_ret : MRet M := λ A a st, (st, Ok a).
Global Instance M_bind : MBind M := λ A B f m st,
  match m st with
  | (st', Ok a) => f a st'
  | (st', Raise e) => (st', Raise e)
  end.

Definition lift {A} (r : result A) : M A := λ st, (st, r).
Definition gets {A} (f : Bot → A) : M A := λ st, (st, Ok (f st)).
Definition modify (f : Bot → Bot) : M unit := λ st, (f st, Ok ()).

(** [try: m  except Exception: h] *)
Definition try_except {A} (m : M A) (h : exn → M A) : M A := λ st,
  match m st with
  | (st', Raise e) => h e st'
  | r => r
  end.

(** [l[-n:]] for a positive [n] *)
Definition last_n {X} (n : nat) (l : list X) : list X :=
  drop (length l - n) l.

(** [a or b or ... or ""] over the cells of a row *)
Definition first_of (r : row) (keys : list string) : value :=
  foldr (λ key rest, por (get r key) rest) (VStr "") keys.

(** *** [_refresh_sheets] *)

Definition process_dos (r : row) : row :=
  let do_val := first_of r ["Do"; "do"; "Do's"; "Do_s"; "Do / Don't"] in
  let dont_val := first_of r ["Don't"; "Dont"; "dont"; "Don'ts"; "Dont_s"] in
  [("do", VStr (strip (str do_val))); ("dont", VStr (strip (str dont_val)))].

Definition _refresh_sheets (w : World) : M unit :=
  name ← gets qna_sheet; rows ← lift (fetch w name); modify (set_qna_rows rows);;
  name ← gets dos_sheet; raw_dos ← lift (fetch w name);
  modify (set_dos_donts (process_dos <$> raw_dos));;
  name ← gets campaign_sheet; rows ← lift (fetch w name);
  modify (set_campaigns rows);;
  name ← gets menu_sheet; rows ← lift (fetch w name); modify (set_menu rows);;
  name ← gets client_sheet; rows ← lift (fetch w name);
  modify (set_client_rows rows).

(** *** History key *)

(** [int(t)]: truncation towards zero *)
Definition int_of (t : Q) : Z := Z.quot (Qnum t) (Zpos (Qden t)).

Definition row_truthy (r : option row) : bool :=
  match r with
  | Some (_ :: _) => true
  | _ => false
  end.

Definition str_truthy (s : option string) : bool :=
  match s with
  | Some s => negb (bool_decide (s = ""))
  | None => false
  end.

Definition _get_chat_history_key (w : World) (client_row : option row)
    (user_identifier : option string) : hkey :=
  let r := default [] client_row in
  if row_truthy client_row && truthy (get r "Email") then
    key_of (get r "Email")
  else if row_truthy client_row && truthy (get r "Client Id") then
    key_of (get r "Client Id")
  else if str_truthy user_identifier then
    KStr ("user_" +:+ default "" user_identifier)
  else
    KStr ("session_" +:+ pretty (int_of (now w))).

(** *** Identity resolution *)

(** The body of the loop of [_find_client_row] for one row: does the
    row match? *)
Definition row_matches (iid : string) (r : row) : result bool :=
  email ← as_str (get_default r "Email" (VStr ""));
  if bool_decide (lower (strip email) = iid) then Ok true
  else
    let client_id := lower (strip (str (por (get r "Client Id") (VStr "")))) in
    let booking_id := lower (strip (str (por (get r "Booking Id") (VStr "")))) in
    let name := lower (strip (str (por (get r "Name") (VStr "")))) in
    Ok (negb (bool_decide (iid = ""))
        && (bool_decide (iid = client_id) || bool_decide (iid = booking_id)
            || bool_decide (iid = name))).

Fixpoint find_row (iid : string) (rows : list row) : result (option row) :=
  match rows with
  | [] => Ok None
  | r :: rows' =>
      hit ← row_matches iid r;
      if hit : bool then Ok (Some r) else find_row iid rows'
  end.

Definition find_client_row (client_rows : list row) (identifier : string)
    : result (option row) :=
  if bool_decide (identifier = "") || bool_decide (client_rows = []) then Ok None
  else find_row (lower (strip identifier)) client_rows.

Definition _find_client_row (identifier : string) : M (option row) :=
  rows ← gets client_rows; lift (find_client_row rows identifier).

(** *** Policy evaluation *)

Definition placeholders : list string := ["-"; "none"; ""; "n/a"].

Definition _is_user_booked (client_row : option row) : bool :=
  if negb (row_truthy client_row) then false
  else
    let r := default [] client_row in
    let wf := lower (strip (str
      (first_of r ["Workfow Stage"; "Workflow Stage"; "WorkFlow"; "Workfow"]))) in
    if bool_decide (wf = "confirmed") then true
    else
      let booking_id := strip (str (por (get r "Booking Id") (VStr ""))) in
      if negb (bool_decide (booking_id = "")) && negb (mem booking_id placeholders)
      then true
      else
        let room := strip (str (por (get r "Room Alloted") (VStr ""))) in
        if negb (bool_decide (room = "")) && negb (mem room placeholders)
        then true
        else false.

Definition _is_id_verified (client_row : option row) : bool :=
  if negb (row_truthy client_row) then false
  else
    let id_link := get (default [] client_row) "Id Link" in
    if negb (truthy id_link) then false
    else
      let id_link := lower (strip (str id_link)) in
      if bool_decide (id_link = "done") || contains id_link "http" then true
      else false.

(** *** Prompt composition *)

Definition concat_all (parts : list string) : string :=
  foldr String.append "" parts.

(** The loop over [data/agents.json]: the last "Front Desk" entry
    carrying an [agent_name] decides. *)
Definition agent_name_of (agents : list row) : value :=
  foldl (λ agent_name agent,
           if bool_decide (get agent "Name" = VStr "Front Desk")
           then get_default agent "agent_name" agent_name
           else agent_name)
        (VStr "AI Assistant") agents.

Definition rule_lines (entry : row) : string :=
  let do := strip (str (por (get entry "do") (VStr ""))) in
  let dont := strip (str (por (get entry "dont") (VStr ""))) in
  (if bool_decide (do = "") then "" else "- ✅ Do: " +:+ do +:+ nl)
  +:+ (if bool_decide (dont = "") then "" else "- ❌ Don't: " +:+ dont +:+ nl).

Definition rules_text_of (dos_donts : list row) : string :=
  match dos_donts with
  | [] => ""
  | _ => nl +:+ nl +:+ "📋 **Important Communication Rules:**" +:+ nl
         +:+ concat_all (rule_lines <$> dos_donts)
  end.

(** [('- ' + x) if x else ''] *)
Definition dash_if (x : value) : result string :=
  if truthy x then concat_str "- " x else Ok "".

Definition campaign_line (campaign : row) : result string :=
  let title := first_of campaign ["Name"; "Title"] in
  let desc := first_of campaign ["Description"; "Desc"] in
  if truthy title || truthy desc then
    d ← dash_if desc;
    Ok ("- " +:+ str title +:+ " " +:+ d +:+ nl)
  else Ok "".

Definition campaigns_header : string :=
  nl +:+ nl +:+ "📣 **Active Campaigns / Promos:**" +:+ nl.

(** The campaigns block, once its guard has passed. *)
Definition campaigns_block (campaigns : list row) : result string :=
  lines ← mapM campaign_line (take 5 campaigns);
  Ok (campaigns_header +:+ concat_all lines).

Definition menu_line (item : row) : result string :=
  let type_ := por (get item "Type") (VStr "") in
  let name := por (get item "Item") (VStr "") in
  let price := por (get item "Price") (VStr "") in
  let desc := por (get item "Description") (VStr "") in
  d ← dash_if desc;
  Ok ("- " +:+ str type_ +:+ " " +:+ str name +:+ " "
      +:+ (if truthy price then "- " +:+ str price else "") +:+ " "
      +:+ d +:+ nl).

Definition menu_header : string :=
  nl +:+ nl +:+ "📋 **Menu / Services:**" +:+ nl.

(** The menu block, once its guard has passed. *)
Definition menu_block (menu : list row) : result string :=
  lines ← mapM menu_line menu;
  Ok (menu_header +:+ concat_all lines).

Definition history_line (msg : turn) : string :=
  (match turn_role msg with User => "User" | Assistant => "Assistant" end)
  +:+ ": " +:+ turn_text msg +:+ nl.

Definition history_text_of (h : gmap hkey (list turn)) (session_id : option hkey)
    : string :=
  match session_id with
  | Some key =>
      if key_truthy key then
        match h !! key with
        | Some msgs =>
            nl +:+ "Previous conversation context:" +:+ nl
            +:+ concat_all (history_line <$> last_n 5 msgs)
        | None => ""
        end
      else ""
  | None => ""
  end.

Definition preamble (agent_name : value) : string :=
  "You are an AI agent named " +:+ str agent_name
  +:+ ", a knowledgeable and polite concierge assistant at ILORA RETREATS. ".

Definition gated_framing : string :=
  "For in-room services, spa bookings, or amenity access, politely explain that a confirmed booking and ID verification are required."
  +:+ nl +:+ nl.

Definition open_framing : string :=
  "Handle all in-room service requests directly and create service tickets for guest requests."
  +:+ nl +:+ nl.

Definition status_text (is_booked : bool) : string :=
  if negb is_booked then "Not Booked" else "Booked but ID Not Verified".

Definition _build_prompt (w : World) (hotel_data query : string)
    (session_id : option hkey) (is_booked is_verified : bool) : M string :=
  let agent_name := agent_name_of (agents_json w) in
  dos ← gets dos_donts;
  let rules_text := rules_text_of dos in
  cs ← gets campaigns;
  campaigns_text ←
    (if negb (bool_decide (cs = [])) && (is_booked && is_verified)
     then lift (campaigns_block cs) else mret "");
  m ← gets menu;
  items ← lift (getattr m);
  menu_text ←
    (if negb (bool_decide (items = [])) && (is_booked && is_verified)
     then lift (menu_block items) else mret "");
  h ← gets chat_history;
  let chat_history_text := history_text_of h session_id in
  if negb is_booked || negb is_verified then
    mret (preamble agent_name
          +:+ gated_framing
          +:+ "Status: " +:+ status_text is_booked +:+ nl +:+ nl
          +:+ "Hotel Data:" +:+ nl +:+ hotel_data +:+ nl +:+ nl
          +:+ chat_history_text +:+ nl
          +:+ "Guest Query: " +:+ query +:+ nl
          +:+ rules_text)
  else
    mret (preamble agent_name
          +:+ open_framing
          +:+ "Hotel Data:" +:+ nl +:+ hotel_data +:+ nl +:+ nl
          +:+ menu_text +:+ nl +:+ nl
          +:+ chat_history_text +:+ nl
          +:+ "Guest Query: " +:+ query +:+ nl
          +:+ rules_text
          +:+ campaigns_text).

(** *** [ask] *)

Definition apology : string :=
  "I apologize, but I encountered an issue while processing your request. Please try again or contact our front desk for assistance.".

Definition _retrieve_from_sheets (query : string) (k : option Z)
    : M (list passage) :=
  rows ← gets qna_rows; rk ← gets retriever_k;
  mret (retrieve_rows rows rk query k).

(** [if key not in self.chat_history: self.chat_history[key] = []] *)
Definition init_history (key : hkey) : M unit :=
  modify (λ st, match chat_history st !! key with
                | Some _ => st
                | None => set_chat_history (<[key := []]> (chat_history st)) st
                end).

(** [self.chat_history[key].append(t)] *)
Definition append_turn (key : hkey) (t : turn) : M unit := λ st,
  match chat_history st !! key with
  | Some msgs =>
      (set_chat_history (<[key := msgs ++ [t]]> (chat_history st)) st, Ok ())
  | None => (st, Raise KeyError)
  end.

(** [if len(h[key]) > 50: h[key] = h[key][-50:]] *)
Definition trim_history (key : hkey) : M unit := λ st,
  match chat_history st !! key with
  | Some msgs =>
      if (50 <? length msgs)%nat
      then (set_chat_history (<[key := last_n 50 msgs]> (chat_history st)) st,
            Ok ())
      else (st, Ok ())
  | None => (st, Raise KeyError)
  end.

(** The body of the outer [try] of [ask]; logging and the local
    [chat_history_text], which is built and never used, are left out. *)
Definition ask_body (w : World) (query : string)
    (user_identifier : option string) : M string :=
  use ← gets use_sheet;
  (if use : bool then try_except (_refresh_sheets w) (λ _, mret ())
   else mret ());;
  client_row ←
    (if str_truthy user_identifier
     then _find_client_row (default "" user_identifier) else mret None);
  let chat_history_key := _get_chat_history_key w client_row user_identifier in
  init_history chat_history_key;;
  append_turn chat_history_key (Turn User query (utcnow_user w));;
  let is_booked :=
    if row_truthy client_row then _is_user_booked client_row else false in
  let id_verified :=
    if row_truthy client_row then _is_id_verified client_row else false in
  use ← gets use_sheet;
  docs ←
    (if use : bool then rk ← gets retriever_k; _retrieve_from_sheets query (Some rk)
     else mret []);
  docs ←
    (if bool_decide (docs = []) then
       r ← gets retriever;
       has_retriever ← lift (getattr r);
       if has_retriever : bool
       then try_except (lift (retriever_invoke w query)) (λ _, mret docs)
       else mret docs
     else mret docs);
  let hotel_data := join (nl +:+ nl) (page_content <$> docs) in
  system_prompt ←
    _build_prompt w hotel_data query (Some chat_history_key) is_booked id_verified;
  content ← lift (llm_invoke w system_prompt);
  let final_answer := strip content in
  append_turn chat_history_key (Turn Assistant final_answer (utcnow_assistant w));;
  trim_history chat_history_key;;
  mret final_answer.

(** [ask]: the reply and the bot it leaves behind.  Whatever is raised
    inside is answered by the fixed apology. *)
Definition ask (w : World) (query : string) (user_identifier : option string)
    (st : Bot) : Bot * string :=
  match ask_body w query user_identifier st with
  | (st', Ok final_answer) => (st', final_answer)
  | (st', Raise _) => (st', apology)
  end.

End QAAgent.

(** ** The booking-form directive of the [/chat] handlers

  [intent] is what [classify_intent(user_input)] returned; the
  classifier lives in [services/intent_classifier.py]. *)

Module MainNew.
Import Py.

Definition booking_keywords : list string :=
  ["book a room"; "book room"; "book"; "reserve"; "reservation";
   "room availability"].

(** [actions.show_booking_form] at the end of [chat] in [main_new.py]:
    [False] from [ChatActions()], set by the keyword test alone. *)
Definition show_booking_form (message intent : string) : bool :=
  let message_lower := lower message in
  existsb (λ kw, contains message_lower kw) booking_keywords.

End MainNew.

Module Main.
Import Py.

(** [actions.show_booking_form] at the end of [chat] in [main.py]:
    [False] from [ChatActions()], set by the intent test alone. *)
Definition show_booking_form (message intent : string) : bool :=
  mem intent ["payment_request"; "booking_request"].

End Main.

(** * The rest of the program

  The handlers around the bot, the start of the bot, and the bot and
  the dialogue of the older entry points. *)

(** ** More Python built-ins, used by the handlers *)

Module PyMore.
Import Py.

(** [any(k in text for k in words)] *)
Definition any_in (text : string) (words : list string) : bool :=
  existsb (λ k, contains text k) words.

(** [d.get(key)] for a dict with values of one type *)
Fixpoint dict_get {A} (d : list (string * A)) (key : string) : option A :=
  match d with
  | [] => None
  | (k, v) :: d' => if bool_decide (k = key) then Some v else dict_get d' key
  end.

(** [d[key]] for a row *)
Fixpoint getitem (r : row) (key : string) : result value :=
  match r with
  | [] => Raise KeyError
  | (k, v) :: r' => if bool_decide (k = key) then Ok v else getitem r' key
  end.

(** [d[key] = v]: an existing key keeps its place. *)
Fixpoint setitem (r : row) (key : string) (v : value) : row :=
  match r with
  | [] => [(key, v)]
  | (k, x) :: r' =>
      if bool_decide (k = key) then (k, v) :: r' else (k, x) :: setitem r' key v
  end.

(** [v == n] for an integer [n]; [True] and [False] compare as 1 and
    0. *)
Definition eq_int (v : value) (n : Z) : bool :=
  match v with
  | VInt m => m =? n
  | VBool b => (if b then 1 else 0) =? n
  | _ => false
  end.

(** [s.split(sep)] for a separator that is not empty: the text is cut
    at the occurrences of [sep] found from left to right.  [skip]
    counts the characters of a separator just found that are still to
    be passed. *)
Fixpoint split_at (sep : string) (skip : nat) (s : string) : string * list string :=
  match s with
  | "" => ("", [])
  | String c s' =>
      match skip with
      | S n => split_at sep n s'
      | O =>
          if String.prefix sep s then
            let r := split_at sep (String.length sep - 1) s' in
            ("", r.1 :: r.2)
          else
            let r := split_at sep 0 s' in
            (String c r.1, r.2)
      end
  end.

Definition split_on (sep s : string) : list string :=
  let r := split_at sep 0 s in r.1 :: r.2.

End PyMore.

(** ** [ConciergeBot.__init__] of [services/qa_agent_new.py] *)

Module QAInit.
Import Py QAAgent.

(** What [__init__] reads from [Config] and meets outside the bot. *)
Record Config : Type := MkConfig {
  (** [bool(self.sheet_api)] *)
  sheet_api_set : bool;
  GSHEET_QNA_SHEET : string;
  GSHEET_DOS_SHEET : string;
  GSHEET_CAMPAIGN_SHEET : string;
  GSHEET_MENU_SHEET : string;
  GSHEET_CLIENT_SHEET : string;
  RETRIEVER_K : Z;
  (** [ChatOpenAI(...)] *)
  make_llm : result unit;
  (** [create_vector_store()] followed by [as_retriever(...)] *)
  make_retriever : result unit;
  (** what [_load_dos_donts_from_file] returns: the rows of
      [data/dos_donts.json], none if the file is missing or unreadable *)
  dos_donts_file : list row
}.

Definition set_use_sheet (b : bool) (st : Bot) : Bot :=
  MkBot (chat_history st) b (retriever_k st) (qna_sheet st) (dos_sheet st)
    (campaign_sheet st) (menu_sheet st) (client_sheet st) (qna_rows st)
    (dos_donts st) (campaigns st) (menu st) (client_rows st) (retriever st).

Definition set_retriever (r : bool) (st : Bot) : Bot :=
  MkBot (chat_history st) (use_sheet st) (retriever_k st) (qna_sheet st)
    (dos_sheet st) (campaign_sheet st) (menu_sheet st) (client_sheet st)
    (qna_rows st) (dos_donts st) (campaigns st) (menu st) (client_rows st)
    (Attr r).

(** The attributes as they stand before the first refresh: [menu] and
    [retriever] are not assigned yet. *)
Definition blank_bot (c : Config) : Bot :=
  MkBot ∅ (sheet_api_set c) (RETRIEVER_K c) (GSHEET_QNA_SHEET c)
    (GSHEET_DOS_SHEET c) (GSHEET_CAMPAIGN_SHEET c) (GSHEET_MENU_SHEET c)
    (GSHEET_CLIENT_SHEET c) [] [] [] Unset [] Unset.

(** The block [if self.use_sheet:]: a refresh that raises turns sheet
    mode off and leaves what it had assigned. *)
Definition init_sheets (w : World) (st : Bot) : Bot :=
  if use_sheet st then
    match _refresh_sheets w st with
    | (st', Ok _) => st'
    | (st', Raise _) => set_use_sheet false st'
    end
  else st.

(** The block [if not self.use_sheet:]. *)
Definition init_vector_store (c : Config) (st : Bot) : Bot :=
  if negb (use_sheet st) then
    match make_retriever c with
    | Ok _ => set_retriever true st
    | Raise _ => set_retriever false st
    end
  else st.

(** The block [if not self.dos_donts:]. *)
Definition init_dos_donts (c : Config) (st : Bot) : Bot :=
  if bool_decide (dos_donts st = [])
  then set_dos_donts (dos_donts_file c) st else st.

(** [__init__]: the bot it leaves, or the exception it re-raises. *)
Definition __init__ (w : World) (c : Config) : result Bot :=
  _ ← make_llm c;
  Ok (init_dos_donts c (init_vector_store c (init_sheets w (blank_bot c)))).

End QAInit.

(** ** The bot call and the reply of [chat] in [main_new.py] *)

Module WebChat.
Import Py PyMore QAAgent.

Record ChatReq : Type := MkChatReq {
  message : string;
  is_guest : option bool;
  session_id : option string;
  email : option string
}.

(** [bot_reply_text = bot.ask(user_input, user_type=is_guest)]: the
    call names no [user_identifier], and [ask] never reads
    [user_type]. *)
Definition bot_reply_text (w : World) (req : ChatReq) (st : Bot) : Bot * string :=
  let user_input := message req in
  ask w user_input None st.

(** [reply_parts = bot_reply_text.split("\n\n")] *)
Definition reply_parts (bot_reply_text : string) : list string :=
  split_on (nl +:+ nl) bot_reply_text.

End WebChat.

(** ** The ticket and log helpers of [main_new.py] *)

Module Tickets.
Import Py PyMore.

Definition ticket_intents : list string :=
  ["book_addon_spa"; "book_addon_beverage"; "book_addon_food";
   "request_service"; "room_service_request"; "maintenance_request";
   "order_addon"].

Definition keywords : list string :=
  ["coffee"; "tea"; "order"; "bring"; "deliver"; "room service"; "food";
   "meal"; "snack"; "towel"; "clean"; "housekeeping"; "makeup room";
   "turn down"; "repair"; "fix"; "ac"; "wifi"; "tv"; "light"; "broken";
   "leak"; "toilet"; "bathroom"; "shower"].

Definition is_ticket_request (message intent : string)
    (addon_matches : option (list string)) : bool :=
  if bool_decide (message = "") then false
  else
    let lower := lower message in
    if mem intent ticket_intents then true
    else if any_in lower keywords then true
    else match addon_matches with
         | Some (_ :: _) => true
         | _ => false
         end.

Definition food_words : list string :=
  ["coffee"; "tea"; "drink"; "food"; "meal"; "snack"; "beverage";
   "breakfast"; "lunch"; "dinner"].

Definition room_service_words : list string :=
  ["towel"; "clean"; "housekeeping"; "room service"; "bed"; "makeup";
   "turn down"; "linen"].

Definition engineering_words : list string :=
  ["ac"; "wifi"; "tv"; "light"; "repair"; "engineer"; "fix"; "leak";
   "broken"; "toilet"; "plumb"; "electr"].

Definition classify_ticket_category (message : string) : string :=
  let m := lower message in
  if any_in m food_words then "Food"
  else if any_in m room_service_words then "Room Service"
  else if any_in m engineering_words then "Engineering"
  else "General".

Definition staff_by_category : list (string * string) :=
  [("Food", "Food Staff"); ("Room Service", "Room Service");
   ("Engineering", "Engineering"); ("General", "Front Desk")].

Definition assign_staff_for_category (category : string) : string :=
  default "Front Desk" (dict_get staff_by_category category).

Definition negative_words : list string :=
  ["not"; "no"; "never"; "bad"; "disappointed"; "angry"; "hate"; "worst";
   "problem"; "issue"; "delay"].

Definition positive_words : list string :=
  ["good"; "great"; "awesome"; "excellent"; "happy"; "love"; "enjoy"].

Definition _naive_sentiment (message : string) : string :=
  if bool_decide (message = "") then ""
  else
    let m := lower message in
    if any_in m negative_words && negb (any_in m positive_words)
    then "negative"
    else if any_in m positive_words && negb (any_in m negative_words)
    then "positive"
    else "".

(** What [create_ticket_row_payload] meets outside. *)
Record TicketWorld : Type := MkTicketWorld {
  (** [bool(GSHEET_WEBAPP_URL)] *)
  webapp_url_set : bool;
  (** the answer to [getUserData] for an email, as the pair of its
      [found] and [userData] entries; an absent or empty [userData]
      is [None]; any exception on the way is raised here *)
  get_user_data : string → result (value * option row);
  (** [random.randint(1000, 99999)] *)
  randint : Z;
  (** [datetime.utcnow().strftime("%Y-%m-%d %H:%M:%S")] *)
  utcnow : string
}.

Definition room_placeholders : list string := ["-"; ""; "None"; "not assigned"].

(** [v not in room_placeholders] *)
Definition not_placeholder (v : value) : bool :=
  match v with
  | VStr s => negb (mem s room_placeholders)
  | _ => true
  end.

(** The room number [create_ticket_row_payload] settles on. *)
Definition room_no_of (w : TicketWorld) (email : option string) : value :=
  let room_no := VStr "Not Assigned" in
  if QAAgent.str_truthy email && webapp_url_set w then
    match get_user_data w (default "" email) with
    | Ok (found, Some user_data) =>
        if truthy found then
          let room_alloted := get user_data "Room Alloted" in
          if truthy room_alloted && not_placeholder room_alloted
          then room_alloted else room_no
        else room_no
    | Ok (_, None) => room_no
    | Raise _ => room_no
    end
  else room_no.

Definition create_ticket_row_payload (w : TicketWorld) (message : string)
    (email : option string) : row :=
  let room_no := room_no_of w email in
  let ticket_id := "TCK-" +:+ pretty (randint w) in
  let guest_name :=
    match email with
    | Some s => if bool_decide (s = "") then "Guest" else s
    | None => "Guest"
    end in
  let category := classify_ticket_category message in
  let assigned_to := assign_staff_for_category category in
  [("Ticket ID", VStr ticket_id); ("Guest Name", VStr guest_name);
   ("Room No", room_no); ("Request/Query", VStr message);
   ("Category", VStr category); ("Assigned To", VStr assigned_to);
   ("Status", VStr "In Progress"); ("Created At", VStr (utcnow w));
   ("Resolved At", VStr ""); ("Notes", VStr message)].

End Tickets.

(** ** What an endpoint answers *)

Module Http.
Import Py.

(** What a handler body can raise: an [HTTPException] with its status
    code, or any other exception. *)
Inductive raised : Type :=
| HTTPException (status_code : Z)
| Other (e : exn).

(** A handler body returns or raises. *)
Definition attempt (A : Type) : Type := (raised + A)%type.

(** What the client receives: the body returned, or the status code of
    the [HTTPException] that left the handler. *)
Inductive response (A : Type) : Type :=
| Returned (body : A)
| Failed (status_code : Z).
Arguments Returned {A} body.
Arguments Failed {A} status_code.

End Http.

(** ** [auth_api.py] *)

Module AuthApi.
Import Py PyMore Http.

Record SignupReq : Type := MkSignupReq {
  name : string;
  username : string;
  password : string;
  phoneNo : string
}.

Record UpdateWorkflowReq : Type := MkUpdateWorkflowReq {
  upd_username : string;
  stage : string;
  booking_id : option string;
  id_proof_link : option string
}.

(** What the handlers meet outside. *)
Record AuthWorld : Type := MkAuthWorld {
  (** [datetime.utcnow().year] *)
  year : Z;
  (** [random.randint(1000, 9999)] *)
  randint : Z;
  (** [push_row_to_sheet(sheet_name, row_data)] *)
  push_row_to_sheet : string → row → result row;
  (** the JSON answer to the [updateUserWorkflow] request with the
      given email and updates, or the exception of the request *)
  post_update : string → row → result row
}.

Definition client_id_of (w : AuthWorld) : string :=
  "ILR-" +:+ pretty (year w) +:+ "-" +:+ pretty (randint w).

(** [row_data] of [signup] *)
Definition signup_row (w : AuthWorld) (req : SignupReq) : row :=
  [("Client Id", VStr (client_id_of w)); ("Name", VStr (name req));
   ("Email", VStr (username req)); ("Password", VStr (password req));
   ("Booking Id", VStr ""); ("Workflow Stage", VStr "Registered");
   ("Room Alloted", VStr ""); ("CheckIn", VStr ""); ("Check Out", VStr "");
   ("Id Link", VStr "")].

(** [resp.get("success") or resp.get("ok") or
     resp.get("status_code") == 200] *)
Definition accepted (resp : row) : bool :=
  truthy (get resp "success") || truthy (get resp "ok")
  || eq_int (get resp "status_code") 200.

(** The body of the [try] of [signup]. *)
Definition signup_body (w : AuthWorld) (req : SignupReq) : attempt row :=
  match push_row_to_sheet w "Client_workflow" (signup_row w req) with
  | Raise e => inl (Other e)
  | Ok resp =>
      if accepted resp then
        inr [("success", VBool true); ("workflowStage", VStr "Registered");
             ("clientId", VStr (client_id_of w));
             ("message", VStr "Registration successful")]
      else inl (HTTPException 400)
  end.

(** [signup]: its one handler, [except Exception], answers whatever
    was raised with status 500. *)
Definition signup (w : AuthWorld) (req : SignupReq) : response row :=
  match signup_body w req with
  | inr body => Returned body
  | inl _ => Failed 500
  end.

(** [update_data["updates"]] of [update_workflow] *)
Definition updates_of (req : UpdateWorkflowReq) : row :=
  [("Workflow Stage", VStr (stage req))]
  ++ (if QAAgent.str_truthy (booking_id req)
      then [("Booking Id", VStr (default "" (booking_id req)))] else [])
  ++ (if QAAgent.str_truthy (id_proof_link req)
      then [("Id Link", VStr (default "" (id_proof_link req)))] else []).

(** The body of the [try] of [update_workflow]. *)
Definition update_workflow_body (w : AuthWorld) (req : UpdateWorkflowReq)
    : attempt row :=
  match post_update w (upd_username req) (updates_of req) with
  | Raise e => inl (Other e)
  | Ok data =>
      if bool_decide ("error" ∈ data.*1) then inl (HTTPException 400)
      else inr [("success", VBool true);
                ("message", VStr ("Workflow stage updated to " +:+ stage req));
                ("userData", get data "userData")]
  end.

(** [update_workflow]: an [HTTPException] is raised again as it is,
    anything else is answered with status 500. *)
Definition update_workflow (w : AuthWorld) (req : UpdateWorkflowReq)
    : response row :=
  match update_workflow_body w req with
  | inr body => Returned body
  | inl (HTTPException status_code) => Failed status_code
  | inl (Other _) => Failed 500
  end.

End AuthApi.

(** ** The user record of [/auth/me] and [/auth/login] in [main_new.py] *)

Module MainNewAuth.
Import Py.

(** The [user] dict both handlers build from the [userData] of the
    sheet. *)
Definition user_of (email : value) (user_data : row) : row :=
  [("email", email);
   ("name", get_default user_data "Name" (VStr "Guest"));
   ("role", get_default user_data "Role" (VStr "guest"));
   ("room", get user_data "Room Alloted");
   ("booked", VBool (truthy (get user_data "Booking Id")));
   ("id_verified", VBool (truthy (get user_data "Id Link")))].

(** [get_current_user] reads the email from the sheet, [login] from
    the request. *)
Definition me_user (user_data : row) : row :=
  user_of (get user_data "Email") user_data.

Definition login_user (email : string) (user_data : row) : row :=
  user_of (VStr email) user_data.

End MainNewAuth.

(** ** [services/qa_agent.py]: the bot of [main.py] *)

Module Legacy.
Import Py PyMore Http.

(** What one call of [ask] meets outside the bot. *)
Record World : Type := MkWorld {
  (** the page contents of [self.retriever.invoke(query)] *)
  retriever_invoke : string → result (list string);
  (** the objects of [data\agents.json], or the exception of reading
      them *)
  agents_json : result (list row);
  (** [self.llm.invoke(prompt).content] *)
  llm_invoke : string → result string;
  (** [self.dos_donts] *)
  dos_donts : list row
}.

(** The loop over the agents: the last entry allocated to the front
    desk concierge decides. *)
Fixpoint agent_name_of (agent_name : value) (agents : list row) : result value :=
  match agents with
  | [] => Ok agent_name
  | agent :: agents' =>
      allocation ← getitem agent "agent_allocation";
      if bool_decide (allocation = VStr "Front Desk Concierge") then
        name ← getitem agent "agent_name";
        agent_name_of name agents'
      else agent_name_of agent_name agents'
  end.

Definition rule_lines (entry : row) : result string :=
  do ← as_str (get_default entry "do" (VStr ""));
  dont ← as_str (get_default entry "dont" (VStr ""));
  let do := strip do in
  let dont := strip dont in
  Ok ((if bool_decide (do = "") then "" else "- ✅ Do: " +:+ do +:+ nl)
      +:+ (if bool_decide (dont = "") then "" else "- ❌ Don't: " +:+ dont +:+ nl)).

Definition rules_text_of (dos_donts : list row) : result string :=
  match dos_donts with
  | [] => Ok ""
  | _ =>
      lines ← mapM rule_lines dos_donts;
      Ok (nl +:+ nl +:+ "📋 **Important Communication Rules:**" +:+ nl
          +:+ QAAgent.concat_all lines)
  end.

Definition _build_prompt (w : World) (hotel_data query : string) : result string :=
  agents ← agents_json w;
  agent_name ← agent_name_of (VStr "AI Assistant") agents;
  rules_text ← rules_text_of (dos_donts w);
  Ok ("You are an AI agent named " +:+ str agent_name
      +:+ " a knowledgeable, polite, and concise concierge assistant at *ILLORA RETREATS*, "
      +:+ "a premium hotel known for elegant accommodations, gourmet dining, rejuvenating spa treatments, "
      +:+ "a fully-equipped gym, pool access, 24x7 room service, meeting spaces, and personalized hospitality."
      +:+ nl +:+ nl
      +:+ "Answer smost almost all of the questions using the Hotel Data below. If the data does not contain the answer you can take it by yourself, but remember **DO NOT MAKE ANY False FACTS** "
      +:+ "Agent Name:" +:+ nl +:+ str agent_name +:+ nl +:+ nl
      +:+ "Hotel Data:" +:+ nl +:+ hotel_data +:+ nl +:+ nl
      +:+ "Guest Query: " +:+ query +:+ nl
      +:+ rules_text).

Definition restricted_services : list string :=
  ["wake-up call"; "spa"; "gym"; "pool"; "room service"; "book a room";
   "booking"].

Definition guests_only : string :=
  "We're sorry, this service is exclusive to *guests* at ILLORA RETREATS."
  +:+ nl
  +:+ "Feel free to explore our dining options, events, and lobby amenities!".

Definition here_to_help : string :=
  "I'm here to help with any questions about ILLORA RETREATS.".

Definition sorry : string :=
  "We're sorry, there was an issue while assisting you. "
  +:+ "Please feel free to ask again or contact the ILLORA RETREATS front desk for immediate help.".

(** The body of the [try] of [ask]. *)
Definition ask_body (w : World) (query : string) (user_type : value)
    : result string :=
  let lower_query := lower query in
  if bool_decide (user_type = VStr "non-guest")
     && existsb (λ term, contains lower_query term) restricted_services
  then Ok guests_only
  else
    docs ← retriever_invoke w query;
    let hotel_data :=
      match docs with
      | [] => ""
      | _ => join (nl +:+ nl) docs
      end in
    system_prompt ← _build_prompt w hotel_data query;
    content ← llm_invoke w system_prompt;
    let final_answer := strip content in
    Ok (if bool_decide (final_answer = "") then here_to_help else final_answer).

Definition ask (w : World) (query : string) (user_type : value) : string :=
  match ask_body w query user_type with
  | Ok answer => answer
  | Raise _ => sorry
  end.

(** [bot_reply_text] of [chat] in [main.py]:
    [bot.ask(user_input, user_type=bool(req.is_guest))]. *)
Definition bot_reply_text (w : World) (message : string)
    (is_guest : option bool) : string :=
  ask w message (VBool (default false is_guest)).

End Legacy.

(** ** The in-memory demo bookings of [main.py] *)

Module Demo.
Import Py PyMore Http.

(** The random cells of the seeded bookings, by position. *)
Record Dice : Type := MkDice {
  pick_guest : nat → string;
  pick_room : nat → string;
  pick_check_in : nat → string;
  pick_check_out : nat → string;
  pick_status : nat → string;
  pick_amount : nat → Z
}.

Definition seeded_booking (d : Dice) (i : nat) : row :=
  [("id", VInt (Z.of_nat i + 1)); ("guest", VStr (pick_guest d i));
   ("room", VStr (pick_room d i)); ("check_in", VStr (pick_check_in d i));
   ("check_out", VStr (pick_check_out d i)); ("status", VStr (pick_status d i));
   ("amount", VInt (pick_amount d i))].

(** [admin_seed_demo]: the new [sample_bookings]; the answer reports
    their number. *)
Definition admin_seed_demo (d : Dice) (count : nat) : list row :=
  seeded_booking d <$> seq 0 count.

(** [patch: DemoBookingUpdate]; a field the request did not set is
    [None], a field set to [null] is [Some VNone]. *)
Record DemoBookingUpdate : Type := MkDemoBookingUpdate {
  guest : option value;
  room : option value;
  check_in : option value;
  check_out : option value;
  status : option value;
  amount : option value
}.

(** [patch.dict(exclude_unset=True).items()] *)
Definition patch_items (patch : DemoBookingUpdate) : list (string * value) :=
  omap (λ kv : string * option value, (λ v, (kv.1, v)) <$> kv.2)
    [("guest", guest patch); ("room", room patch);
     ("check_in", check_in patch); ("check_out", check_out patch);
     ("status", status patch); ("amount", amount patch)].

(** [for field, value in items: b[field] = value] *)
Definition apply_patch (b : row) (items : list (string * value)) : row :=
  foldl (λ b kv, setitem b kv.1 kv.2) b items.

Fixpoint demo_get_booking (sample_bookings : list row) (booking_id : Z)
    : attempt row :=
  match sample_bookings with
  | [] => inl (HTTPException 404)
  | b :: bs =>
      match getitem b "id" with
      | Raise e => inl (Other e)
      | Ok v => if eq_int v booking_id then inr b else demo_get_booking bs booking_id
      end
  end.

(** [demo_update_booking]: the bookings it leaves and the booking it
    answers with. *)
Fixpoint demo_update_booking (sample_bookings : list row) (booking_id : Z)
    (patch : DemoBookingUpdate) : list row * attempt row :=
  match sample_bookings with
  | [] => ([], inl (HTTPException 404))
  | b :: bs =>
      match getitem b "id" with
      | Raise e => (b :: bs, inl (Other e))
      | Ok v =>
          if eq_int v booking_id then
            let b' := apply_patch b (patch_items patch) in
            (b' :: bs, inr b')
          else
            let r := demo_update_booking bs booking_id patch in
            (b :: r.1, r.2)
      end
  end.

End Demo.

(** ** [twilio_webhook.py]: the sessions of the WhatsApp dialogue

  The model follows the session store through one call of
  [whatsapp_reply]; the reply texts and the logging are left out.
  Room prices are integers, as in the default table. *)

Module Whatsapp.
Import Py PyMore.

(** A session dict; a key that is absent is [None]. *)
Record Session : Type := MkSession {
  stage : string;
  user_type : option string;
  room_type : option string;
  nights : option Z;
  payment : option string;
  price : option Z
}.

(** [{"stage": "identify"}] *)
Definition fresh : Session := MkSession "identify" None None None None None.

Definition set_stage (x : string) (s : Session) : Session :=
  MkSession x (user_type s) (room_type s) (nights s) (payment s) (price s).

Definition set_user_type (x : string) (s : Session) : Session :=
  MkSession (stage s) (Some x) (room_type s) (nights s) (payment s) (price s).

Definition set_room_type (x : string) (s : Session) : Session :=
  MkSession (stage s) (user_type s) (Some x) (nights s) (payment s) (price s).

Definition set_nights (x : Z) (s : Session) : Session :=
  MkSession (stage s) (user_type s) (room_type s) (Some x) (payment s) (price s).

Definition set_payment (x : string) (s : Session) : Session :=
  MkSession (stage s) (user_type s) (room_type s) (nights s) (Some x) (price s).

Definition set_price (x : Z) (s : Session) : Session :=
  MkSession (stage s) (user_type s) (room_type s) (nights s) (payment s) (Some x).

(** What the handler meets outside. *)
Record World : Type := MkWorld {
  (** [classify_intent(text)] of [services/intent_classifier.py] *)
  classify_intent : string → string;
  (** [s.isdigit()] *)
  isdigit : string → bool;
  (** [int(s)]; [None] for a [ValueError] *)
  int : string → option Z;
  (** [create_checkout_session(session_id, room_type, nights, cash)] *)
  create_checkout_session : string → string → Z → bool → result string;
  (** [create_addon_checkout_session(session_id, extras)] for the set
      of extras *)
  create_addon_checkout_session : gset string → result string
}.

Definition ADDON_MAPPING : list (string * string) :=
  [("spa", "spa"); ("massage", "spa"); ("mocktail", "mocktail");
   ("juice", "juice"); ("brownie", "brownie"); ("cheese", "cheese_platter")].

(** What ends a call: the reply of the handler, or the reply of its
    outermost [except] after an exception nothing else caught. *)
Inductive unexpected : Type := ValueError | LookupError.

Inductive outcome : Type :=
| Sent
| WentWrong (e : unexpected).

(** Step 0, [stage == "identify"]. *)
Definition identify (incoming_msg : string) (user_session : Session) : Session :=
  if contains (lower incoming_msg) "guest" then
    set_stage "start" (set_user_type "guest" user_session)
  else if contains (lower incoming_msg) "non-guest"
          || contains (lower incoming_msg) "visitor" then
    set_stage "start" (set_user_type "non-guest" user_session)
  else user_session.

Section Handler.

(** The table [ROOM_PRICES] as it was loaded, in the order of its
    keys. *)
Variable ROOM_PRICES : list (string * Z).

Definition ROOM_OPTIONS : list string := ROOM_PRICES.*1.

(** Steps 1 to 4: the session the stage handler leaves, [None] where it
    replaces the session by a fresh one.  [LookupError] stands for the
    [KeyError] of a session or price lookup and the [IndexError] of
    [ROOM_OPTIONS]. *)
Definition stage_step (w : World) (from incoming_msg : string)
    (user_session : Session) : option Session * outcome :=
  let stage := stage user_session in
  if bool_decide (stage = "room") then
    if isdigit w incoming_msg then
      match int w incoming_msg with
      | None => (Some user_session, WentWrong ValueError)
      | Some n =>
          if (1 <=? n) && (n <=? Z.of_nat (length (ROOM_OPTIONS))) then
            match ROOM_OPTIONS !! Z.to_nat (n - 1) with
            | Some selected_room =>
                (Some (set_stage "nights" (set_room_type selected_room user_session)),
                 Sent)
            | None => (Some user_session, WentWrong LookupError)
            end
          else (Some user_session, Sent)
      end
    else (Some user_session, Sent)
  else if bool_decide (stage = "nights") then
    match int w incoming_msg with
    | Some n =>
        if 0 <? n
        then (Some (set_stage "payment" (set_nights n user_session)), Sent)
        else (Some user_session, Sent)
    | None => (Some user_session, Sent)
    end
  else if bool_decide (stage = "payment") then
    if mem incoming_msg ["1"; "2"] then
      let payment_mode := if bool_decide (incoming_msg = "1") then "Online" else "Cash" in
      let s := set_stage "confirm" (set_payment payment_mode user_session) in
      match room_type s, nights s with
      | Some room, Some n =>
          match dict_get ROOM_PRICES room with
          | Some p => (Some (set_price (p * n) s), Sent)
          | None => (Some s, WentWrong LookupError)
          end
      | _, _ => (Some s, WentWrong LookupError)
      end
    else (Some user_session, Sent)
  else if bool_decide (stage = "confirm") then
    if bool_decide (lower incoming_msg = "yes") then
      match room_type user_session, nights user_session, payment user_session with
      | Some room, Some n, Some payment_mode =>
          match create_checkout_session w from room n
                  (bool_decide (payment_mode = "Cash")) with
          | Ok _ => (None, Sent)
          | Raise _ => (Some user_session, Sent)
          end
      | _, _, _ => (Some user_session, Sent)
      end
    else (Some user_session, Sent)
  else (Some user_session, Sent).

(** Steps A to C and the stage handlers.  Step A changes no session:
    [bot.ask] is called with a [user_identifier] the bot of
    [services/qa_agent.py] does not take, and the handler around the
    call answers the [TypeError]. *)
Definition after_identify (w : World) (from incoming_msg : string)
    (user_session : Session) : option Session * outcome :=
  let user_type := default "guest" (user_type user_session) in
  let intent := classify_intent w (lower incoming_msg) in
  if bool_decide (intent = "payment_request") && bool_decide (user_type = "guest")
  then (Some (set_stage "room" user_session), Sent)
  else if String.prefix "book_addon" intent then
    let matches :=
      filter (λ key, contains (lower incoming_msg) key = true) ADDON_MAPPING.*1 in
    match matches with
    | [] => (Some user_session, Sent)
    | _ =>
        let extras : gset string :=
          list_to_set (omap (λ m, dict_get ADDON_MAPPING m) matches) in
        match create_addon_checkout_session w extras with
        | Ok _ => (None, Sent)
        | Raise _ => (Some user_session, Sent)
        end
    end
  else stage_step w from incoming_msg user_session.

(** [whatsapp_reply]: the session store it leaves and how it ended. *)
Definition whatsapp_reply (w : World) (body from : string)
    (session_data : gmap string Session) : gmap string Session * outcome :=
  let incoming_msg := strip body in
  let session_data :=
    match session_data !! from with
    | Some _ => session_data
    | None => <[from := fresh]> session_data
    end in
  let user_session := default fresh (session_data !! from) in
  if bool_decide (stage user_session = "identify") then
    (<[from := identify incoming_msg user_session]> session_data, Sent)
  else
    let r := after_identify w from incoming_msg user_session in
    (<[from := default fresh r.1]> session_data, r.2).

End Handler.

End Whatsapp.

(** * Vocabulary of the properties *)

(** ** The matcher *)

Module MatcherSpec.
Import Difflib.
Local Open Scope nat_scope.

(** A candidate match lies inside the region it was searched in. *)
Definition in_region (alo ahi blo bhi : nat) (bst : best) : Prop :=
  alo ≤ bst.1.1 ∧ bst.1.1 + bst.2 ≤ ahi ∧ blo ≤ bst.1.2 ∧ bst.1.2 + bst.2 ≤ bhi.

(** Every run recorded in [j2len] before row [i] fits between the
    lower bounds and the current position. *)
Definition runs_fit (alo blo bhi i : nat) (j2len : gmap nat nat) : Prop :=
  ∀ j k, j2len !! j = Some k → k + alo ≤ i ∧ blo + k ≤ j + 1 ∧ j < bhi.

(** Regions waiting in the queue are well formed. *)
Definition region_ok (r : region) : Prop :=
  r.1.1.1 ≤ r.1.1.2 ∧ r.1.2 ≤ r.2.

(** What is left of [a] and of [b] in the queue, and the number of
    loop iterations the queue can still cause. *)
Definition a_room (q : list region) : nat :=
  foldr (λ r acc, (r.1.1.2 - r.1.1.1) + acc) 0 q.

Definition b_room (q : list region) : nat :=
  foldr (λ r acc, (r.2 - r.1.2) + acc) 0 q.

Definition work (q : list region) : nat :=
  foldr (λ r acc, S (2 * (r.1.1.2 - r.1.1.1)) + acc) 0 q.

End MatcherSpec.

(** ** Text and rows *)

Module TextSpec.
Import Py QAAgent.

(** Every character of [s] satisfies [p]. *)
Fixpoint all_chars (p : ascii → bool) (s : string) : bool :=
  match s with
  | "" => true
  | String c s' => p c && all_chars p s'
  end.

(** A character of a normalised text. *)
Definition plain (c : ascii) : bool :=
  islower c || isdigit c || bool_decide (c = " "%char).

(** A row all of whose cells are strings. *)
Definition text_row (cells : list (string * string)) : row :=
  (λ kv, (kv.1, VStr kv.2)) <$> cells.

End TextSpec.

(** ** Policy and identity *)

Module PolicySpec.
Import Py QAAgent.

(** The three cells the booking test reads, as it reads them. *)
Definition stage_cell (r : row) : string :=
  lower (strip (str
    (first_of r ["Workfow Stage"; "Workflow Stage"; "WorkFlow"; "Workfow"]))).

Definition trimmed_cell (r : row) (key : string) : string :=
  strip (str (por (get r key) (VStr ""))).

(** A cell of a record as identity resolution compares it:
    [str(row.get(key) or "").strip().lower()]. *)
Definition norm_cell (r : row) (key : string) : string :=
  lower (strip (str (por (get r key) (VStr "")))).

(** The record answers to the normalised identifier [iid] by one of
    its four fields; the email cell must be text for the comparison to
    take place at all. *)
Definition answers_to (iid : string) (r : row) : Prop :=
  ∃ email, get_default r "Email" (VStr "") = VStr email
    ∧ (lower (strip email) = iid
       ∨ iid ≠ ""
         ∧ (iid = norm_cell r "Client Id" ∨ iid = norm_cell r "Booking Id"
            ∨ iid = norm_cell r "Name")).

(** The record is compared and does not answer. *)
Definition passed_over (iid : string) (r : row) : Prop :=
  row_matches iid r = Ok false.

End PolicySpec.

(** ** The blocks of the prompt *)

Module PromptSpec.
Import Py QAAgent.

(** The cells of a menu item and of a campaign as the composer reads
    them: [row.get(key) or ""], and [row.get(a) or row.get(b) or ""]. *)
Definition menu_desc (item : row) : value :=
  por (get item "Description") (VStr "").

Definition campaign_title (campaign : row) : value :=
  por (get campaign "Name") (por (get campaign "Title") (VStr "")).

Definition campaign_desc (campaign : row) : value :=
  por (get campaign "Description") (por (get campaign "Desc") (VStr "")).

Definition is_text (v : value) : bool :=
  match v with
  | VStr _ => true
  | _ => false
  end.

(** Every description the two loops meet is text. *)
Definition descriptions_are_text (items cs : list row) : bool :=
  forallb (λ campaign, is_text (campaign_desc campaign)) (take 5 cs)
  && forallb (λ item, is_text (menu_desc item)) items.

(** ["- " + str(x)] for a cell that counts as true, nothing otherwise. *)
Definition dashed (x : value) : string :=
  if truthy x then "- " +:+ str x else "".

(** The line of a menu item: type, name, price and description. *)
Definition item_line (item : row) : string :=
  "- " +:+ str (por (get item "Type") (VStr "")) +:+ " "
  +:+ str (por (get item "Item") (VStr "")) +:+ " "
  +:+ dashed (por (get item "Price") (VStr "")) +:+ " "
  +:+ dashed (menu_desc item) +:+ nl.

(** The line of a campaign that has a title or a description. *)
Definition promo_line (campaign : row) : string :=
  if truthy (campaign_title campaign) || truthy (campaign_desc campaign)
  then "- " +:+ str (campaign_title campaign) +:+ " "
       +:+ dashed (campaign_desc campaign) +:+ nl
  else "".

(** The menu block of a menu, and the campaigns block of a campaign
    list (its first five entries): nothing for an empty list. *)
Definition menu_part (items : list row) : string :=
  match items with
  | [] => ""
  | _ => nl +:+ nl +:+ "📋 **Menu / Services:**" +:+ nl
         +:+ concat_all (item_line <$> items)
  end.

Definition campaigns_part (cs : list row) : string :=
  match cs with
  | [] => ""
  | _ => nl +:+ nl +:+ "📣 **Active Campaigns / Promos:**" +:+ nl
         +:+ concat_all (promo_line <$> take 5 cs)
  end.

(** A menu whose one item has a number in its description cell, the
    same menu with the number typed as text, and the record of a
    guest who is booked and verified. *)
Definition tea_menu : list row :=
  [ [("Item", VStr "Tea"); ("Description", VInt 5)] ].

Definition tea_menu_as_text : list row :=
  [ [("Item", VStr "Tea"); ("Description", VStr "5")] ].

Definition verified_guest : row :=
  [("Email", VStr "a@b.c"); ("Workflow Stage", VStr "Confirmed");
   ("Id Link", VStr "done")].

(** A campaign, and a bot that holds it together with the menu typed
    as text. *)
Definition spa_week : row :=
  [("Name", VStr "Spa week"); ("Description", VStr "20% off")].

Definition stocked_bot (st : Bot) : Bot :=
  set_menu tea_menu_as_text (set_campaigns [spa_week] st).

End PromptSpec.

(** ** Scoring and retrieval *)

Module ScoreSpec.
Import Py QAAgent.

(** The token-set overlap ratio as the design document defines it. *)
Definition overlap_ratio (q d : gset string) : Q :=
  if bool_decide (q = ∅ ∨ d = ∅) then 0%Q
  else (q_of_nat (size (q ∩ d)) / q_of_nat (size q `min` size d))%Q.

(** The score exactly as the design document words it. *)
Definition hybrid_score (query doc_text : string) : Q :=
  let query_norm := _normalize_text query in
  let doc_norm := _normalize_text doc_text in
  (0.65 * overlap_ratio (token_set query_norm) (token_set doc_norm)
   + 0.35 * seq_ratio query_norm doc_norm)%Q.

(** Non-increasing score order. *)
Definition score_ge (x y : scored) : Prop := (score_of y <= score_of x)%Q.

(** Same score, as a comparison of numbers sees it. *)
Definition tied (s : Q) (x : scored) : Prop := (score_of x == s)%Q.

Global Instance tied_dec s x : Decision (tied s x) := Qeq_dec _ _.

Definition passage_ge (p1 p2 : passage) : Prop := (score p2 <= score p1)%Q.

Definition passage_tied (s : Q) (p : passage) : Prop := (score p == s)%Q.

Global Instance passage_tied_dec s p : Decision (passage_tied s p) :=
  Qeq_dec _ _.

(** The entry of [scored_results] and the passage a row yields. *)
Definition scored_of (query : string) (r : row) : scored :=
  (_score_doc_float (_row_to_doc_text r) query, _row_to_doc_text r, r).

Definition to_passage (x : scored) : passage := Passage x.1.2 x.1.1 x.2.

Definition passage_of (query : string) (r : row) : passage :=
  to_passage (scored_of query r).

End ScoreSpec.

(** ** One call of [ask] *)

Module AskSpec.
Import Py QAAgent.

(** Unfolds the plumbing of [M]. *)
Ltac run := unfold mbind, M_bind, mret, M_ret, gets, lift, modify; simpl.

(** The bot as [ask] sees it after its refresh attempt. *)
Definition refreshed (w : World) (st : Bot) : Bot :=
  if use_sheet st then (_refresh_sheets w st).1 else st.

(** The record the identifier resolves to, or the exception met. *)
Definition resolved (st : Bot) (user_identifier : option string)
    : result (option row) :=
  if str_truthy user_identifier
  then find_client_row (client_rows st) (default "" user_identifier)
  else Ok None.

(** Lines 296-307 of [ask]: the passages handed to the composer. *)
Definition docs_of (w : World) (query : string) (st : Bot)
    : result (list passage) :=
  let docs :=
    if use_sheet st
    then retrieve_rows (qna_rows st) (retriever_k st) query (Some (retriever_k st))
    else [] in
  if bool_decide (docs = []) then
    has_retriever ← getattr (retriever st);
    if has_retriever : bool then
      match retriever_invoke w query with
      | Ok found => Ok found
      | Raise _ => Ok docs
      end
    else Ok docs
  else Ok docs.

(** The prompt [ask] sends to the model, or the exception met on the
    way to it. *)
Definition prompt_of (w : World) (query : string) (key : hkey)
    (client_row : option row) (st : Bot) : result string :=
  docs ← docs_of w query st;
  (_build_prompt w (join (nl +:+ nl) (page_content <$> docs)) query (Some key)
     (if row_truthy client_row then _is_user_booked client_row else false)
     (if row_truthy client_row then _is_id_verified client_row else false)
     st).2.

Definition with_history (key : hkey) (msgs : list turn) (st : Bot) : Bot :=
  set_chat_history (<[key := msgs]> (chat_history st)) st.

Definition history_at (st : Bot) (key : hkey) : list turn :=
  default [] (chat_history st !! key).

Definition user_turn (w : World) (query : string) : turn :=
  Turn User query (utcnow_user w).

Definition assistant_turn (w : World) (content : string) : turn :=
  Turn Assistant (strip content) (utcnow_assistant w).

(** A world of which only the clock reading matters. *)
Definition world_at (t : Q) : World :=
  MkWorld (λ _, Raise RuntimeError) t "" "" [] (λ _, Ok []) (λ _, Ok "").

(** A bot with no sheet data and no vector store, and two worlds for
    it: one whose model answers, one whose model call times out. *)
Definition demo_bot : Bot :=
  MkBot ∅ false 5 "QnA_Manager" "Dos and Donts" "Campaigns_Manager"
    "menu_manager" "Client_workflow" [] [] [] (Attr []) [] (Attr false).

Definition world_ok : World :=
  MkWorld (λ _, Raise RuntimeError) (1002 # 10) "t1" "t2" []
    (λ _, Ok []) (λ _, Ok "ok").

Definition world_down : World :=
  MkWorld (λ _, Raise RuntimeError) (1002 # 10) "t1" "t2" []
    (λ _, Ok []) (λ _, Raise (ExternalError "timeout")).

(** [n] calls of [ask] in a row. *)
Fixpoint ask_times (n : nat) (w : World) (query : string)
    (uid : option string) (st : Bot) : Bot :=
  match n with
  | O => st
  | S n' => ask_times n' w query uid (ask w query uid st).1
  end.

(** Three question rows of a sheet. *)
Definition demo_rows : list row :=
  [ [("question", VStr "Pool?")];
    [("question", VStr "spa hours")];
    [("question", VStr "pool hours")] ].

End AskSpec.

(** ** A bot in sheet mode from its start *)

Module HotelSpec.
Import Py QAAgent AskSpec PromptSpec.

(** A configuration with a sheet endpoint, and a world for it: three
    question rows, a menu, the record of one guest who is booked and
    verified, no rules and no campaigns. *)
Definition hotel_config : QAInit.Config :=
  QAInit.MkConfig true "QnA_Manager" "Dos and Donts" "Campaigns_Manager"
    "menu_manager" "Client_workflow" 5 (Ok ()) (Ok ()) [].

Definition hotel_world (menu : list row) (llm : string → result string)
    : World :=
  MkWorld
    (λ sheet,
       Ok (if bool_decide (sheet = "QnA_Manager") then demo_rows
           else if bool_decide (sheet = "menu_manager") then menu
           else if bool_decide (sheet = "Client_workflow") then [verified_guest]
           else []))
    (1002 # 10) "t1" "t2" [] (λ _, Ok []) llm.

(** A model that answers, and one whose call times out. *)
Definition answering : string → result string := λ _, Ok "ok".

Definition timing_out : string → result string :=
  λ _, Raise (ExternalError "timeout").

(** The reply to the first call made to a bot that has just started. *)
Definition first_reply (w : World) (c : QAInit.Config) (query : string)
    (uid : option string) : result string :=
  bot ← QAInit.__init__ w c; Ok (ask w query uid bot).2.

(** The number of turns under [key] after [n] calls made to a bot that
    has just started. *)
Definition turns_after (n : nat) (w : World) (c : QAInit.Config)
    (query : string) (uid : option string) (key : hkey) : result nat :=
  bot ← QAInit.__init__ w c;
  Ok (length (history_at (ask_times n w query uid bot) key)).

End HotelSpec.

(** ** Words of a text *)

Module WordSpec.
Import Py QAAgent TextSpec.

(** A character that is not a blank. *)
Definition nonblank (c : ascii) : bool := negb (isspace c).

(** A character of a token of a normalised text. *)
Definition alnum (c : ascii) : bool := islower c || isdigit c.

(** A word: a non-empty text of characters satisfying [p]. *)
Definition word (p : ascii → bool) (w : string) : Prop :=
  w ≠ "" ∧ all_chars p w = true.

(** The text starts with a blank. *)
Definition starts_blank (s : string) : bool :=
  match s with
  | "" => false
  | String c _ => isspace c
  end.

(** What [_normalize_text] hands to the blank-squeezing steps. *)
Definition cleaned (s : string) : string := sub_non_alnum (lower s).

End WordSpec.

(** ** Slices *)

Module SliceSpec.

(** How many entries [l[:k]] keeps of a list of length [n]. *)
Definition kept (n : nat) (k : Z) : nat :=
  if (0 <=? k) then (Z.to_nat k `min` n)%nat else (n - Z.to_nat (- k))%nat.

End SliceSpec.

(** ** The life of a bot *)

Module SessionSpec.
Import Py QAAgent.

(** One call of [ask] after the other, each in its own world. *)
Fixpoint ask_all (calls : list (World * string * option string)) (st : Bot)
    : Bot * list string :=
  match calls with
  | [] => (st, [])
  | (w, query, uid) :: calls' =>
      let r := ask w query uid st in
      let rs := ask_all calls' r.1 in
      (rs.1, r.2 :: rs.2)
  end.

(** The sheets whose fetch comes before the menu is assigned. *)
Definition sheets_up_to_menu (c : QAInit.Config) : list string :=
  [QAInit.GSHEET_QNA_SHEET c; QAInit.GSHEET_DOS_SHEET c;
   QAInit.GSHEET_CAMPAIGN_SHEET c; QAInit.GSHEET_MENU_SHEET c].

(** A configuration and a world for it: no sheet endpoint, a model
    that answers. *)
Definition config_without_sheet : QAInit.Config :=
  QAInit.MkConfig false "QnA_Manager" "Dos and Donts" "Campaigns_Manager"
    "menu_manager" "Client_workflow" 5 (Ok ()) (Ok ()) [].

(** A bot in sheet mode as [__init__] leaves it over empty sheets, and
    a world whose sheets are all empty. *)
Definition sheet_bot : Bot :=
  MkBot ∅ true 5 "QnA_Manager" "Dos and Donts" "Campaigns_Manager"
    "menu_manager" "Client_workflow" [] [] [] (Attr []) [] Unset.

Definition world_empty_sheets : World :=
  MkWorld (λ _, Ok []) (1002 # 10) "t1" "t2" [] (λ _, Ok []) (λ _, Ok "ok").

(** The call has returned. *)
Definition is_ok {A} (r : result A) : bool :=
  match r with
  | Ok _ => true
  | Raise _ => false
  end.

(** The five sheet names of a configuration, in fetch order. *)
Definition sheets (c : QAInit.Config) : list string :=
  sheets_up_to_menu c ++ [QAInit.GSHEET_CLIENT_SHEET c].

End SessionSpec.

(** ** Tickets *)

Module TicketSpec.
Import Py PyMore Tickets.

(** The ticket keywords that belong to no category list. *)
Definition uncategorized_keywords : list string :=
  ["order"; "bring"; "deliver"; "bathroom"; "shower"].

(** The keyword holds a word of one of the three category lists. *)
Definition categorized (k : string) : bool :=
  any_in k food_words || any_in k room_service_words
  || any_in k engineering_words.

Definition categories : list string :=
  ["Food"; "Room Service"; "Engineering"; "General"].

(** A world whose sheet answers with a room number. *)
Definition world_with_room (room : value) : TicketWorld :=
  MkTicketWorld true (λ _, Ok (VBool true, Some [("Room Alloted", room)]))
    4711 "2025-01-01 10:00:00".

End TicketSpec.

(** ** Endpoints *)

Module EndpointSpec.
Import Py PyMore Http.

(** A request to sign up, and a world whose sheet accepts the row. *)
Definition ann : AuthApi.SignupReq :=
  AuthApi.MkSignupReq "Ann Lee" "ann@example.com" "secret" "".

Definition auth_world : AuthApi.AuthWorld :=
  AuthApi.MkAuthWorld 2025 4711 (λ _ _, Ok [("success", VBool true)])
    (λ _ _, Ok []).

End EndpointSpec.

(** ** WhatsApp sessions *)

Module WhatsappSpec.
Import Py PyMore Whatsapp.

(** A session as the handler leaves it: a session waiting to be
    identified is a fresh one; from then on the user type is known;
    only a guest is in one of the booking stages; and each booking
    stage finds in the session what the stages before it have stored:
    a room of the price table, a positive number of nights, and at
    confirmation the payment mode and the price of the stay. *)
Definition session_ok (ROOM_PRICES : list (string * Z)) (s : Session) : Prop :=
  stage s ∈ ["identify"; "start"; "room"; "nights"; "payment"; "confirm"]
  ∧ (stage s = "identify" → s = fresh)
  ∧ (stage s ≠ "identify" →
       user_type s = Some "guest" ∨ user_type s = Some "non-guest")
  ∧ (stage s ∈ ["room"; "nights"; "payment"; "confirm"] →
       user_type s = Some "guest")
  ∧ (stage s ∈ ["nights"; "payment"; "confirm"] →
       ∃ room, room_type s = Some room ∧ room ∈ ROOM_OPTIONS ROOM_PRICES)
  ∧ (stage s ∈ ["payment"; "confirm"] → ∃ n, nights s = Some n ∧ 0 < n)
  ∧ (stage s = "confirm" →
       ∃ room n p, room_type s = Some room ∧ nights s = Some n
         ∧ dict_get ROOM_PRICES room = Some p ∧ price s = Some (p * n)
         ∧ (payment s = Some "Online" ∨ payment s = Some "Cash")).

(** The calls of a run, each with its world, its message body and its
    sender. *)
Fixpoint replies (ROOM_PRICES : list (string * Z))
    (calls : list (World * string * string))
    (session_data : gmap string Session) : gmap string Session * list outcome :=
  match calls with
  | [] => (session_data, [])
  | (w, body, from) :: calls' =>
      let r := whatsapp_reply ROOM_PRICES w body from session_data in
      let rs := replies ROOM_PRICES calls' r.1 in
      (rs.1, r.2 :: rs.2)
  end.

End WhatsappSpec.

(** * Properties *)

(** ** Binary64 rounding *)

Module Binary64Facts.
Import Binary64.

(** *** The rounding is to a nearest float, ties to even *)

Lemma nearest_even_nearest (n : Z) (d : positive) :
  0 ≤ n → 2 * Z.abs (n - nearest_even n d * Z.pos d) ≤ Z.pos d.
Proof.
  intros Hn. unfold nearest_even.
  pose proof (Z.div_mod n (Z.pos d) ltac:(lia)) as Hdiv.
  pose proof (Z.mod_pos_bound n (Z.pos d) ltac:(lia)) as Hmod.
  destruct (Z.compare_spec (2 * (n mod Z.pos d)) (Z.pos d)) as [He|Hl|Hg];
    [destruct (Z.even (n / Z.pos d))|..]; nia.
Qed.

Lemma nearest_even_tie (n : Z) (d : positive) :
  0 ≤ n → 2 * Z.abs (n - nearest_even n d * Z.pos d) = Z.pos d →
  Z.even (nearest_even n d) = true.
Proof.
  intros Hn. unfold nearest_even.
  pose proof (Z.div_mod n (Z.pos d) ltac:(lia)) as Hdiv.
  pose proof (Z.mod_pos_bound n (Z.pos d) ltac:(lia)) as Hmod.
  destruct (Z.compare_spec (2 * (n mod Z.pos d)) (Z.pos d)) as [He|Hl|Hg].
  - destruct (Z.even (n / Z.pos d)) eqn:Hev; [done|]. intros _.
    rewrite Z.even_add, Hev. done.
  - intros Htie. nia.
  - intros Htie. nia.
Qed.

Lemma scaled_pos (n : Z) (d : positive) (s : Z) : 0 < n → 0 < (scaled n d s).1.
Proof.
  intros Hn. unfold scaled. destruct (0 <=? s) eqn:Hs; simpl; [|done].
  apply Z.leb_le in Hs. pose proof (Z.pow_pos_nonneg 2 s ltac:(lia) Hs). nia.
Qed.

(** [scaled n d s] denotes [n * 2^s / d]: one step of [s] doubles it. *)
Lemma scaled_succ (n : Z) (d : positive) (s : Z) :
  let '(x, y) := scaled n d s in
  let '(x', y') := scaled n d (s + 1) in
  x' * Z.pos y = 2 * x * Z.pos y'.
Proof.
  unfold scaled.
  destruct (0 <=? s) eqn:Hs; destruct (0 <=? s + 1) eqn:Hs1;
    try apply Z.leb_le in Hs; try apply Z.leb_le in Hs1;
    try apply Z.leb_gt in Hs; try apply Z.leb_gt in Hs1; try lia.
  - rewrite Z.pow_add_r by lia. simpl. nia.
  - assert (s = -1) as -> by lia. simpl. nia.
  - replace (- s) with (- (s + 1) + 1) by lia.
    rewrite Z.pow_add_r by lia.
    pose proof (Z.pow_pos_nonneg 2 (- (s + 1)) ltac:(lia) ltac:(lia)) as Hp.
    rewrite !Pos2Z.inj_mul, !Z2Pos.id by nia. nia.
Qed.

Lemma scaled_add (n : Z) (d : positive) (s t : Z) :
  0 ≤ t →
  (scaled n d (s + t)).1 * Z.pos (scaled n d s).2
  = 2 ^ t * (scaled n d s).1 * Z.pos (scaled n d (s + t)).2.
Proof.
  intros Ht. revert t Ht. apply natlike_ind.
  - rewrite Z.add_0_r. simpl. lia.
  - intros t Ht IH.
    pose proof (scaled_succ n d (s + t)) as Hs.
    replace (s + Z.succ t) with (s + t + 1) by lia.
    destruct (scaled n d (s + t)) as [x1 y1], (scaled n d (s + t + 1)) as [x2 y2],
      (scaled n d s) as [x y]. simpl in *.
    rewrite Z.pow_succ_r by done.
    assert (x2 * Z.pos y * Z.pos y1 = 2 * 2 ^ t * x * Z.pos y2 * Z.pos y1) as H; [|nia].
    transitivity (2 * x1 * Z.pos y * Z.pos y2); [nia|]. nia.
Qed.

Lemma exponent_near (n : Z) (d : positive) :
  0 < n →
  let e := Z.log2 n - Z.log2 (Z.pos d) in
  Z.pos (scaled n d (- e)).2 < 2 * (scaled n d (- e)).1
  ∧ (scaled n d (- e)).1 < 2 * Z.pos (scaled n d (- e)).2.
Proof.
  intros Hn e.
  destruct (Z.log2_spec n Hn) as [Hn1 Hn2].
  destruct (Z.log2_spec (Z.pos d) ltac:(lia)) as [Hd1 Hd2].
  pose proof (Z.log2_nonneg n). pose proof (Z.log2_nonneg (Z.pos d)).
  set (a := Z.log2 n) in *. set (b := Z.log2 (Z.pos d)) in *.
  rewrite Z.pow_succ_r in Hn2, Hd2 by done.
  unfold scaled. destruct (0 <=? - e) eqn:He; simpl.
  - apply Z.leb_le in He. unfold e in *.
    replace (- (a - b)) with (b - a) by lia.
    assert (2 ^ b = 2 ^ a * 2 ^ (b - a)) as Hb.
    { rewrite <- Z.pow_add_r by lia. f_equal. lia. }
    pose proof (Z.pow_pos_nonneg 2 (b - a) ltac:(lia) ltac:(lia)).
    pose proof (Z.pow_pos_nonneg 2 a ltac:(lia) ltac:(lia)).
    nia.
  - apply Z.leb_gt in He. unfold e in *.
    replace (- - (a - b)) with (a - b) by lia.
    assert (2 ^ a = 2 ^ b * 2 ^ (a - b)) as Ha.
    { rewrite <- Z.pow_add_r by lia. f_equal. lia. }
    pose proof (Z.pow_pos_nonneg 2 (a - b) ltac:(lia) ltac:(lia)) as Hp.
    pose proof (Z.pow_pos_nonneg 2 b ltac:(lia) ltac:(lia)).
    rewrite Pos2Z.inj_mul, Z2Pos.id by done.
    nia.
Qed.

(** [2^E <= n / d < 2^(E + 1)] for [E = exponent n d]. *)
Lemma exponent_spec (n : Z) (d : positive) :
  0 < n →
  Z.pos (scaled n d (- exponent n d)).2 ≤ (scaled n d (- exponent n d)).1
  ∧ (scaled n d (- exponent n d)).1 < 2 * Z.pos (scaled n d (- exponent n d)).2.
Proof.
  intros Hn. destruct (exponent_near n d Hn) as [Hlo Hhi].
  unfold exponent.
  set (e := Z.log2 n - Z.log2 (Z.pos d)) in *.
  pose proof (scaled_succ n d (- e)) as Hs.
  destruct (scaled n d (- e)) as [x y] eqn:Hxy. simpl in Hlo, Hhi.
  destruct (x <? Z.pos y) eqn:Hlt.
  - apply Z.ltb_lt in Hlt.
    replace (- (e - 1)) with (- e + 1) by lia.
    destruct (scaled n d (- e + 1)) as [x' y']. simpl. nia.
  - apply Z.ltb_ge in Hlt. rewrite Hxy. simpl. lia.
Qed.

(** The value [fl_pos] returns: a multiple [m * 2^-s] of the spacing
    [2^-s] of the floats around [n / d], with a significand [m] of at
    most 53 bits, a full one unless the spacing is the least there
    is; it is within half a spacing of [n / d], and [m] is even when
    it is exactly half a spacing away. *)
Lemma fl_pos_spec (n : Z) (d : positive) :
  0 < n →
  let s := Z.min (52 - exponent n d) 1074 in
  let x := (scaled n d s).1 in
  let y := Z.pos (scaled n d s).2 in
  let m := nearest_even x (scaled n d s).2 in
  fl_pos n d = (if 0 <=? s then m # Z.to_pos (2 ^ s) else inject_Z (m * 2 ^ (- s)))
  ∧ 2 * Z.abs (x - m * y) ≤ y
  ∧ (2 * Z.abs (x - m * y) = y → Z.even m = true)
  ∧ 0 ≤ m ≤ 2 ^ 53
  ∧ (s = 1074 ∨ 2 ^ 52 ≤ m).
Proof.
  intros Hn s x y m.
  pose proof (scaled_pos n d s Hn) as Hx. fold x in Hx.
  pose proof (nearest_even_nearest x (scaled n d s).2 ltac:(lia)) as Hnear.
  fold m y in Hnear.
  split; [unfold fl_pos; fold s; by destruct (scaled n d s)|].
  split; [done|].
  split; [apply nearest_even_tie; lia|].
  destruct (exponent_spec n d Hn) as [Hlo Hhi].
  set (E := exponent n d) in *.
  set (xE := (scaled n d (- E)).1) in *.
  set (yE := Z.pos (scaled n d (- E)).2) in *.
  assert (0 < yE) as HyE by (unfold yE; lia).
  assert (0 < y) as Hy by (unfold y; lia).
  assert (x < 2 ^ 53 * y ∧ (s = 1074 ∨ 2 ^ 52 * y ≤ x)) as [Hx53 Hx52].
  { destruct (Z.le_ge_cases 0 (s + E)) as [Ht|Ht].
    - pose proof (scaled_add n d (- E) (s + E) Ht) as Hadd.
      replace (- E + (s + E)) with s in Hadd by lia.
      fold x y xE yE in Hadd.
      assert (s + E ≤ 52) as Hle by lia.
      pose proof (Z.pow_le_mono_r 2 (s + E) 52 ltac:(lia) Hle) as Hpow.
      pose proof (Z.pow_pos_nonneg 2 (s + E) ltac:(lia) Ht) as Hpos.
      set (P := 2 ^ (s + E)) in *.
      split.
      + apply (Z.mul_lt_mono_pos_r yE); [done|]. rewrite Hadd.
        assert (P * xE * y < P * (2 * yE) * y) as H1.
        { apply Z.mul_lt_mono_pos_r; [done|].
          apply Z.mul_lt_mono_pos_l; lia. }
        assert (P * (2 * yE) * y ≤ 2 ^ 52 * (2 * yE) * y) as H2.
        { apply Z.mul_le_mono_nonneg_r; [lia|].
          apply Z.mul_le_mono_nonneg_r; lia. }
        change (2 ^ 53) with (2 ^ 52 * 2). lia.
      + destruct (decide (s = 1074)) as [|Hs]; [by left|right].
        assert (s + E = 52) as H52 by lia.
        assert (P = 2 ^ 52) as -> by (unfold P; by rewrite H52).
        apply (Z.mul_le_mono_pos_r _ _ yE); [done|]. rewrite Hadd.
        assert (2 ^ 52 * yE * y ≤ 2 ^ 52 * xE * y) as H1.
        { apply Z.mul_le_mono_nonneg_r; [lia|].
          apply Z.mul_le_mono_nonneg_l; lia. }
        lia.
    - assert (s = 1074) as Hs by lia.
      pose proof (scaled_add n d s (- (s + E)) ltac:(lia)) as Hadd.
      replace (s + - (s + E)) with (- E) in Hadd by lia.
      fold x y xE yE in Hadd.
      pose proof (Z.pow_pos_nonneg 2 (- (s + E)) ltac:(lia) ltac:(lia)) as Hpos.
      set (P := 2 ^ (- (s + E))) in *.
      split; [|by left].
      assert (x < 2 * y); [|lia].
      apply (Z.mul_lt_mono_pos_r yE); [done|].
      assert (x * yE ≤ P * x * yE) as H1.
      { apply Z.mul_le_mono_nonneg_r; [lia|]. nia. }
      assert (xE * y < 2 * yE * y) as H2.
      { apply Z.mul_lt_mono_pos_r; lia. }
      lia. }
  split; [split; nia|].
  destruct Hx52 as [|Hx52]; [by left|right]. nia.
Qed.

(** *** Values checked against the interpreter *)

(** The two weights of the score, and a third. *)
Example fl_weights :
  (fl 0.65 == 5854679515581645 # 9007199254740992)%Q
  ∧ (fl 0.35 == 3152519739159347 # 9007199254740992)%Q
  ∧ (fl (1 # 3) == 6004799503160661 # 18014398509481984)%Q.
Proof. by vm_compute. Qed.

(** Integers up to [2^53] and the floats themselves are left alone; a
    value half-way between two floats goes to the one with the even
    significand; below [2^-1074] there is only 0. *)
Example fl_roundings :
  (fl 1 == 1)%Q
  ∧ (of_int 9007199254740992 == 9007199254740992)%Q
  ∧ (fl (fl 0.65) == fl 0.65)%Q
  ∧ (of_int 9007199254740993 == 9007199254740992)%Q
  ∧ (of_int 9007199254740995 == 9007199254740996)%Q
  ∧ (fl (1 # 2 ^ 1075) == 0)%Q
  ∧ (fl (3 # 2 ^ 1075) == 1 # 2 ^ 1073)%Q.
Proof. by vm_compute. Qed.

End Binary64Facts.

(** ** The matcher stays inside its sequences *)

Module DifflibFacts.
Import Difflib MatcherSpec.
Section MatcherFacts.
Context {A : Type} `{EqDecision A}.
Variables a b : list A.
Local Open Scope nat_scope.

Lemma j2lenget_fit alo blo bhi i j2len j :
  runs_fit alo blo bhi i j2len → alo ≤ i → blo ≤ j →
  S (j2lenget j2len j) + alo ≤ i + 1 ∧ blo + S (j2lenget j2len j) ≤ j + 1.
Proof.
  intros Hfit Hi Hj. destruct j as [|j']; simpl; [lia|].
  destruct (j2len !! j') as [k|] eqn:Hk; simpl; [|lia].
  destruct (Hfit _ _ Hk) as (? & ? & ?). lia.
Qed.

Lemma scan_js_fit alo ahi blo bhi i j2len js newj2len bst :
  runs_fit alo blo bhi i j2len → alo ≤ i → i < ahi →
  runs_fit alo blo bhi (S i) newj2len →
  in_region alo ahi blo bhi bst →
  runs_fit alo blo bhi (S i) (scan_js blo bhi i j2len js newj2len bst).1
  ∧ in_region alo ahi blo bhi (scan_js blo bhi i j2len js newj2len bst).2.
Proof.
  intros Hold Hlo Hhi. revert newj2len bst.
  induction js as [|j js IH]; intros newj2len bst Hnew Hbst; simpl; [done|].
  destruct (j <? blo) eqn:Hjlo; [by apply IH|].
  destruct (bhi <=? j) eqn:Hjhi; [done|].
  apply Nat.ltb_ge in Hjlo. apply Nat.leb_gt in Hjhi.
  destruct (j2lenget_fit alo blo bhi i j2len j Hold Hlo Hjlo) as [Hk1 Hk2].
  apply IH.
  - intros j0 k0. rewrite lookup_insert. case_decide as Hjj.
    + intros [= <-]. subst j0. lia.
    + apply Hnew.
  - destruct (bst.2 <? S (j2lenget j2len j)); [|done].
    unfold in_region; simpl. lia.
Qed.

Lemma scan_is_fit alo ahi blo bhi i ai j2len bst :
  runs_fit alo blo bhi i j2len → alo ≤ i → i + length ai ≤ ahi →
  in_region alo ahi blo bhi bst →
  in_region alo ahi blo bhi (scan_is b blo bhi i ai j2len bst).
Proof.
  revert i j2len bst.
  induction ai as [|x ai IH]; intros i j2len bst Hfit Hlo Hhi Hbst; simpl; [done|].
  simpl in Hhi.
  destruct (scan_js blo bhi i j2len (b2j b x) ∅ bst) as [newj2len bst'] eqn:Hscan.
  destruct (scan_js_fit alo ahi blo bhi i j2len (b2j b x) ∅ bst) as [H1 H2];
    [done|done|lia| |done|].
  { intros j k. by rewrite lookup_empty. }
  rewrite Hscan in H1, H2. apply IH; [done|lia|lia|done].
Qed.

Lemma extend_left_fit alo ahi blo bhi besti bestj bestsize :
  in_region alo ahi blo bhi (besti, bestj, bestsize) →
  in_region alo ahi blo bhi (extend_left a b alo blo besti bestj bestsize).
Proof.
  revert bestj bestsize.
  induction besti as [|i' IH]; intros bestj bestsize Hin; simpl; [done|].
  destruct bestj as [|j']; [done|].
  destruct (_ && _ && _) eqn:Hc; [|done].
  apply andb_prop in Hc as [Hc _]. apply andb_prop in Hc as [Hc1 Hc2].
  apply Nat.ltb_lt in Hc1, Hc2.
  apply IH. unfold in_region in *; simpl in *. lia.
Qed.

Lemma extend_right_fit bhi besti bestj room bestsize ahi :
  besti + bestsize + room ≤ ahi → bestj + bestsize ≤ bhi →
  let r := extend_right a b bhi besti bestj room bestsize in
  bestsize ≤ r ∧ besti + r ≤ ahi ∧ bestj + r ≤ bhi.
Proof.
  revert bestsize.
  induction room as [|room IH]; intros bestsize Ha Hb; simpl; [lia|].
  destruct (_ && _) eqn:Hc; [|lia].
  apply andb_prop in Hc as [Hc _]. apply Nat.ltb_lt in Hc.
  destruct (IH (S bestsize)) as (? & ? & ?); lia.
Qed.

Lemma find_longest_match_fit alo ahi blo bhi :
  alo ≤ ahi → blo ≤ bhi →
  in_region alo ahi blo bhi (find_longest_match a b alo ahi blo bhi).
Proof.
  intros Ha Hb. unfold find_longest_match.
  pose proof (scan_is_fit alo ahi blo bhi alo
                (take (ahi - alo) (drop alo a)) ∅ (alo, blo, 0)) as Hscan.
  destruct (scan_is _ _ _ _ _ _ _) as [[i1 j1] k1].
  assert (in_region alo ahi blo bhi (i1, j1, k1)) as H1.
  { apply Hscan.
    - intros j k. by rewrite lookup_empty.
    - done.
    - rewrite length_take. lia.
    - unfold in_region; simpl. lia. }
  pose proof (extend_left_fit alo ahi blo bhi i1 j1 k1 H1) as H2.
  destruct (extend_left _ _ _ _ _ _ _) as [[i2 j2] k2].
  unfold in_region in H2; simpl in H2.
  destruct (extend_right_fit bhi i2 j2 (ahi - (i2 + k2)) k2 ahi) as (? & ? & ?);
    [lia|lia|].
  unfold in_region; simpl. lia.
Qed.

Lemma matches_of_app l1 l2 :
  matches_of (l1 ++ l2) = matches_of l1 + matches_of l2.
Proof. induction l1 as [|t l1 IH]; simpl; [done|]. rewrite IH. lia. Qed.

Lemma matching_loop_spec fuel queue acc :
  Forall region_ok queue → work queue < fuel →
  ∃ blocks, matching_loop a b fuel queue acc = Some blocks
    ∧ matches_of blocks ≤ matches_of acc + a_room queue
    ∧ matches_of blocks ≤ matches_of acc + b_room queue.
Proof.
  revert queue acc.
  induction fuel as [|fuel IH]; intros queue acc Hok Hfuel; [lia|].
  destruct queue as [|[[[alo ahi] blo] bhi] queue]; simpl.
  { exists acc. split; [done|]. simpl. lia. }
  apply Forall_cons in Hok as [[Ha Hb] Hok]. simpl in Ha, Hb, Hfuel.
  pose proof (find_longest_match_fit alo ahi blo bhi Ha Hb) as Hfit.
  destruct (find_longest_match a b alo ahi blo bhi) as [[i j] k].
  unfold in_region in Hfit; simpl in Hfit.
  destruct (k =? 0) eqn:Hk.
  { destruct (IH queue acc Hok) as (blocks & -> & ? & ?); [lia|].
    exists blocks. split; [done|]. simpl. lia. }
  apply Nat.eqb_neq in Hk.
  set (q1 := if (alo <? i) && (blo <? j) then (alo, i, blo, j) :: queue else queue).
  set (q2 := if (i + k <? ahi) && (j + k <? bhi) then (i + k, ahi, j + k, bhi) :: q1 else q1).
  assert (Forall region_ok q1) as Hq1.
  { unfold q1. destruct ((alo <? i) && (blo <? j)); [|done].
    apply Forall_cons; split; [|done]. unfold region_ok; simpl. lia. }
  assert (Forall region_ok q2) as Hq2.
  { unfold q2. destruct ((i + k <? ahi) && (j + k <? bhi)); [|done].
    apply Forall_cons; split; [|done]. unfold region_ok; simpl. lia. }
  assert (a_room q1 ≤ (i - alo) + a_room queue
          ∧ b_room q1 ≤ (j - blo) + b_room queue
          ∧ work q1 ≤ S (2 * (i - alo)) + work queue) as (Hra1 & Hrb1 & Hw1).
  { unfold q1. destruct ((alo <? i) && (blo <? j)); simpl; lia. }
  assert (a_room q2 ≤ (ahi - (i + k)) + a_room q1
          ∧ b_room q2 ≤ (bhi - (j + k)) + b_room q1
          ∧ work q2 ≤ S (2 * (ahi - (i + k))) + work q1) as (Hra2 & Hrb2 & Hw2).
  { unfold q2. destruct ((i + k <? ahi) && (j + k <? bhi)); simpl; lia. }
  destruct (IH q2 (acc ++ [(i, j, k)]) Hq2) as (blocks & -> & Hma & Hmb); [lia|].
  exists blocks. split; [done|].
  rewrite matches_of_app in Hma, Hmb. simpl in *. lia.
Qed.

Lemma get_matching_blocks_spec :
  ∃ blocks, get_matching_blocks a b = Some blocks
    ∧ matches_of blocks ≤ length a ∧ matches_of blocks ≤ length b.
Proof.
  unfold get_matching_blocks.
  destruct (matching_loop_spec (2 * length a + 2) [(0, length a, 0, length b)] [])
    as (blocks & Hb & H1 & H2).
  - apply Forall_cons; split; [|done]. unfold region_ok; simpl. lia.
  - simpl. lia.
  - exists blocks. simpl in *. split; [done|]. lia.
Qed.

Lemma calculate_ratio_bounds m len :
  2 * m ≤ len → (0 <= calculate_ratio m len <= 1)%Q.
Proof.
  intros Hm. unfold calculate_ratio.
  destruct (len =? 0) eqn:Hlen; [split; discriminate|].
  apply Nat.eqb_neq in Hlen.
  unfold Qle; simpl.
  replace (Z.pos (Pos.of_nat len)) with (Z.of_nat len)
    by (destruct len; [done|]; rewrite <- Pos.of_nat_succ; lia).
  lia.
Qed.

Lemma ratio_spec :
  ∃ r, ratio a b = Some r ∧ (0 <= r <= 1)%Q.
Proof.
  destruct get_matching_blocks_spec as (blocks & Hb & H1 & H2).
  unfold ratio. rewrite Hb. simpl. eexists; split; [done|].
  apply calculate_ratio_bounds. lia.
Qed.

(** The rounded ratio is computed from the same blocks as the exact
    one. *)
Lemma ratio_float_spec :
  ∃ blocks, get_matching_blocks a b = Some blocks
    ∧ ratio a b
      = Some (calculate_ratio (matches_of blocks) (length a + length b))
    ∧ ratio_float a b
      = Some (calculate_ratio_float (matches_of blocks) (length a + length b)).
Proof.
  destruct get_matching_blocks_spec as (blocks & Hb & _).
  exists blocks. unfold ratio, ratio_float. by rewrite Hb.
Qed.

End MatcherFacts.
End DifflibFacts.

(** ** Text, rows and the blocks of the prompt *)

Module TextFacts.
Import Py QAAgent TextSpec.

Lemma append_assoc (s1 s2 s3 : string) :
  (s1 +:+ s2) +:+ s3 = s1 +:+ s2 +:+ s3.
Proof.
  induction s1 as [|c s1 IH]; [done|].
  change (String c ((s1 +:+ s2) +:+ s3) = String c (s1 +:+ s2 +:+ s3)).
  by rewrite IH.
Qed.

Lemma all_chars_lstrip p s : all_chars p s = true → all_chars p (lstrip s) = true.
Proof.
  induction s as [|c s IH]; simpl; [done|].
  intros Hcs. destruct (isspace c); [|done].
  apply andb_prop in Hcs as [_ Hs]. by apply IH.
Qed.

Lemma all_chars_rstrip p s : all_chars p s = true → all_chars p (rstrip s) = true.
Proof.
  induction s as [|c s IH]; simpl; [done|].
  intros [Hc Hs]%andb_prop. specialize (IH Hs).
  destruct (rstrip s) as [|c' r].
  - destruct (isspace c); simpl; [done|]. by rewrite Hc.
  - simpl in *. by rewrite Hc, IH.
Qed.

Lemma all_chars_sub_non_alnum s :
  all_chars (λ c, islower c || isdigit c || isspace c) (sub_non_alnum s) = true.
Proof.
  induction s as [|c s IH]; simpl; [done|].
  rewrite IH, andb_true_r. unfold keep_or_blank.
  destruct (islower c || isdigit c || isspace c) eqn:Hc; [done|]. done.
Qed.

Lemma all_chars_sub_spaces s :
  all_chars (λ c, islower c || isdigit c || isspace c) s = true →
  all_chars plain (sub_spaces s) = true.
Proof.
  induction s as [|c s IH]; [done|].
  intros [Hc Hs]%andb_prop. specialize (IH Hs).
  change (sub_spaces (String c s)) with
    (if isspace c then
       match s with
       | "" => " "
       | String c' _ => if isspace c' then sub_spaces s else String " " (sub_spaces s)
       end
     else String c (sub_spaces s)).
  destruct (isspace c) eqn:Hsp.
  - destruct s as [|c' s']; [done|].
    destruct (isspace c'); [done|].
    change (all_chars plain (String " " (sub_spaces (String c' s'))))
      with (plain " " && all_chars plain (sub_spaces (String c' s'))).
    by rewrite IH.
  - change (all_chars plain (String c (sub_spaces s)))
      with (plain c && all_chars plain (sub_spaces s)).
    rewrite IH, andb_true_r. unfold plain.
    rewrite orb_false_r in Hc. by rewrite Hc.
Qed.

(** A normalised text holds lower-case letters, digits and single
    blanks only. *)
Lemma normalize_text_plain s : all_chars plain (_normalize_text s) = true.
Proof.
  unfold _normalize_text. case_bool_decide; [done|].
  apply all_chars_rstrip, all_chars_lstrip, all_chars_sub_spaces,
    all_chars_sub_non_alnum.
Qed.

Lemma get_text_row cells key :
  ∃ s, por (get (text_row cells) key) (VStr "") = VStr s.
Proof.
  unfold get, por.
  induction cells as [|[k v] cells IH]; simpl; [by exists ""|].
  case_bool_decide; [|done]. simpl.
  destruct (bool_decide (v = "")); simpl; eauto.
Qed.

Lemma first_of_text_row cells keys :
  ∃ s, first_of (text_row cells) keys = VStr s.
Proof.
  induction keys as [|key keys [s IH]]; simpl; [by exists ""|].
  rewrite IH. unfold por.
  destruct (truthy (get (text_row cells) key)) eqn:Ht; [|by exists s].
  destruct (get_text_row cells key) as [t Hget]. unfold por in Hget.
  rewrite Ht in Hget. eauto.
Qed.

Lemma dash_if_text s : ∃ t, dash_if (VStr s) = Ok t.
Proof. unfold dash_if. destruct (truthy (VStr s)); simpl; eauto. Qed.

Lemma menu_line_text cells : ∃ t, menu_line (text_row cells) = Ok t.
Proof.
  unfold menu_line.
  destruct (get_text_row cells "Description") as [s ->].
  destruct (dash_if_text s) as [t ->]. simpl. eauto.
Qed.

Lemma campaign_line_text cells : ∃ t, campaign_line (text_row cells) = Ok t.
Proof.
  unfold campaign_line.
  destruct (first_of_text_row cells ["Description"; "Desc"]) as [s ->].
  destruct (_ || _); [|eauto].
  destruct (dash_if_text s) as [t ->]. simpl. eauto.
Qed.

Lemma mapM_text (f : row → result string) (items : list (list (string * string))) :
  (∀ cells, ∃ t, f (text_row cells) = Ok t) →
  ∃ lines, mapM f (text_row <$> items) = Ok lines.
Proof.
  intros Hf. induction items as [|cells items [lines IH]]; [by exists []|].
  destruct (Hf cells) as [t Ht].
  change (mapM f (text_row <$> cells :: items))
    with (y ← f (text_row cells); k ← mapM f (text_row <$> items); mret (y :: k)).
  rewrite Ht, IH. by eexists.
Qed.

Lemma menu_block_text items :
  ∃ lines, menu_block (text_row <$> items) = Ok (menu_header +:+ lines).
Proof.
  unfold menu_block.
  destruct (mapM_text menu_line items menu_line_text) as [lines ->]. simpl. eauto.
Qed.

Lemma campaigns_block_text cs :
  ∃ lines, campaigns_block (text_row <$> cs) = Ok (campaigns_header +:+ lines).
Proof.
  unfold campaigns_block. rewrite <- fmap_take.
  destruct (mapM_text campaign_line (take 5 cs) campaign_line_text) as [lines ->].
  simpl. eauto.
Qed.

End TextFacts.

(** ** Policy evaluation and identity resolution *)

Module PolicyFacts.
Import Py QAAgent PolicySpec.

(** Policy evaluation, read off the code: the stage is compared after
    trimming and lower-casing, the two identifiers after trimming only. *)
Lemma is_user_booked_iff (r : row) :
  _is_user_booked (Some r) = true ↔
    r ≠ []
    ∧ (stage_cell r = "confirmed"
       ∨ trimmed_cell r "Booking Id" ∉ placeholders
       ∨ trimmed_cell r "Room Alloted" ∉ placeholders).
Proof.
  unfold _is_user_booked, stage_cell, trimmed_cell, mem.
  destruct r as [|c r]; simpl; [split; [done|by intros [? _]]|].
  case_bool_decide as Hwf; [split; [by auto|done]|].
  set (bid := strip (str (por (get (c :: r) "Booking Id") (VStr "")))).
  set (room := strip (str (por (get (c :: r) "Room Alloted") (VStr "")))).
  assert (∀ x, negb (bool_decide (x = "")) && negb (bool_decide (x ∈ placeholders)) = true
               ↔ x ∉ placeholders) as Hmem.
  { intros x. rewrite andb_true_iff, !negb_true_iff, !bool_decide_eq_false.
    split; [by intros [_ ?]|]. intros Hx. split; [|done].
    intros ->. apply Hx. unfold placeholders. set_solver. }
  destruct (negb (bool_decide (bid = "")) && _) eqn:Hb.
  { apply Hmem in Hb. split; [by auto|done]. }
  destruct (negb (bool_decide (room = "")) && _) eqn:Hr.
  { apply Hmem in Hr. split; [by auto|done]. }
  split; [done|]. intros [_ [?|[Hx|Hx]]]; [done| |].
  - apply Hmem in Hx. congruence.
  - apply Hmem in Hx. congruence.
Qed.

Lemma is_id_verified_iff (r : row) :
  _is_id_verified (Some r) = true ↔
    r ≠ [] ∧ truthy (get r "Id Link") = true
    ∧ (lower (strip (str (get r "Id Link"))) = "done"
       ∨ contains (lower (strip (str (get r "Id Link")))) "http" = true).
Proof.
  unfold _is_id_verified.
  destruct r as [|c r]; simpl; [split; [done|by intros [? _]]|].
  destruct (truthy (get (c :: r) "Id Link")); simpl; [|split; [done|by intros (_ & ? & _)]].
  destruct (_ || _) eqn:Hv.
  - split; [intros _|done]. split; [done|]. split; [done|].
    apply orb_prop in Hv as [Hv%bool_decide_eq_true|Hv]; auto.
  - apply orb_false_elim in Hv as [Hv1%bool_decide_eq_false Hv2].
    split; [done|]. intros (_ & _ & [?|?]); congruence.
Qed.

Lemma no_record_no_rights :
  _is_user_booked None = false ∧ _is_id_verified None = false.
Proof. done. Qed.

Lemma row_matches_true iid r :
  row_matches iid r = Ok true ↔ answers_to iid r.
Proof.
  unfold row_matches, answers_to, norm_cell.
  destruct (get_default r "Email" (VStr "")) as [|email|n|b]; simpl;
    try (split; [done|by intros (? & ? & _)]).
  case_bool_decide as Heq.
  { split; [|done]. intros _. exists email. auto. }
  split.
  - intros [= Hm]. exists email. split; [done|]. right.
    apply andb_prop in Hm as [Hne Hm]. apply negb_true_iff, bool_decide_eq_false in Hne.
    split; [done|].
    apply orb_prop in Hm as [Hm|Hm]; [apply orb_prop in Hm as [Hm|Hm]|];
      apply bool_decide_eq_true in Hm; auto.
  - intros (email' & [= <-] & [?|(Hne & Hm)]); [done|]. f_equal.
    apply andb_true_intro; split.
    + by apply negb_true_iff, bool_decide_eq_false.
    + destruct Hm as [Hm|[Hm|Hm]]; rewrite <- Hm;
        rewrite (bool_decide_true (iid = iid)) by done; simpl;
        by rewrite ?orb_true_r.
Qed.

Lemma find_row_some iid rows r :
  find_row iid rows = Ok (Some r) ↔
    ∃ before after, rows = before ++ r :: after
      ∧ row_matches iid r = Ok true ∧ Forall (passed_over iid) before.
Proof.
  unfold passed_over. induction rows as [|r0 rows IH]; simpl.
  { split; [done|]. intros (before & after & Hrows & _). by destruct before. }
  destruct (row_matches iid r0) as [[]|e] eqn:Hm; simpl.
  - split.
    + intros [= <-]. exists [], rows. by repeat split.
    + intros ([|r1 before] & after & Hrows & Hr & Hbefore).
      * by injection Hrows as -> _.
      * injection Hrows as <- _. apply Forall_cons in Hbefore as [Hr1 _]. congruence.
  - rewrite IH. split.
    + intros (before & after & -> & Hr & Hbefore).
      exists (r0 :: before), after. repeat split; [done|]. by apply Forall_cons.
    + intros ([|r1 before] & after & Hrows & Hr & Hbefore).
      * injection Hrows as <- _. congruence.
      * injection Hrows as <- ->. apply Forall_cons in Hbefore as [_ Hbefore].
        by exists before, after.
  - split; [done|].
    intros ([|r1 before] & after & Hrows & Hr & Hbefore).
    + injection Hrows as <- _. congruence.
    + injection Hrows as <- _. apply Forall_cons in Hbefore as [Hr1 _]. congruence.
Qed.

Lemma find_row_none iid rows :
  find_row iid rows = Ok None ↔ Forall (passed_over iid) rows.
Proof.
  unfold passed_over. induction rows as [|r0 rows IH]; simpl; [done|].
  rewrite Forall_cons.
  destruct (row_matches iid r0) as [[]|e]; simpl.
  - split; [done|]. by intros [? _].
  - rewrite IH. split; [by split|by intros [_ ?]].
  - split; [done|]. by intros [? _].
Qed.

End PolicyFacts.

(** ** Scores *)

Module ScoreFacts.
Import Py QAAgent ScoreSpec.

Lemma ratio_is_Some (x y : string) :
  Difflib.ratio (String.list_ascii_of_string x) (String.list_ascii_of_string y)
  = Some (seq_ratio x y).
Proof.
  unfold seq_ratio.
  destruct (DifflibFacts.ratio_spec (String.list_ascii_of_string x)
              (String.list_ascii_of_string y)) as (r & -> & _).
  done.
Qed.

Lemma ratio_float_is_Some (x y : string) :
  Difflib.ratio_float (String.list_ascii_of_string x)
    (String.list_ascii_of_string y)
  = Some (seq_ratio_float x y).
Proof.
  unfold seq_ratio_float.
  destruct (DifflibFacts.ratio_float_spec (String.list_ascii_of_string x)
              (String.list_ascii_of_string y)) as (blocks & _ & _ & ->).
  done.
Qed.



Lemma score_doc_eq (doc_text query : string) :
  _score_doc doc_text query =
    if bool_decide (token_set (_normalize_text query) = ∅
                    ∨ token_set (_normalize_text doc_text) = ∅)
    then 0%Q else hybrid_score query doc_text.
Proof.
  unfold _score_doc, hybrid_score, overlap_ratio.
  destruct (bool_decide (query = "")) eqn:Hq; simpl.
  { apply bool_decide_eq_true in Hq as ->.
    rewrite bool_decide_true; [done|]. by left. }
  destruct (bool_decide (doc_text = "")) eqn:Hd; simpl.
  { apply bool_decide_eq_true in Hd as ->.
    rewrite bool_decide_true; [done|]. by right. }
  set (qt := token_set (_normalize_text query)).
  set (dt := token_set (_normalize_text doc_text)).
  destruct (bool_decide (qt = ∅)) eqn:Hqt; simpl.
  { apply bool_decide_eq_true in Hqt. rewrite bool_decide_true; [done|]. by left. }
  destruct (bool_decide (dt = ∅)) eqn:Hdt; simpl.
  { apply bool_decide_eq_true in Hdt. rewrite bool_decide_true; [done|]. by right. }
  apply bool_decide_eq_false in Hqt, Hdt.
  rewrite bool_decide_false; [done|]. intros [?|?]; done.
Qed.



End ScoreFacts.

(** ** The stable descending sort *)

Module RetrievalFacts.
Import Py QAAgent ScoreSpec.

Lemma insert_desc_perm x l : insert_desc x l ≡ₚ x :: l.
Proof.
  induction l as [|y l IH]; simpl; [done|].
  destruct (Qlt_le_dec _ _); [|done].
  rewrite IH. apply Permutation_swap.
Qed.

Lemma sort_desc_perm l : sort_desc l ≡ₚ l.
Proof.
  induction l as [|x l IH]; simpl; [done|].
  rewrite insert_desc_perm. by rewrite IH.
Qed.

Lemma insert_desc_sorted x l :
  StronglySorted score_ge l → StronglySorted score_ge (insert_desc x l).
Proof.
  induction 1 as [|y l Hy Hl IH]; simpl.
  { repeat constructor. }
  destruct (Qlt_le_dec (score_of x) (score_of y)) as [Hlt|Hle].
  - constructor; [done|].
    rewrite insert_desc_perm. constructor; [|done].
    unfold score_ge. lra.
  - constructor; [by constructor|].
    constructor; [done|].
    eapply Forall_impl; [exact IH|]. unfold score_ge. intros z Hz. lra.
Qed.

Lemma sort_desc_sorted l : StronglySorted score_ge (sort_desc l).
Proof.
  induction l as [|x l IH]; simpl; [constructor|].
  by apply insert_desc_sorted.
Qed.

Lemma insert_desc_filter s x l :
  filter (tied s) (insert_desc x l) = filter (tied s) (x :: l).
Proof.
  induction l as [|y l IH]; simpl; [done|].
  destruct (Qlt_le_dec (score_of x) (score_of y)) as [Hlt|Hle]; [|done].
  rewrite (filter_cons _ y), IH, !filter_cons.
  destruct (decide (tied s y)) as [Hy|Hy], (decide (tied s x)) as [Hx|Hx];
    try done.
  unfold tied in *. lra.
Qed.

Lemma sort_desc_stable s l :
  filter (tied s) (sort_desc l) = filter (tied s) l.
Proof.
  induction l as [|x l IH]; simpl; [done|].
  rewrite insert_desc_filter, !filter_cons, IH. done.
Qed.

Lemma slice_to_nonneg {X} (l : list X) k :
  0 ≤ k → slice_to l k = take (Z.to_nat k) l.
Proof. intros Hk. unfold slice_to. by rewrite (proj2 (Z.leb_le 0 k)). Qed.

Lemma retrieve_rows_eq qna_rows rk query k :
  retrieve_rows qna_rows rk query k =
    to_passage <$> slice_to (sort_desc (scored_of query <$> qna_rows)) (k_or k rk).
Proof.
  unfold retrieve_rows. destruct qna_rows; [|done]. simpl.
  unfold slice_to. destruct (0 <=? _); by rewrite ?take_nil.
Qed.

Lemma fmap_to_passage_sorted (l : list scored) :
  StronglySorted score_ge l → StronglySorted passage_ge (to_passage <$> l).
Proof.
  induction 1 as [|x l Hl IH Hx]; simpl; constructor; [done|].
  apply Forall_fmap. eapply Forall_impl; [exact Hx|]. done.
Qed.

Lemma filter_tied_fmap s (l : list scored) :
  filter (passage_tied s) (to_passage <$> l) = to_passage <$> filter (tied s) l.
Proof.
  induction l as [|x l IH]; [done|].
  rewrite fmap_cons, !filter_cons, IH.
  destruct (decide (passage_tied s (to_passage x))) as [Hp|Hp],
           (decide (tied s x)) as [Ht|Ht]; done.
Qed.

(** Two rows whose exact scores against the query are both 23/60.  The
    interpreter computes 0.3833333333333333 for the first and
    0.38333333333333336 for the second, and ranks the second row
    first. *)
Example rounded_scores_decide_the_ranking :
  let rows := [ [("text", VStr "a bb aab b bb")]; [("text", VStr "ab c")] ] in
  (_score_doc "a bb aab b bb" "c a aa a" == 23 # 60)%Q
  ∧ (_score_doc "ab c" "c a aa a" == 23 # 60)%Q
  ∧ (_score_doc_float "a bb aab b bb" "c a aa a"
     == 863189928579345 # 2251799813685248)%Q
  ∧ (_score_doc_float "ab c" "c a aa a"
     == 6905519428634761 # 18014398509481984)%Q
  ∧ page_content <$> retrieve_rows rows 5 "c a aa a" (Some 1) = ["ab c"]
  ∧ page_content <$> retrieve_rows rows 5 "c a aa a" None
    = ["ab c"; "a bb aab b bb"].
Proof. by vm_compute. Qed.

End RetrievalFacts.

(** ** The paths through [ask] *)

Module AskFacts.
Import Py QAAgent AskSpec.

(** [_refresh_sheets] writes the five sheet attributes only. *)
Lemma refresh_keeps w st :
  let st' := (_refresh_sheets w st).1 in
  chat_history st' = chat_history st ∧ use_sheet st' = use_sheet st
  ∧ retriever_k st' = retriever_k st ∧ retriever st' = retriever st.
Proof.
  unfold _refresh_sheets. run.
  destruct (fetch w (qna_sheet st)); simpl; [|done].
  destruct (fetch w (dos_sheet st)); simpl; [|done].
  destruct (fetch w (campaign_sheet st)); simpl; [|done].
  destruct (fetch w (menu_sheet st)); simpl; [|done].
  destruct (fetch w (client_sheet st)); simpl; done.
Qed.

Lemma refreshed_keeps w st :
  chat_history (refreshed w st) = chat_history st
  ∧ use_sheet (refreshed w st) = use_sheet st
  ∧ retriever_k (refreshed w st) = retriever_k st
  ∧ retriever (refreshed w st) = retriever st.
Proof.
  unfold refreshed. pose proof (refresh_keeps w st) as Hkeep. simpl in Hkeep.
  destruct (use_sheet st) eqn:E; done.
Qed.

Lemma build_prompt_pure w hotel_data query sid b v st :
  (_build_prompt w hotel_data query sid b v st).1 = st.
Proof.
  unfold _build_prompt. run.
  destruct (negb (bool_decide (campaigns st = [])) && (b && v)); simpl.
  - destruct (campaigns_block (campaigns st)); simpl; [|done].
    destruct (getattr (menu st)) as [items|]; simpl; [|done].
    destruct (negb (bool_decide (items = [])) && (b && v)); simpl.
    + destruct (menu_block items); simpl; [|done].
      by destruct (negb b || negb v).
    + by destruct (negb b || negb v).
  - destruct (getattr (menu st)) as [items|]; simpl; [|done].
    destruct (negb (bool_decide (items = [])) && (b && v)); simpl.
    + destruct (menu_block items); simpl; [|done].
      by destruct (negb b || negb v).
    + by destruct (negb b || negb v).
Qed.

Lemma last_n_all {X} n (l : list X) : (length l ≤ n)%nat → last_n n l = l.
Proof. intros Hl. unfold last_n. by replace (length l - n)%nat with 0%nat by lia. Qed.

Lemma length_last_n {X} n (l : list X) : length (last_n n l) = (length l `min` n)%nat.
Proof. unfold last_n. rewrite length_drop. lia. Qed.

Lemma bind_run {X Y} (m : M X) (f : X → M Y) st :
  (m ≫= f) st =
    match m st with
    | (st', Ok x) => f x st'
    | (st', Raise e) => (st', Raise e)
    end.
Proof. done. Qed.

Lemma find_run uid st :
  (if str_truthy uid then _find_client_row (default "" uid) else mret None) st
  = (st, resolved st uid).
Proof. unfold resolved. by destruct (str_truthy uid). Qed.

Lemma init_append_run {Y} key t (k : M Y) st :
  (init_history key;; append_turn key t;; k) st
  = k (with_history key (history_at st key ++ [t]) st).
Proof.
  rewrite bind_run. unfold init_history, modify, with_history, history_at.
  destruct (chat_history st !! key) as [msgs|] eqn:Hm; simpl;
    rewrite bind_run; unfold append_turn.
  - by rewrite Hm.
  - simpl. rewrite lookup_insert_eq. unfold set_chat_history; simpl.
    by rewrite insert_insert_eq.
Qed.

Lemma append_run key t msgs st :
  append_turn key t (with_history key msgs st)
  = (with_history key (msgs ++ [t]) st, Ok ()).
Proof.
  unfold append_turn, with_history; simpl. rewrite lookup_insert_eq.
  unfold set_chat_history; simpl. by rewrite insert_insert_eq.
Qed.

Lemma trim_run key msgs st :
  trim_history key (with_history key msgs st)
  = (with_history key (last_n 50 msgs) st, Ok ()).
Proof.
  unfold trim_history, with_history; simpl. rewrite lookup_insert_eq.
  destruct (50 <? length msgs)%nat eqn:Hlen.
  - unfold set_chat_history; simpl. by rewrite insert_insert_eq.
  - apply Nat.ltb_ge in Hlen. by rewrite last_n_all.
Qed.

Lemma docs_run {Y} w query (k : list passage → M Y) st :
  (use ← gets use_sheet;
   docs ← (if use : bool
           then rk ← gets retriever_k; _retrieve_from_sheets query (Some rk)
           else mret []);
   docs ← (if bool_decide (docs = []) then
      r ← gets retriever;
      has_retriever ← lift (getattr r);
      if has_retriever : bool
      then try_except (lift (retriever_invoke w query)) (λ _, mret docs)
      else mret docs
    else mret docs);
   k docs) st
  = match docs_of w query st with
    | Ok docs => k docs st
    | Raise e => (st, Raise e)
    end.
Proof.
  unfold docs_of, _retrieve_from_sheets, try_except. run.
  destruct (use_sheet st); simpl.
  - destruct (bool_decide _); simpl; [|done].
    destruct (retriever st) as [|[]]; simpl; [done| |done].
    by destruct (retriever_invoke w query).
  - destruct (retriever st) as [|[]]; simpl; [done| |done].
    by destruct (retriever_invoke w query).
Qed.

Lemma last_n_suffix {X} n (l : list X) : last_n n l `suffix_of` l.
Proof. apply suffix_drop. Qed.

Lemma last_n_app {X} n (l l' : list X) :
  last_n n (last_n n l ++ l') = last_n n (l ++ l').
Proof.
  destruct (decide (length l ≤ n)%nat) as [Hle|Hgt].
  { by rewrite (last_n_all n l). }
  unfold last_n. rewrite !length_app, length_drop.
  replace (length l - (length l - n) + length l' - n)%nat with (length l')
    by lia.
  replace (length l + length l' - n)%nat
    with ((length l - n) + length l')%nat by lia.
  rewrite <- drop_drop. by rewrite (drop_app_le l l') by lia.
Qed.

Lemma history_at_with key msgs st :
  history_at (with_history key msgs st) key = msgs.
Proof. unfold history_at, with_history; simpl. by rewrite lookup_insert_eq. Qed.

(** While [menu] is unset a gated prompt cannot be built at all. *)
Lemma build_prompt_menu_unset w hotel_data query sid b v st :
  menu st = Unset → b && v = false →
  _build_prompt w hotel_data query sid b v st = (st, Raise AttributeError).
Proof.
  intros Hmenu Hgate. unfold _build_prompt. run.
  rewrite Hgate, andb_false_r, Hmenu. done.
Qed.

(** The four ways through [ask_body]. *)
Lemma ask_body_cases w query uid st :
  let st1 := refreshed w st in
  match resolved st1 uid with
  | Raise e => ask_body w query uid st = (st1, Raise e)
  | Ok client_row =>
      let key := _get_chat_history_key w client_row uid in
      let old := history_at st key in
      let st2 := with_history key (old ++ [user_turn w query]) st1 in
      match prompt_of w query key client_row st2 with
      | Raise e => ask_body w query uid st = (st2, Raise e)
      | Ok prompt =>
          match llm_invoke w prompt with
          | Raise e => ask_body w query uid st = (st2, Raise e)
          | Ok content =>
              ask_body w query uid st =
                (with_history key
                   (last_n 50 (old ++ [user_turn w query; assistant_turn w content]))
                   st1,
                 Ok (strip content))
          end
      end
  end.
Proof.
  intros st1.
  destruct (refreshed_keeps w st) as (Hh & Hu & Hk & Hr). fold st1 in Hh, Hu, Hk, Hr.
  unfold ask_body.
  assert (∀ {B} (k : M B),
    (use ← gets use_sheet;
     (if use : bool then try_except (_refresh_sheets w) (λ _, mret ()) else mret ());; k) st
    = k st1) as Hstart.
  { intros B k. run. unfold st1, refreshed, try_except.
    destruct (use_sheet st); [|done].
    destruct (_refresh_sheets w st) as [st' [[]|e]]; done. }
  rewrite Hstart. clear Hstart.
  rewrite bind_run, find_run.
  destruct (resolved st1 uid) as [client_row|e]; [|done].
  set (key := _get_chat_history_key w client_row uid).
  set (old := history_at st key).
  rewrite init_append_run.
  replace (history_at st1 key) with old by (unfold old, history_at; by rewrite Hh).
  unfold user_turn.
  remember (with_history key (old ++ [Turn User query (utcnow_user w)]) st1)
    as st2 eqn:Hst2.
  rewrite docs_run. unfold prompt_of.
  destruct (docs_of w query st2) as [docs|e]; unfold mbind at 1, result_bind;
    simpl; [|done].
  rewrite bind_run.
  pose proof (build_prompt_pure w (join (nl +:+ nl) (page_content <$> docs)) query
    (Some key)
    (if row_truthy client_row then _is_user_booked client_row else false)
    (if row_truthy client_row then _is_id_verified client_row else false) st2) as Hpure.
  destruct (_build_prompt _ _ _ _ _ _ st2) as [st2' [prompt|e]]; simpl in *;
    subst st2'; [|done].
  rewrite bind_run. unfold lift at 1.
  destruct (llm_invoke w prompt) as [content|e]; [|done].
  rewrite bind_run. subst st2. rewrite append_run.
  rewrite bind_run, trim_run. rewrite <- app_assoc. done.
Qed.

(** 28 completed calls append 56 turns; the most recent 50 remain. *)
Example fifty_six_appended_fifty_kept :
  history_at (ask_times 28 world_ok "hi" (Some "guest") demo_bot)
    (KStr "user_guest")
  = last_n 50 (concat (replicate 28 [Turn User "hi" "t1"; Turn Assistant "ok" "t2"])).
Proof. by vm_compute. Qed.

End AskFacts.

(** ** Substrings and case *)

Module PyFacts.
Import Py.
Local Arguments String.append : simpl nomatch.

Lemma append_nil_r (s : string) : s +:+ "" = s.
Proof. induction s as [|c s IH]; simpl; [done|]. by rewrite IH. Qed.

Lemma lower_char_idem c : lower_char (lower_char c) = lower_char c.
Proof. by destruct c as [[] [] [] [] [] [] [] []]. Qed.

Lemma lower_idem s : lower (lower s) = lower s.
Proof. induction s as [|c s IH]; simpl; [done|]. by rewrite lower_char_idem, IH. Qed.

Lemma lower_app s t : lower (s +:+ t) = lower s +:+ lower t.
Proof. induction s as [|c s IH]; simpl; [done|]. by rewrite IH. Qed.

Lemma lower_empty s : lower s = "" ↔ s = "".
Proof. by destruct s. Qed.

Lemma prefix_spec k s : String.prefix k s = true ↔ ∃ q, s = k +:+ q.
Proof.
  revert s. induction k as [|a k IH]; intros s.
  { destruct s; simpl; (split; [eauto|done]). }
  destruct s as [|b s]; simpl.
  { split; [done|]. by intros [q ?]. }
  destruct (ascii_dec a b) as [->|Hne].
  - rewrite IH. split; intros [q Hq]; exists q; congruence.
  - split; [done|]. intros [q [= ? _]]. done.
Qed.

Lemma contains_spec s k : contains s k = true ↔ ∃ p q, s = p +:+ k +:+ q.
Proof.
  induction s as [|c s IH]; cbn [contains].
  - rewrite orb_false_r, prefix_spec. split.
    + intros [q Hq]. by exists "", q.
    + intros (p & q & Hs). destruct p; [by exists q|done].
  - rewrite orb_true_iff, prefix_spec, IH. split.
    + intros [[q Hq]|(p & q & ->)]; [by exists "", q|by exists (String c p), q].
    + intros ([|c' p] & q & Hs); [left; by exists q|right].
      injection Hs as -> ->. by exists p, q.
Qed.

Lemma contains_app s k p q :
  contains s k = true → contains (p +:+ s +:+ q) k = true.
Proof.
  rewrite !contains_spec. intros (p' & q' & ->).
  exists (p +:+ p'), (q' +:+ q). by rewrite !TextFacts.append_assoc.
Qed.

Lemma contains_trans s t u :
  contains s t = true → contains t u = true → contains s u = true.
Proof.
  rewrite (contains_spec s t). intros (p & q & ->) Hu. by apply contains_app.
Qed.

Lemma contains_empty s : contains s "" = true.
Proof. apply contains_spec. by exists "", s. Qed.

End PyFacts.

(** ** The prompt, block by block *)

Module PromptFacts.
Import Py QAAgent PromptSpec.
Import TextFacts PyFacts.

Lemma por_text_or_truthy x s :
  is_text (por x (VStr s)) = false → truthy (por x (VStr s)) = true.
Proof. unfold por. by destruct (truthy x) eqn:Hx. Qed.

Lemma dash_if_eq x :
  dash_if x = if is_text x then Ok (dashed x)
              else if truthy x then Raise TypeError else Ok "".
Proof.
  unfold dash_if, dashed. destruct x as [|s|n|b]; simpl; try done.
  by destruct (bool_decide (s = "")).
Qed.

Lemma menu_line_eq item :
  menu_line item =
    if is_text (menu_desc item) then Ok (item_line item) else Raise TypeError.
Proof.
  unfold menu_line, item_line. fold (menu_desc item). rewrite dash_if_eq.
  destruct (is_text (menu_desc item)) eqn:Htext; [done|].
  pose proof (por_text_or_truthy _ _ Htext) as Ht. fold (menu_desc item) in Ht.
  by rewrite Ht.
Qed.

Lemma campaign_line_eq campaign :
  campaign_line campaign =
    if is_text (campaign_desc campaign) then Ok (promo_line campaign)
    else Raise TypeError.
Proof.
  unfold campaign_line, promo_line. simpl first_of.
  fold (campaign_title campaign). fold (campaign_desc campaign).
  rewrite dash_if_eq.
  destruct (is_text (campaign_desc campaign)) eqn:Htext.
  - by destruct (truthy (campaign_title campaign) || truthy (campaign_desc campaign)).
  - assert (truthy (campaign_desc campaign) = true) as ->.
    { unfold campaign_desc in *. unfold por at 1.
      destruct (truthy (get campaign "Description")) eqn:H1.
      - unfold por in Htext. rewrite H1 in Htext. done.
      - unfold por in Htext at 1. rewrite H1 in Htext.
        by apply por_text_or_truthy. }
    by rewrite orb_true_r.
Qed.

Lemma mapM_lines (f : row → result string) (ok : row → bool) (g : row → string)
    (rows : list row) :
  (∀ r, f r = if ok r then Ok (g r) else Raise TypeError) →
  mapM f rows = if forallb ok rows then Ok (g <$> rows) else Raise TypeError.
Proof.
  intros Hf. induction rows as [|r rows IH]; [done|].
  cbn [mapM forallb]. rewrite Hf, IH.
  destruct (ok r); [|done]. simpl. by destruct (forallb ok rows).
Qed.

Lemma menu_block_eq items :
  items ≠ [] →
  menu_block items =
    if forallb (λ item, is_text (menu_desc item)) items
    then Ok (menu_part items) else Raise TypeError.
Proof.
  intros Hne. unfold menu_block.
  rewrite (mapM_lines _ _ _ _ menu_line_eq).
  destruct (forallb _ items); [|done]. simpl. by destruct items.
Qed.

Lemma campaigns_block_eq cs :
  cs ≠ [] →
  campaigns_block cs =
    if forallb (λ campaign, is_text (campaign_desc campaign)) (take 5 cs)
    then Ok (campaigns_part cs) else Raise TypeError.
Proof.
  intros Hne. unfold campaigns_block.
  rewrite (mapM_lines _ _ _ _ campaign_line_eq).
  destruct (forallb _ (take 5 cs)); [|done]. simpl. by destruct cs.
Qed.

Lemma contains_refl k : contains k k = true.
Proof. apply contains_spec. exists "", "". by rewrite append_nil_r. Qed.

Lemma contains_here s q k : contains s k = true → contains (s +:+ q) k = true.
Proof. intros Hs. by apply (contains_app s k "" q). Qed.

Lemma contains_later p s k : contains s k = true → contains (p +:+ s) k = true.
Proof.
  intros Hs. pose proof (contains_app s k p "" Hs) as Hps.
  by rewrite append_nil_r in Hps.
Qed.

Lemma contains_concat_all (lines : list string) (line : string) :
  line ∈ lines → contains (concat_all lines) line = true.
Proof.
  induction 1 as [line lines|line other lines _ IH]; simpl.
  - apply contains_here, contains_refl.
  - by apply contains_later.
Qed.

End PromptFacts.

(** ** The history under completed and failed calls *)

Module HistoryFacts.
Import Py QAAgent AskSpec AskFacts.

(** A call that obtains a reply trims the history of its key. *)
Lemma completed_call_trims w query uid st st' reply :
  ask_body w query uid st = (st', Ok reply) →
  ∃ key content,
    let added := [user_turn w query; assistant_turn w content] in
    reply = strip content
    ∧ st' = with_history key (last_n 50 (history_at st key ++ added))
              (refreshed w st)
    ∧ history_at st' key = last_n 50 (history_at st key ++ added)
    ∧ (length (history_at st' key) ≤ 50)%nat
    ∧ history_at st' key `suffix_of` history_at st key ++ added
    ∧ (∀ other, other ≠ key → history_at st' other = history_at st other).
Proof.
  intros Hask.
  pose proof (ask_body_cases w query uid st) as Hcases. simpl in Hcases.
  destruct (refreshed_keeps w st) as (Hh & _).
  destruct (resolved (refreshed w st) uid) as [client_row|e]; [|congruence].
  destruct (prompt_of _ _ _ _ _) as [prompt|e]; [|congruence].
  destruct (llm_invoke w prompt) as [content|e]; [|congruence].
  rewrite Hcases in Hask. injection Hask as <- <-.
  eexists _, content. simpl. split; [done|]. split; [done|].
  rewrite history_at_with.
  split; [done|]. split; [rewrite length_last_n; lia|].
  split; [apply last_n_suffix|].
  intros other Hother. unfold history_at, with_history; simpl.
  by rewrite lookup_insert_ne, Hh.
Qed.

(** A call whose model call raises, made for a guest the bot has no
    record of, leaves the user turn at the end of the history of the
    guest's key and trims nothing. *)
Lemma failed_call_appends w query u st :
  (∀ prompt, ∃ e, llm_invoke w prompt = Raise e) →
  use_sheet st = false → client_rows st = [] → u ≠ "" →
  let key := KStr ("user_" +:+ u) in
  ask w query (Some u) st =
    (with_history key (history_at st key ++ [user_turn w query]) st, apology).
Proof.
  intros Hdown Huse Hrows Hu key. unfold ask.
  pose proof (ask_body_cases w query (Some u) st) as Hcases. simpl in Hcases.
  assert (refreshed w st = st) as Hst by (unfold refreshed; by rewrite Huse).
  rewrite Hst in Hcases.
  assert (resolved st (Some u) = Ok None) as Hres.
  { unfold resolved, find_client_row. simpl.
    by rewrite (bool_decide_false _ Hu), Hrows. }
  rewrite Hres in Hcases.
  assert (_get_chat_history_key w None (Some u) = key) as Hkey.
  { unfold _get_chat_history_key. simpl. by rewrite (bool_decide_false _ Hu). }
  rewrite Hkey in Hcases.
  destruct (prompt_of _ _ _ _ _) as [prompt|e]; [|by rewrite Hcases].
  destruct (Hdown prompt) as [e He]. rewrite He in Hcases. by rewrite Hcases.
Qed.

Lemma failed_calls_append w query u n : ∀ st,
  (∀ prompt, ∃ e, llm_invoke w prompt = Raise e) →
  use_sheet st = false → client_rows st = [] → u ≠ "" →
  let key := KStr ("user_" +:+ u) in
  history_at (ask_times n w query (Some u) st) key
  = history_at st key ++ replicate n (user_turn w query).
Proof.
  induction n as [|n IH]; intros st Hdown Huse Hrows Hu key; simpl.
  { by rewrite app_nil_r. }
  rewrite failed_call_appends by done. simpl.
  rewrite IH by done. fold key. rewrite history_at_with.
  by rewrite <- app_assoc.
Qed.

End HistoryFacts.

(** ** The normal form of a text *)

Module NormalFacts.
Import Py QAAgent TextSpec WordSpec PyFacts.
Local Arguments String.append : simpl nomatch.

Lemma sub_spaces_cons c s :
  sub_spaces (String c s) =
    if isspace c then
      match s with
      | "" => " "
      | String c' _ => if isspace c' then sub_spaces s else String " " (sub_spaces s)
      end
    else String c (sub_spaces s).
Proof. done. Qed.

Lemma split_cons c s :
  split (String c s) =
    if isspace c then split s
    else match s with
         | "" => [String c ""]
         | String c' _ =>
             if isspace c' then String c "" :: split s
             else match split s with
                  | w :: ws => String c w :: ws
                  | [] => [String c ""]
                  end
         end.
Proof. done. Qed.

Lemma rstrip_cons c s :
  rstrip (String c s) =
    match rstrip s with
    | "" => if isspace c then "" else String c ""
    | r => String c r
    end.
Proof. done. Qed.

Lemma join_cons sep p ps :
  join sep (p :: ps) = match ps with [] => p | _ => p +:+ sep +:+ join sep ps end.
Proof. by destruct ps. Qed.

(** The words [split] returns hold the non-blank characters of the
    text, and only characters of the text. *)
Lemma split_words p s :
  all_chars (λ c, isspace c || p c) s = true → Forall (word (λ c, nonblank c && p c)) (split s).
Proof.
  induction s as [|c s IH]; [constructor|].
  intros [Hc Hs]%andb_prop. specialize (IH Hs). rewrite split_cons.
  destruct (isspace c) eqn:Hsp; [done|]. simpl in Hc.
  assert (word (λ c, nonblank c && p c) (String c "")) as Hone.
  { split; [done|]. simpl. unfold nonblank. by rewrite Hsp, Hc. }
  destruct s as [|c' s']; [by constructor|].
  destruct (isspace c'); [by constructor|].
  destruct (split (String c' s')) as [|w ws]; [by constructor|].
  apply Forall_cons in IH as [[_ Hw] Hws]. constructor; [|done].
  split; [done|]. cbn [all_chars]. unfold nonblank in *. by rewrite Hsp, Hc, Hw.
Qed.

Lemma split_nonblank c s : isspace c = false → split (String c s) ≠ [].
Proof.
  intros Hsp. rewrite split_cons, Hsp.
  destruct s as [|c' s']; [done|]. destruct (isspace c'); [done|].
  by destruct (split (String c' s')).
Qed.

Lemma all_chars_impl (p q : ascii → bool) s :
  (∀ c, p c = true → q c = true) → all_chars p s = true → all_chars q s = true.
Proof.
  intros Hpq. induction s as [|c s IH]; simpl; [done|].
  intros [Hc Hs]%andb_prop. by rewrite (Hpq c Hc), IH.
Qed.

Lemma all_chars_true s : all_chars (λ c, isspace c || true) s = true.
Proof. induction s as [|c s IH]; simpl; [done|]. by rewrite orb_true_r, IH. Qed.

Lemma split_nonempty s : Forall (λ w, w ≠ "") (split s).
Proof.
  eapply Forall_impl; [apply (split_words (λ _, true)), all_chars_true|].
  by intros w [Hw _].
Qed.

Lemma join_nonempty sep w ws : w ≠ "" → join sep (w :: ws) ≠ "".
Proof. intros Hw. rewrite join_cons. destruct ws, w; done. Qed.

(** Squeezing the blanks and trimming on the right leaves the words
    joined by single blanks, after one blank if the text began with
    one. *)
Lemma rstrip_sub_spaces s :
  rstrip (sub_spaces s) =
    match split s with
    | [] => ""
    | ws => (if starts_blank s then " " else "") +:+ join " " ws
    end.
Proof.
  induction s as [|c s IH]; [done|].
  rewrite sub_spaces_cons, split_cons. unfold starts_blank.
  destruct (isspace c) eqn:Hsp.
  - destruct s as [|c' s']; [done|].
    destruct (isspace c') eqn:Hsp'.
    + rewrite IH. unfold starts_blank. by rewrite Hsp'.
    + rewrite rstrip_cons, IH. unfold starts_blank. rewrite Hsp'.
      pose proof (split_nonblank c' s' Hsp') as Hne.
      pose proof (split_nonempty (String c' s')) as Hws.
      destruct (split (String c' s')) as [|w ws]; [done|].
      apply Forall_cons in Hws as [Hw _].
      pose proof (join_nonempty " " w ws Hw) as Hj.
      change ("" +:+ join " " (w :: ws)) with (join " " (w :: ws)).
      by destruct (join " " (w :: ws)).
  - rewrite rstrip_cons, IH.
    assert (∀ r, match r with
                 | "" => if isspace c then "" else String c ""
                 | String a r' => String c (String a r')
                 end = String c r) as Hr by (intros []; by rewrite ?Hsp).
    destruct s as [|c' s']; [by simpl; rewrite ?Hsp|].
    unfold starts_blank. destruct (isspace c') eqn:Hsp'.
    + destruct (split (String c' s')) as [|w ws]; [by simpl; rewrite ?Hsp|].
      rewrite Hr. change ("" +:+ ?x) with x. by rewrite (join_cons _ (String c "")).
    + pose proof (split_nonblank c' s' Hsp') as Hne.
      destruct (split (String c' s')) as [|w ws]; [done|].
      rewrite Hr. change ("" +:+ ?x) with x. rewrite !join_cons. by destruct ws.
Qed.

Lemma lstrip_sub_spaces s : lstrip (sub_spaces s) = sub_spaces (lstrip s).
Proof.
  induction s as [|c s IH]; [done|].
  rewrite sub_spaces_cons. simpl lstrip at 2.
  destruct (isspace c) eqn:Hsp.
  - rewrite <- IH. destruct s as [|c' s']; [done|].
    destruct (isspace c') eqn:Hsp'; [done|]. done.
  - rewrite sub_spaces_cons, Hsp. simpl. by rewrite Hsp.
Qed.

Lemma split_lstrip s : split (lstrip s) = split s.
Proof.
  induction s as [|c s IH]; [done|].
  simpl lstrip. rewrite (split_cons c s).
  destruct (isspace c) eqn:Hsp; [exact IH|]. by rewrite split_cons, Hsp.
Qed.

Lemma starts_blank_lstrip s : starts_blank (lstrip s) = false.
Proof.
  induction s as [|c s IH]; [done|]. simpl.
  destruct (isspace c) eqn:Hsp; [done|]. simpl. done.
Qed.

(** [re.sub(r"\s+", " ", s).strip()] is [" ".join(s.split())]. *)
Lemma strip_sub_spaces s : strip (sub_spaces s) = join " " (split s).
Proof.
  unfold strip. rewrite lstrip_sub_spaces, rstrip_sub_spaces.
  rewrite starts_blank_lstrip, split_lstrip. by destruct (split s).
Qed.

(** A word followed by nothing or by a blank is the first word. *)
Lemma split_word_app w t :
  word nonblank w → starts_blank t = true ∨ t = "" →
  split (w +:+ t) = w :: split t.
Proof.
  intros [Hne Hw] Ht. induction w as [|c w IH]; [done|]. clear Hne.
  simpl in Hw. apply andb_prop in Hw as [Hc Hw].
  unfold nonblank in Hc. apply negb_true_iff in Hc.
  change (String c w +:+ t) with (String c (w +:+ t)).
  rewrite split_cons, Hc.
  destruct w as [|c' w'].
  - change ("" +:+ t) with t.
    destruct Ht as [Ht| ->]; [|done].
    destruct t as [|c' t']; [done|]. simpl in Ht. by rewrite Ht.
  - specialize (IH ltac:(done) Hw).
    change (String c' w' +:+ t) with (String c' (w' +:+ t)) in *.
    simpl in Hw. apply andb_prop in Hw as [Hc' _].
    unfold nonblank in Hc'. apply negb_true_iff in Hc'.
    by rewrite Hc', IH.
Qed.

(** Splitting what was joined by single blanks gives the words back. *)
Lemma split_join ws : Forall (word nonblank) ws → split (join " " ws) = ws.
Proof.
  induction 1 as [|w ws Hw Hws IH]; [done|].
  rewrite join_cons. destruct ws as [|w' ws'].
  - rewrite <- (append_nil_r w) at 1. rewrite split_word_app; auto.
  - rewrite split_word_app; [|done|by left].
    change (" " +:+ join " " (w' :: ws')) with (String " " (join " " (w' :: ws'))).
    rewrite split_cons. simpl isspace. by rewrite IH.
Qed.

Lemma plain_lower_char c : plain c = true → lower_char c = c.
Proof. by destruct c as [[] [] [] [] [] [] [] []]. Qed.

Lemma plain_keep c : plain c = true → keep_or_blank c = c.
Proof. by destruct c as [[] [] [] [] [] [] [] []]. Qed.

Lemma lower_plain s : all_chars plain s = true → lower s = s.
Proof.
  induction s as [|c s IH]; simpl; [done|].
  intros [Hc Hs]%andb_prop. by rewrite plain_lower_char, IH.
Qed.

Lemma sub_non_alnum_plain s : all_chars plain s = true → sub_non_alnum s = s.
Proof.
  induction s as [|c s IH]; simpl; [done|].
  intros [Hc Hs]%andb_prop. by rewrite plain_keep, IH.
Qed.

Lemma normalize_text_join s : _normalize_text s = join " " (split (cleaned s)).
Proof.
  unfold _normalize_text, cleaned. case_bool_decide as Hs; [by subst|].
  apply strip_sub_spaces.
Qed.

Lemma cleaned_words s : Forall (word alnum) (split (cleaned s)).
Proof.
  eapply Forall_impl.
  - apply (split_words alnum). unfold cleaned.
    eapply all_chars_impl; [|apply TextFacts.all_chars_sub_non_alnum].
    intros c. unfold alnum. by destruct (islower c), (isdigit c), (isspace c).
  - intros w [Hne Hw]. split; [done|].
    eapply all_chars_impl; [|exact Hw]. by intros c [_ ?]%andb_prop.
Qed.

Lemma word_alnum_nonblank w : word alnum w → word nonblank w.
Proof.
  intros [Hne Hw]. split; [done|]. eapply all_chars_impl; [|exact Hw].
  intros c. by destruct c as [[] [] [] [] [] [] [] []].
Qed.

Lemma split_normalize_text s : split (_normalize_text s) = split (cleaned s).
Proof.
  rewrite normalize_text_join. apply split_join.
  eapply Forall_impl; [apply cleaned_words|]. apply word_alnum_nonblank.
Qed.

Lemma normalize_text_idem s : _normalize_text (_normalize_text s) = _normalize_text s.
Proof.
  rewrite (normalize_text_join (_normalize_text s)). unfold cleaned.
  rewrite lower_plain, sub_non_alnum_plain by apply TextFacts.normalize_text_plain.
  rewrite split_normalize_text. by rewrite <- normalize_text_join.
Qed.

Lemma normalize_text_lower s : _normalize_text (lower s) = _normalize_text s.
Proof.
  rewrite !normalize_text_join. unfold cleaned. by rewrite lower_idem.
Qed.

End NormalFacts.

(** ** Tokens, cells and passage texts *)

Module TokenFacts.
Import Py QAAgent TextSpec ScoreSpec WordSpec PyFacts NormalFacts.

Lemma hybrid_score_normalized query doc_text :
  hybrid_score (_normalize_text query) (_normalize_text doc_text)
  = hybrid_score query doc_text.
Proof. unfold hybrid_score. by rewrite !normalize_text_idem. Qed.

Lemma score_doc_normalized doc_text query :
  _score_doc (_normalize_text doc_text) (_normalize_text query)
  = _score_doc doc_text query.
Proof.
  rewrite !ScoreFacts.score_doc_eq, !normalize_text_idem.
  by rewrite hybrid_score_normalized.
Qed.




Lemma pretty_N_go_nonempty x s : s ≠ "" → pretty_N_go x s ≠ "".
Proof.
  revert s. induction (N.lt_wf_0 x) as [x _ IH]; intros s Hs.
  assert (x = 0 ∨ 0 < x)%N as [->|Hx] by lia; [by rewrite pretty_N_go_0|].
  rewrite pretty_N_go_step by done. apply IH; [by apply N.div_lt|done].
Qed.

Lemma pretty_positive_nonempty (p : positive) : pretty p ≠ "".
Proof.
  unfold pretty, pretty_positive, pretty, pretty_N.
  rewrite decide_False by done.
  rewrite pretty_N_go_step by lia. by apply pretty_N_go_nonempty.
Qed.

Lemma pretty_Z_nonempty (n : Z) : pretty n ≠ "".
Proof.
  destruct n as [|p|p]; [done|apply pretty_positive_nonempty|].
  change (pretty (Z.neg p)) with ("-" +:+ pretty p). done.
Qed.

(** A truthy cell prints as a non-empty text. *)
Lemma str_truthy_nonempty v : truthy v = true → str v ≠ "".
Proof.
  destruct v as [|s|n|[]]; simpl; try done.
  - intros Hs%negb_true_iff%bool_decide_eq_false. done.
  - intros _. apply pretty_Z_nonempty.
Qed.

Lemma get_default_in r key d :
  get_default r key d = d ∨ get_default r key d ∈ values r.
Proof.
  induction r as [|[k v] r IH]; simpl; [by left|].
  case_bool_decide.
  - right. unfold values. simpl. apply elem_of_cons. by left.
  - destruct IH as [IH|IH]; [by left|right].
    unfold values in *. simpl. apply elem_of_cons. by right.
Qed.

Lemma first_truthy_Some r keys v :
  first_truthy r keys = Some v → truthy v = true ∧ v ∈ values r.
Proof.
  induction keys as [|key keys IH]; simpl; [done|].
  destruct (truthy (get r key)) eqn:Ht; [|done].
  intros [= <-]. split; [done|].
  destruct (get_default_in r key VNone) as [Hd|Hin]; [|done].
  unfold get in Ht. by rewrite Hd in Ht.
Qed.

Lemma join_strs_nonempty sep (ss : list string) :
  ss ≠ [] → Forall (λ s, s ≠ "") ss → join sep ss ≠ "".
Proof.
  intros Hne Hall. destruct ss as [|s ss]; [done|].
  apply Forall_cons in Hall as [Hs _]. by apply join_nonempty.
Qed.

(** The passage text of a row is empty exactly when no cell of the
    row is truthy. *)
Lemma row_to_doc_text_empty r :
  _row_to_doc_text r = "" ↔ Forall (λ v, truthy v = false) (values r).
Proof.
  unfold _row_to_doc_text.
  destruct (first_truthy r ["question"; "q"; "query"; "prompt"]) as [vq|] eqn:Hq.
  { apply first_truthy_Some in Hq as [Ht Hin]. split.
    - destruct (first_truthy r ["answer"; "a"; "response"; "reply"]); done.
    - intros Hall. rewrite Forall_forall in Hall. specialize (Hall _ Hin).
      congruence. }
  destruct (first_truthy r ["answer"; "a"; "response"; "reply"]) as [va|] eqn:Ha.
  { apply first_truthy_Some in Ha as [Ht Hin]. split; [done|].
    intros Hall. rewrite Forall_forall in Hall. specialize (Hall _ Hin).
    congruence. }
  cbn [app].
  set (cells := filter (λ v, truthy v = true) (values r)).
  assert (Forall (λ s, s ≠ "") (str <$> cells)) as Hstrs.
  { apply Forall_fmap, Forall_forall. intros v [Hv _]%list_elem_of_filter.
    by apply str_truthy_nonempty. }
  split.
  - intros Hempty. case_bool_decide as Hj; [|done].
    destruct cells as [|v cells'] eqn:Hcells.
    + apply Forall_forall. intros v Hv.
      destruct (truthy v) eqn:Ht; [|done].
      assert (v ∈ cells) as Hin by (by apply list_elem_of_filter).
      rewrite Hcells in Hin. by apply elem_of_nil in Hin.
    + exfalso. revert Hj. by apply join_strs_nonempty.
  - intros Hall.
    assert (cells = []) as ->.
    { apply elem_of_nil_inv. intros v [Hv Hin]%list_elem_of_filter.
      rewrite Forall_forall in Hall. specialize (Hall v Hin). congruence. }
    done.
Qed.

End TokenFacts.

(** ** Slices of the ranking *)

Module SliceFacts.
Import Py QAAgent ScoreSpec SliceSpec.

Lemma slice_to_take {X} (l : list X) k : slice_to l k = take (kept (length l) k) l.
Proof.
  unfold slice_to, kept. destruct (0 <=? k); [|done].
  destruct (decide (Z.to_nat k ≤ length l)%nat) as [Hle|Hgt].
  - by rewrite Nat.min_l.
  - rewrite Nat.min_r by lia. rewrite firstn_all. apply take_ge. lia.
Qed.

Lemma kept_le n k : (kept n k ≤ n)%nat.
Proof. unfold kept. destruct (0 <=? k); lia. Qed.

Lemma length_slice_to {X} (l : list X) k : length (slice_to l k) = kept (length l) k.
Proof. rewrite slice_to_take, length_take. pose proof (kept_le (length l) k). lia. Qed.

(** Whatever [k] is, the passages returned are the head of the
    ranking, and nothing of the tail outranks any of them. *)
Lemma retrieve_rows_split rows rk query k :
  let ranked := to_passage <$> sort_desc (scored_of query <$> rows) in
  let result := retrieve_rows rows rk query k in
  ranked = result ++ drop (length result) ranked
  ∧ length result = kept (length rows) (k_or k rk)
  ∧ ∀ p q, p ∈ result → q ∈ drop (length result) ranked → passage_ge p q.
Proof.
  intros ranked result.
  assert (result = take (kept (length rows) (k_or k rk)) ranked) as Hres.
  { unfold result, ranked. rewrite RetrievalFacts.retrieve_rows_eq, slice_to_take.
    rewrite fmap_take. f_equal.
    rewrite (Permutation_length (RetrievalFacts.sort_desc_perm _)).
    by rewrite length_fmap. }
  assert (length ranked = length rows) as Hlen.
  { unfold ranked. rewrite length_fmap.
    rewrite (Permutation_length (RetrievalFacts.sort_desc_perm _)).
    by rewrite length_fmap. }
  assert (length result = kept (length rows) (k_or k rk)) as Hlr.
  { rewrite Hres, length_take, Hlen.
    pose proof (kept_le (length rows) (k_or k rk)). lia. }
  split; [|split; [done|]].
  - rewrite Hlr, Hres. by rewrite take_drop.
  - intros p q Hp Hq.
    apply (StronglySorted_app_1_elem_of passage_ge result
             (drop (length result) ranked)); [|done..].
    rewrite Hlr, Hres, take_drop.
    apply RetrievalFacts.fmap_to_passage_sorted, RetrievalFacts.sort_desc_sorted.
Qed.

End SliceFacts.

(** ** Start-up and the calls that follow *)

Module SessionFacts.
Import Py QAAgent AskSpec AskFacts QAInit WebChat SessionSpec.

Lemma set_chat_history_same st : set_chat_history (chat_history st) st = st.
Proof. by destruct st. Qed.

(** [ask] leaves the bot as its refresh attempt left it, up to the
    conversation histories. *)
Lemma ask_frame w query uid st :
  ∃ h, (ask w query uid st).1 = set_chat_history h (refreshed w st).
Proof.
  unfold ask. pose proof (ask_body_cases w query uid st) as Hcases.
  simpl in Hcases.
  destruct (resolved (refreshed w st) uid) as [client_row|e].
  2:{ rewrite Hcases. eexists. by rewrite set_chat_history_same. }
  destruct (prompt_of _ _ _ _ _) as [prompt|e].
  2:{ rewrite Hcases. by eexists. }
  destruct (llm_invoke w prompt) as [content|e]; rewrite Hcases; by eexists.
Qed.

Lemma refreshed_off w st : use_sheet st = false → refreshed w st = st.
Proof. intros Hoff. unfold refreshed. by rewrite Hoff. Qed.

(** Without a [menu] attribute no prompt can be built. *)
Lemma build_prompt_needs_menu w hotel_data query sid b v st :
  menu st = Unset →
  ∃ e, _build_prompt w hotel_data query sid b v st = (st, Raise e).
Proof.
  intros Hmenu. unfold _build_prompt. run.
  destruct (negb (bool_decide (campaigns st = [])) && (b && v)); simpl.
  - destruct (campaigns_block (campaigns st)); simpl; [|by eexists].
    rewrite Hmenu. by eexists.
  - rewrite Hmenu. by eexists.
Qed.

Lemma prompt_of_needs_menu w query key client_row st :
  menu st = Unset → ∃ e, prompt_of w query key client_row st = Raise e.
Proof.
  intros Hmenu. unfold prompt_of.
  destruct (docs_of w query st) as [docs|e]; [|by eexists].
  unfold mbind, result_bind.
  destruct (build_prompt_needs_menu w (join (nl +:+ nl) (page_content <$> docs))
    query (Some key)
    (if row_truthy client_row then _is_user_booked client_row else false)
    (if row_truthy client_row then _is_id_verified client_row else false)
    st Hmenu) as [e ->]. by eexists.
Qed.

(** If the prompt cannot be built, the reply is the apology. *)
Lemma ask_apology_without_prompt w query uid st :
  (∀ key client_row msgs,
     ∃ e, prompt_of w query key client_row
            (with_history key msgs (refreshed w st)) = Raise e) →
  (ask w query uid st).2 = apology.
Proof.
  intros Hraise. unfold ask.
  pose proof (ask_body_cases w query uid st) as Hcases. simpl in Hcases.
  destruct (resolved (refreshed w st) uid) as [client_row|e];
    [|by rewrite Hcases].
  match type of Hcases with
  | match prompt_of _ _ ?key _ (with_history _ ?msgs _) with _ => _ end =>
      destruct (Hraise key client_row msgs) as [e He]
  end.
  rewrite He in Hcases. by rewrite Hcases.
Qed.

(** The vector-store bot whose [menu] was never assigned: the reply is
    the apology, and the bot stays as it is in both respects. *)
Lemma ask_without_menu w query uid st :
  menu st = Unset → use_sheet st = false →
  (ask w query uid st).2 = apology
  ∧ menu (ask w query uid st).1 = Unset
  ∧ use_sheet (ask w query uid st).1 = false.
Proof.
  intros Hmenu Hoff. split.
  - apply ask_apology_without_prompt. intros key client_row msgs.
    apply prompt_of_needs_menu. by rewrite refreshed_off.
  - destruct (ask_frame w query uid st) as [h ->].
    rewrite refreshed_off by done. done.
Qed.

Lemma ask_all_without_menu calls st :
  menu st = Unset → use_sheet st = false →
  Forall (λ reply, reply = apology) (ask_all calls st).2.
Proof.
  revert st. induction calls as [|[[w query] uid] calls IH]; intros st Hmenu Hoff;
    simpl; [constructor|].
  destruct (ask_without_menu w query uid st Hmenu Hoff) as (Hreply & Hm & Hu).
  constructor; [done|]. by apply IH.
Qed.

(** What a refresh attempt does to [menu]. *)
Lemma refresh_ok_iff w st :
  (_refresh_sheets w st).2 = Ok ()
  ↔ Forall (λ name, ∃ rows, fetch w name = Ok rows)
      [qna_sheet st; dos_sheet st; campaign_sheet st; menu_sheet st;
       client_sheet st].
Proof.
  unfold _refresh_sheets. run. split.
  - intros Hok.
    destruct (fetch w (qna_sheet st)) eqn:H1; simpl in *; [|done].
    destruct (fetch w (dos_sheet st)) eqn:H2; simpl in *; [|done].
    destruct (fetch w (campaign_sheet st)) eqn:H3; simpl in *; [|done].
    destruct (fetch w (menu_sheet st)) eqn:H4; simpl in *; [|done].
    destruct (fetch w (client_sheet st)) eqn:H5; simpl in *; [|done].
    repeat (constructor; [by eexists|]). constructor.
  - intros Hall.
    repeat (apply Forall_cons in Hall as [[? ->] Hall]; simpl). done.
Qed.

Lemma refresh_sets_menu w st :
  menu st = Unset →
  (menu (_refresh_sheets w st).1 = Unset
   ↔ Exists (λ name, ∃ e, fetch w name = Raise e)
       [qna_sheet st; dos_sheet st; campaign_sheet st; menu_sheet st]).
Proof.
  intros Hmenu. unfold _refresh_sheets. run.
  destruct (fetch w (qna_sheet st)) eqn:H1; simpl.
  2:{ split; [|done]. intros _. apply Exists_cons_hd. by eexists. }
  destruct (fetch w (dos_sheet st)) eqn:H2; simpl.
  2:{ split; [|done]. intros _. apply Exists_cons_tl, Exists_cons_hd. by eexists. }
  destruct (fetch w (campaign_sheet st)) eqn:H3; simpl.
  2:{ split; [|done]. intros _.
      apply Exists_cons_tl, Exists_cons_tl, Exists_cons_hd. by eexists. }
  destruct (fetch w (menu_sheet st)) eqn:H4; simpl.
  2:{ split; [|done]. intros _.
      apply Exists_cons_tl, Exists_cons_tl, Exists_cons_tl, Exists_cons_hd.
      by eexists. }
  split.
  - by destruct (fetch w (client_sheet st)).
  - intros Hex. exfalso.
    repeat (apply Exists_cons in Hex as [[e He]|Hex]; [congruence|]).
    by apply Exists_nil in Hex.
Qed.

Lemma refresh_keeps_names w st :
  let st' := (_refresh_sheets w st).1 in
  qna_sheet st' = qna_sheet st ∧ dos_sheet st' = dos_sheet st
  ∧ campaign_sheet st' = campaign_sheet st ∧ menu_sheet st' = menu_sheet st
  ∧ client_sheet st' = client_sheet st.
Proof.
  unfold _refresh_sheets. run.
  destruct (fetch w (qna_sheet st)); simpl; [|done].
  destruct (fetch w (dos_sheet st)); simpl; [|done].
  destruct (fetch w (campaign_sheet st)); simpl; [|done].
  destruct (fetch w (menu_sheet st)); simpl; [|done].
  destruct (fetch w (client_sheet st)); simpl; done.
Qed.

Lemma refreshed_keeps_names w st :
  qna_sheet (refreshed w st) = qna_sheet st
  ∧ dos_sheet (refreshed w st) = dos_sheet st
  ∧ campaign_sheet (refreshed w st) = campaign_sheet st
  ∧ menu_sheet (refreshed w st) = menu_sheet st
  ∧ client_sheet (refreshed w st) = client_sheet st.
Proof.
  unfold refreshed. pose proof (refresh_keeps_names w st) as Hkeep.
  simpl in Hkeep. destruct (use_sheet st) eqn:E; done.
Qed.

Lemma refreshed_qna_empty w st :
  use_sheet st = true → fetch w (qna_sheet st) = Ok [] →
  qna_rows (refreshed w st) = [].
Proof.
  intros Hon Hfetch. unfold refreshed. rewrite Hon.
  unfold _refresh_sheets. run. rewrite Hfetch. simpl.
  destruct (fetch w (dos_sheet st)); simpl; [|done].
  destruct (fetch w (campaign_sheet st)); simpl; [|done].
  destruct (fetch w (menu_sheet st)); simpl; [|done].
  destruct (fetch w (client_sheet st)); simpl; done.
Qed.

Lemma retrieve_rows_zero rows query : retrieve_rows rows 0 query (Some 0) = [].
Proof. rewrite RetrievalFacts.retrieve_rows_eq. done. Qed.

(** In sheet mode [retriever] is read as soon as the sheet yields no
    passage, and it was never assigned. *)
Lemma docs_of_sheet_without_passages w query st :
  use_sheet st = true → retriever st = Unset →
  qna_rows st = [] ∨ retriever_k st = 0 →
  docs_of w query st = Raise AttributeError.
Proof.
  intros Hon Hret Hnone. unfold docs_of. rewrite Hon, Hret.
  destruct Hnone as [-> | ->]; [done|]. by rewrite retrieve_rows_zero.
Qed.

Lemma key_of_truthy v : key_truthy (key_of v) = truthy v.
Proof. by destruct v as [| | |[]]. Qed.

(** The history key is never falsy. *)
Lemma chat_history_key_truthy w client_row uid :
  key_truthy (_get_chat_history_key w client_row uid) = true.
Proof.
  unfold _get_chat_history_key.
  destruct (row_truthy client_row && truthy (get (default [] client_row) "Email"))
    eqn:He.
  { apply andb_prop in He as [_ He]. by rewrite key_of_truthy. }
  destruct (row_truthy client_row && truthy (get (default [] client_row) "Client Id"))
    eqn:Hc.
  { apply andb_prop in Hc as [_ Hc]. by rewrite key_of_truthy. }
  by destruct (str_truthy uid).
Qed.

Lemma last_n_snoc {X} n (l : list X) x : last_n (S n) (l ++ [x]) = last_n n l ++ [x].
Proof.
  unfold last_n. rewrite length_app. simpl.
  replace (length l + 1 - S n)%nat with (length l - n)%nat by lia.
  rewrite drop_app_le by lia. done.
Qed.

Lemma concat_all_app l1 l2 : concat_all (l1 ++ l2) = concat_all l1 +:+ concat_all l2.
Proof.
  induction l1 as [|s l1 IH]; [done|].
  change (concat_all ((s :: l1) ++ l2)) with (s +:+ concat_all (l1 ++ l2)).
  change (concat_all (s :: l1)) with (s +:+ concat_all l1).
  by rewrite IH, TextFacts.append_assoc.
Qed.

Lemma init_dos_donts_keeps c st :
  chat_history (init_dos_donts c st) = chat_history st
  ∧ use_sheet (init_dos_donts c st) = use_sheet st
  ∧ menu (init_dos_donts c st) = menu st
  ∧ retriever (init_dos_donts c st) = retriever st.
Proof. unfold init_dos_donts. by case_bool_decide. Qed.

Lemma init_vector_store_keeps c st :
  chat_history (init_vector_store c st) = chat_history st
  ∧ use_sheet (init_vector_store c st) = use_sheet st
  ∧ menu (init_vector_store c st) = menu st
  ∧ retriever (init_vector_store c st) =
      if use_sheet st then retriever st else Attr (is_ok (make_retriever c)).
Proof.
  unfold init_vector_store.
  destruct (use_sheet st) eqn:Hu; simpl; [done|].
  by destruct (make_retriever c).
Qed.

(** What the start-up refresh leaves. *)
Lemma init_sheets_outcome w c :
  let st := init_sheets w (blank_bot c) in
  chat_history st = ∅
  ∧ retriever st = Unset
  ∧ (use_sheet st = true ↔
       sheet_api_set c = true
       ∧ Forall (λ name, ∃ rows, fetch w name = Ok rows) (sheets c))
  ∧ (menu st = Unset ↔
       sheet_api_set c = false
       ∨ Exists (λ name, ∃ e, fetch w name = Raise e) (sheets_up_to_menu c)).
Proof.
  unfold init_sheets.
  pose proof (refresh_keeps w (blank_bot c)) as (Hh & Hu & _ & Hr).
  pose proof (refresh_ok_iff w (blank_bot c)) as Hok.
  pose proof (refresh_sets_menu w (blank_bot c) eq_refl) as Hmenu.
  change [qna_sheet (blank_bot c); dos_sheet (blank_bot c);
          campaign_sheet (blank_bot c); menu_sheet (blank_bot c);
          client_sheet (blank_bot c)] with (sheets c) in Hok.
  change [qna_sheet (blank_bot c); dos_sheet (blank_bot c);
          campaign_sheet (blank_bot c); menu_sheet (blank_bot c)]
    with (sheets_up_to_menu c) in Hmenu.
  change (use_sheet (blank_bot c)) with (sheet_api_set c) in *.
  change (chat_history (blank_bot c)) with (∅ : gmap hkey (list turn)) in Hh.
  change (retriever (blank_bot c)) with (@Unset bool) in Hr.
  destruct (sheet_api_set c) eqn:Hapi.
  2:{ simpl. rewrite Hapi. split; [done|]. split; [done|].
      split; [split; [done|by intros [? _]]|]. split; [by left|done]. }
  destruct (_refresh_sheets w (blank_bot c)) as [st' [[]|e]];
    simpl in Hh, Hu, Hr, Hok, Hmenu; simpl.
  - split; [done|]. split; [done|].
    split; [split; [intros _; split; [done|by apply Hok]|done]|].
    rewrite Hmenu. split; [by right|]. by intros [?|?].
  - split; [done|]. split; [done|].
    split; [split; [done|intros [_ Hall]; by apply Hok in Hall]|].
    rewrite Hmenu. split; [by right|]. by intros [?|?].
Qed.

(** The bot [__init__] leaves has [menu] unassigned exactly when the
    start-up refresh never reached it, and is then out of sheet mode. *)
Lemma menu_after_init w c st :
  __init__ w c = Ok st →
  (sheet_api_set c = false
   ∨ Exists (λ name, ∃ e, fetch w name = Raise e) (sheets_up_to_menu c)
   → menu st = Unset)
  ∧ (menu st = Unset → use_sheet st = false).
Proof.
  unfold __init__. destruct (make_llm c) as [[]|e]; [|done].
  unfold mbind, result_bind. intros [= <-].
  set (st1 := init_sheets w (blank_bot c)).
  destruct (init_sheets_outcome w c) as (Hh & Hr & Hu & Hm).
  fold st1 in Hh, Hr, Hu, Hm.
  destruct (init_vector_store_keeps c st1) as (_ & Hu2 & Hm2 & _).
  destruct (init_dos_donts_keeps c (init_vector_store c st1))
    as (_ & Hu3 & Hm3 & _).
  rewrite Hu3, Hm3, Hu2, Hm2. split; [by apply Hm|].
  intros Hmenu. destruct (use_sheet st1) eqn:Hon; [|done]. exfalso.
  apply proj1 in Hm. apply proj1 in Hu.
  destruct (Hu eq_refl) as [Hapi Hall].
  destruct (Hm Hmenu) as [Hoff|Hex]; [congruence|].
  rewrite Forall_forall in Hall.
  apply Exists_exists in Hex as (name & Hin & e & He).
  destruct (Hall name) as [rows Hrows]; [|congruence].
  unfold sheets. apply elem_of_app. by left.
Qed.

End SessionFacts.

(** ** Keywords of a message *)

Module TicketFacts.
Import Py PyMore Tickets TicketSpec PyFacts.

Lemma any_in_true text words :
  any_in text words = true ↔ ∃ k, k ∈ words ∧ contains text k = true.
Proof.
  unfold any_in. rewrite existsb_exists. setoid_rewrite list_elem_of_In. done.
Qed.

Lemma any_in_app text words p q :
  any_in text words = true → any_in (p +:+ text +:+ q) words = true.
Proof.
  rewrite !any_in_true. intros (k & Hin & Hk). exists k. split; [done|].
  by apply contains_app.
Qed.

Lemma any_in_lower_app m words p q :
  any_in (lower m) words = true → any_in (lower (p +:+ m +:+ q)) words = true.
Proof. rewrite !lower_app. apply any_in_app. Qed.

(** A text holding a word that holds a word of [words] holds a word of
    [words]. *)
Lemma any_in_trans text k words :
  contains text k = true → any_in k words = true → any_in text words = true.
Proof.
  rewrite !any_in_true. intros Hk (k' & Hin & Hk'). exists k'. split; [done|].
  by apply (contains_trans text k k').
Qed.

Lemma append_nonempty p m q : m ≠ "" → p +:+ m +:+ q ≠ "".
Proof. destruct p; [|done]. by destruct m. Qed.

Lemma keywords_categorized :
  forallb (λ k, categorized k || mem k uncategorized_keywords) keywords = true.
Proof. by vm_compute. Qed.

Lemma classify_cases message :
  classify_ticket_category message ∈ categories.
Proof.
  unfold classify_ticket_category, categories.
  destruct (any_in _ food_words); [by apply list_elem_of_here|].
  destruct (any_in _ room_service_words);
    [by apply list_elem_of_further, list_elem_of_here|].
  destruct (any_in _ engineering_words);
    [by do 2 apply list_elem_of_further; apply list_elem_of_here|].
  by do 3 apply list_elem_of_further; apply list_elem_of_here.
Qed.

Lemma classify_general message :
  classify_ticket_category message = "General"
  ↔ any_in (lower message) food_words = false
    ∧ any_in (lower message) room_service_words = false
    ∧ any_in (lower message) engineering_words = false.
Proof.
  unfold classify_ticket_category.
  destruct (any_in _ food_words); [by split; [|intros (? & _)]|].
  destruct (any_in _ room_service_words); [by split; [|intros (_ & ? & _)]|].
  destruct (any_in _ engineering_words); [by split; [|intros (_ & _ & ?)]|].
  done.
Qed.

End TicketFacts.

(** ** Dicts *)

Module DictFacts.
Import Py PyMore Http.

Lemma getitem_get r key v : getitem r key = Ok v → get r key = v.
Proof.
  unfold get. induction r as [|[k x] r IH]; simpl; [done|].
  case_bool_decide; [by intros [= ->]|done].
Qed.

Lemma getitem_setitem r key v : getitem (setitem r key v) key = Ok v.
Proof.
  induction r as [|[k x] r IH]; simpl.
  - by rewrite bool_decide_true.
  - case_bool_decide as Hk; simpl.
    + by rewrite bool_decide_true.
    + by rewrite bool_decide_false.
Qed.

Lemma getitem_setitem_ne r key key' v :
  key ≠ key' → getitem (setitem r key v) key' = getitem r key'.
Proof.
  intros Hne. induction r as [|[k x] r IH]; simpl.
  - by rewrite bool_decide_false.
  - case_bool_decide as Hk; simpl.
    + subst k. by rewrite !bool_decide_false.
    + by rewrite IH.
Qed.

End DictFacts.

Module DemoFacts.
Import Py PyMore Http Demo DictFacts.

Lemma apply_patch_cons b k v items :
  apply_patch b ((k, v) :: items) = apply_patch (setitem b k v) items.
Proof. done. Qed.

Lemma getitem_apply_patch_other b items key :
  key ∉ items.*1 → getitem (apply_patch b items) key = getitem b key.
Proof.
  revert b. induction items as [|[k v] items IH]; intros b Hnot; [done|].
  rewrite apply_patch_cons. simpl in Hnot.
  apply not_elem_of_cons in Hnot as [Hne Hnot].
  rewrite IH by done. by apply getitem_setitem_ne.
Qed.

Lemma getitem_apply_patch b items key v :
  NoDup items.*1 → (key, v) ∈ items → getitem (apply_patch b items) key = Ok v.
Proof.
  revert b. induction items as [|[k x] items IH]; intros b Hnd Hin.
  { by apply elem_of_nil in Hin. }
  simpl in Hnd. apply NoDup_cons in Hnd as [Hk Hnd].
  rewrite apply_patch_cons.
  apply elem_of_cons in Hin as [[= -> ->]|Hin].
  - rewrite getitem_apply_patch_other by done. apply getitem_setitem.
  - by apply IH.
Qed.

Lemma patch_items_keys patch :
  NoDup (patch_items patch).*1 ∧ "id" ∉ (patch_items patch).*1.
Proof.
  destruct patch as [[?|] [?|] [?|] [?|] [?|] [?|]];
    (split; [apply (bool_decide_unpack _)|apply (bool_decide_unpack _)];
     by vm_compute).
Qed.

End DemoFacts.

Module AuthFacts.
Import Py QAAgent Http AuthApi.

Lemma find_row_app iid rows rows' :
  find_row iid rows = Ok None → find_row iid (rows ++ rows') = find_row iid rows'.
Proof.
  induction rows as [|r rows IH]; [done|]. simpl.
  destruct (row_matches iid r) as [[]|]; simpl; [done|exact IH|done].
Qed.

End AuthFacts.

(** ** The stages of the WhatsApp dialogue *)

Module WhatsappFacts.
Import Py PyMore Whatsapp WhatsappSpec PyFacts.

Lemma dict_get_elem {A} (d : list (string * A)) key :
  key ∈ d.*1 → ∃ v, dict_get d key = Some v.
Proof.
  induction d as [|[k v] d IH]; simpl; [by intros ?%elem_of_nil|].
  intros [->|Hin]%elem_of_cons.
  - rewrite bool_decide_true by done. by eexists.
  - case_bool_decide; [by eexists|by apply IH].
Qed.

Lemma fresh_ok prices : session_ok prices fresh.
Proof.
  unfold session_ok, fresh; simpl.
  split; [apply list_elem_of_here|]. split; [done|]. split; [done|].
  repeat split; intros Hin;
    repeat (apply elem_of_cons in Hin as [?|Hin]; [done|]);
    try by apply elem_of_nil in Hin. done.
Qed.

Ltac stage_in :=
  repeat first [apply list_elem_of_here | apply list_elem_of_further].

Ltac not_in H :=
  repeat (apply elem_of_cons in H as [?|H]; [done|]); by apply elem_of_nil in H.

Lemma identify_ok prices msg : session_ok prices (identify msg fresh).
Proof.
  unfold identify.
  destruct (contains (lower msg) "guest");
    [|destruct (contains (lower msg) "non-guest" || contains (lower msg) "visitor");
      [|apply fresh_ok]].
  - unfold session_ok; simpl. split; [stage_in|]. split; [done|].
    split; [by left|]. repeat split; intros Hin; try done; not_in Hin.
  - unfold session_ok; simpl. split; [stage_in|]. split; [done|].
    split; [by right|]. repeat split; intros Hin; try done; not_in Hin.
Qed.

Lemma stage_step_ok prices w from msg s :
  session_ok prices s → stage s ≠ "identify" →
  let r := stage_step prices w from msg s in
  session_ok prices (default fresh r.1)
  ∧ (r.2 = Sent ∨ r.2 = WentWrong ValueError).
Proof.
  intros Hok Hid. pose proof Hok as (Hst & Hfresh & Hut & Hguest & Hroom & Hn & Hc).
  unfold stage_step.
  case_bool_decide as Hs1.
  { (* room *)
    destruct (isdigit w msg); [|by split; [|left]].
    destruct (int w msg) as [n|]; [|by split; [|right]].
    destruct ((1 <=? n) && (n <=? Z.of_nat (length (ROOM_OPTIONS prices)))) eqn:Hrange;
      [|by split; [|left]].
    apply andb_prop in Hrange as [H1 H2]. apply Z.leb_le in H1, H2.
    destruct (ROOM_OPTIONS prices !! Z.to_nat (n - 1)) as [room|] eqn:Hlook.
    2:{ apply lookup_ge_None in Hlook. lia. }
    split; [|by left]. simpl.
    assert (user_type s = Some "guest") as Hg.
    { apply Hguest. rewrite Hs1. stage_in. }
    unfold session_ok; simpl. split; [stage_in|]. split; [done|].
    split; [by left|]. split; [done|]. split.
    { intros _. exists room. split; [done|]. by eapply list_elem_of_lookup_2. }
    split; intros Hin; [not_in Hin|done]. }
  case_bool_decide as Hs2.
  { (* nights *)
    destruct (int w msg) as [n|]; [|by split; [|left]].
    destruct (0 <? n) eqn:Hpos; [|by split; [|left]].
    apply Z.ltb_lt in Hpos. split; [|by left]. simpl.
    assert (user_type s = Some "guest") as Hg.
    { apply Hguest. rewrite Hs2. stage_in. }
    destruct Hroom as (room & Hr & Hin); [rewrite Hs2; stage_in|].
    unfold session_ok; simpl. split; [stage_in|]. split; [done|].
    split; [by left|]. split; [done|]. split; [by exists room|].
    split; [by exists n|done]. }
  case_bool_decide as Hs3.
  { (* payment *)
    destruct (mem msg ["1"; "2"]); [|by split; [|left]].
    assert (user_type s = Some "guest") as Hg.
    { apply Hguest. rewrite Hs3. stage_in. }
    destruct Hroom as (room & Hr & Hin); [rewrite Hs3; stage_in|].
    destruct Hn as (n & Hnn & Hpos); [rewrite Hs3; stage_in|].
    destruct (dict_get_elem prices room Hin) as [p Hp].
    simpl. rewrite Hr, Hnn, Hp. split; [|by left]. simpl.
    unfold session_ok; simpl. split; [stage_in|]. split; [done|].
    split; [by left|]. split; [done|]. split; [by exists room|].
    split; [by exists n|]. intros _. exists room, n, p.
    repeat split; try done. case_bool_decide; [by left|by right]. }
  case_bool_decide as Hs4.
  { (* confirm *)
    case_bool_decide; [|by split; [|left]].
    destruct (room_type s), (nights s), (payment s); try by split; [|left].
    destruct (create_checkout_session w from _ _ _); simpl;
      (split; [|by left]); [apply fresh_ok|done]. }
  by split; [|left].
Qed.

Lemma after_identify_ok prices w from msg s :
  session_ok prices s → stage s ≠ "identify" →
  let r := after_identify prices w from msg s in
  session_ok prices (default fresh r.1)
  ∧ (r.2 = Sent ∨ r.2 = WentWrong ValueError).
Proof.
  intros Hok Hid. pose proof Hok as (Hst & Hfresh & Hut & Hguest & Hroom & Hn & Hc).
  unfold after_identify.
  destruct (bool_decide (classify_intent w (lower msg) = "payment_request")
            && bool_decide (default "guest" (user_type s) = "guest")) eqn:Hb.
  { apply andb_prop in Hb as [_ Hg]. apply bool_decide_eq_true in Hg.
    split; [|by left]. simpl.
    assert (user_type s = Some "guest") as Hg'.
    { destruct (Hut Hid) as [Hu|Hu]; [done|]. rewrite Hu in Hg. done. }
    unfold session_ok; simpl. split; [stage_in|]. split; [done|].
    split; [by left|]. split; [done|].
    repeat split; intros Hin; try done; not_in Hin. }
  destruct (String.prefix "book_addon" (classify_intent w (lower msg))).
  { destruct (filter _ _) as [|m ms]; [by split; [|left]|].
    destruct (create_addon_checkout_session w _); simpl;
      (split; [|by left]); [apply fresh_ok|done]. }
  by apply stage_step_ok.
Qed.

(** One call keeps every session well formed and ends with a reply of
    the handler or, for a room choice [int] rejects, with the reply of
    its outermost [except]. *)
Lemma whatsapp_reply_ok prices w body from data :
  map_Forall (λ _, session_ok prices) data →
  let r := whatsapp_reply prices w body from data in
  map_Forall (λ _, session_ok prices) r.1
  ∧ (r.2 = Sent ∨ r.2 = WentWrong ValueError).
Proof.
  intros Hall. unfold whatsapp_reply.
  set (data1 := match data !! from with Some _ => data | None => <[from:=fresh]> data end).
  assert (map_Forall (λ _, session_ok prices) data1) as Hall1.
  { unfold data1. destruct (data !! from); [done|].
    apply map_Forall_insert_2; [apply fresh_ok|done]. }
  assert (session_ok prices (default fresh (data1 !! from))) as Hs.
  { destruct (data1 !! from) as [s|] eqn:Hl; [|apply fresh_ok].
    by apply (Hall1 from s). }
  set (s := default fresh (data1 !! from)) in *.
  case_bool_decide as Hid.
  - split; [|by left]. simpl. apply map_Forall_insert_2; [|done].
    destruct Hs as (_ & Hf & _). rewrite (Hf Hid). apply identify_ok.
  - destruct (after_identify_ok prices w from (strip body) s Hs Hid) as [Hok Hout].
    split; [|done]. simpl. by apply map_Forall_insert_2.
Qed.

Lemma replies_ok prices calls data :
  map_Forall (λ _, session_ok prices) data →
  map_Forall (λ _, session_ok prices) (replies prices calls data).1
  ∧ Forall (λ o, o = Sent ∨ o = WentWrong ValueError) (replies prices calls data).2.
Proof.
  revert data. induction calls as [|[[w body] from] calls IH]; intros data Hall.
  { by split. }
  simpl. destruct (whatsapp_reply_ok prices w body from data Hall) as [Hok Hout].
  destruct (IH _ Hok) as [IH1 IH2]. split; [done|]. by constructor.
Qed.

End WhatsappFacts.

(** ** Splitting at a separator *)

Module SplitFacts.
Import Py PyMore PyFacts NormalFacts.
Local Arguments String.append : simpl nomatch.

Lemma split_at_cons sep skip c s :
  split_at sep skip (String c s) =
    match skip with
    | S n => split_at sep n s
    | O =>
        if String.prefix sep (String c s) then
          ("", (split_at sep (String.length sep - 1) s).1
               :: (split_at sep (String.length sep - 1) s).2)
        else (String c (split_at sep 0 s).1, (split_at sep 0 s).2)
    end.
Proof. done. Qed.

(** Passing the rest of a separator. *)
Lemma split_at_skip sep u t :
  split_at sep (String.length u) (u +:+ t) = split_at sep 0 t.
Proof.
  induction u as [|c u IH]; [by destruct t|].
  change (String c u +:+ t) with (String c (u +:+ t)).
  by rewrite split_at_cons.
Qed.

Lemma length_append (s t : string) :
  String.length (s +:+ t) = (String.length s + String.length t)%nat.
Proof. induction s as [|c s IH]; simpl; [done|]. by rewrite IH. Qed.

(** Joining the parts with the separator gives the text back. *)
Lemma join_split_on sep s : sep ≠ "" → join sep (split_on sep s) = s.
Proof.
  intros Hsep. unfold split_on.
  remember (String.length s) as n eqn:Hn. revert s Hn.
  induction (lt_wf n) as [n _ IH]. intros s ->.
  destruct s as [|c s]; [done|].
  rewrite split_at_cons.
  destruct (String.prefix sep (String c s)) eqn:Hpre.
  - apply prefix_spec in Hpre as [t Ht].
    destruct sep as [|a sep']; [done|].
    change (String a sep' +:+ t) with (String a (sep' +:+ t)) in Ht.
    injection Ht as -> ->.
    replace (String.length (String a sep') - 1)%nat with (String.length sep')
      by (simpl; lia).
    rewrite split_at_skip. cbn [fst snd].
    rewrite (join_cons _ ""). cbn [fst snd].
    rewrite (IH (String.length t)); [done| |done].
    simpl. rewrite length_append. lia.
  - cbn [fst snd].
    specialize (IH (String.length s) ltac:(simpl; lia) s eq_refl).
    rewrite join_cons in *.
    by destruct (split_at sep 0 s).2; simpl in *; rewrite IH.
Qed.

(** A text that does not hold the separator is its own single part. *)
Lemma split_on_without sep s : contains s sep = false → split_on sep s = [s].
Proof.
  unfold split_on. induction s as [|c s IH]; [done|].
  cbn [contains]. intros [Hpre Hrest]%orb_false_elim.
  rewrite split_at_cons, Hpre. cbn [fst snd].
  specialize (IH Hrest). by injection IH as -> ->.
Qed.

End SplitFacts.

(** * The properties of the design document *)

Import Py QAAgent.
Import TextSpec PolicySpec PromptSpec ScoreSpec AskSpec HotelSpec.
Import TextFacts PolicyFacts ScoreFacts RetrievalFacts AskFacts.
Import PromptFacts HistoryFacts.

(** ** Prompt composer *)

(** C1, with a slip of the code.  For a guest who is not both booked
    and verified the prompt is the persona sentence, the sentence "For
    in-room services, spa bookings, or amenity access, politely explain
    that a confirmed booking and ID verification are required.", the
    line "Status: Not Booked" or "Status: Booked but ID Not Verified",
    the hotel data, the history, the query and the rules: it contains
    the framing and the current status, and the menu and the campaigns
    do not occur in it (with the item "Tea" on the menu and the
    campaign "Spa week", neither name nor either header is in the
    prompt).  For a booked and verified guest, when every
    description of the menu and of the first five campaigns is text,
    the prompt carries the menu block after the hotel data and the
    campaigns block at its end, each present exactly when its list is
    not empty, with its header and one line for each entry.  When a
    description is a number or a boolean, ['- ' + desc] raises
    [TypeError] and no prompt is built (the price next to it goes
    through [str]): when the menu sheet holds the item "Tea" with the
    description 5, a bot started in sheet mode answers a booked and
    verified guest with the apology of [ask]; it gives the reply of
    the model once the 5 is typed as text, and to a guest it has no
    record of. *)
Theorem C1_prompt_is_policy_gated_and_breaks_on_a_numeric_description
    (w : World) (hotel_data query : string) (session_id : option hkey)
    (is_booked is_verified : bool) (items cs : list row) (st : Bot) :
  let st' := set_menu items (set_campaigns cs st) in
  let intro :=
    "You are an AI agent named " +:+ str (agent_name_of (agents_json w))
    +:+ ", a knowledgeable and polite concierge assistant at ILORA RETREATS. " in
  let status :=
    "Status: " +:+ (if is_booked then "Booked but ID Not Verified"
                    else "Not Booked") in
  let data := "Hotel Data:" +:+ nl +:+ hotel_data +:+ nl +:+ nl in
  let closing :=
    history_text_of (chat_history st) session_id +:+ nl
    +:+ "Guest Query: " +:+ query +:+ nl +:+ rules_text_of (dos_donts st) in
  let gated :=
    intro
    +:+ "For in-room services, spa bookings, or amenity access, politely explain that a confirmed booking and ID verification are required."
    +:+ nl +:+ nl +:+ status +:+ nl +:+ nl +:+ data +:+ closing in
  let opened :=
    intro
    +:+ "Handle all in-room service requests directly and create service tickets for guest requests."
    +:+ nl +:+ nl +:+ data +:+ menu_part items +:+ nl +:+ nl +:+ closing
    +:+ campaigns_part cs in
  _build_prompt w hotel_data query session_id is_booked is_verified st'
  = (st', if is_booked && is_verified
          then if descriptions_are_text items cs then Ok opened
               else Raise TypeError
          else Ok gated)
  ∧ contains gated "a confirmed booking and ID verification are required" = true
  ∧ contains gated status = true
  ∧ (items ≠ [] → contains opened "📋 **Menu / Services:**" = true)
  ∧ (∀ item, item ∈ items → contains opened (item_line item) = true)
  ∧ (cs ≠ [] → contains opened "📣 **Active Campaigns / Promos:**" = true)
  ∧ (∀ campaign, campaign ∈ take 5 cs →
       contains opened (promo_line campaign) = true)
  ∧ (∀ b v, b && v = false →
       ∃ prompt,
         (_build_prompt world_ok "" "tea?" None b v (stocked_bot demo_bot)).2
         = Ok prompt
         ∧ contains prompt "Menu / Services" = false
         ∧ contains prompt "Tea" = false
         ∧ contains prompt "Campaigns / Promos" = false
         ∧ contains prompt "Spa week" = false)
  ∧ (∃ prompt,
       (_build_prompt world_ok "" "tea?" None true true (stocked_bot demo_bot)).2
       = Ok prompt
       ∧ contains prompt "-  Tea  - 5" = true
       ∧ contains prompt "- Spa week - 20% off" = true)
  ∧ (_build_prompt world_ok "" "tea?" None true true
       (set_menu tea_menu demo_bot)).2 = Raise TypeError
  ∧ first_reply (hotel_world tea_menu answering) hotel_config "tea?"
      (Some "a@b.c") = Ok apology
  ∧ first_reply (hotel_world tea_menu_as_text answering) hotel_config "tea?"
      (Some "a@b.c") = Ok "ok"
  ∧ first_reply (hotel_world tea_menu answering) hotel_config "tea?"
      (Some "walk-in") = Ok "ok".
Proof.
  intros st' intro status data closing gated opened.
  split.
  { unfold _build_prompt. run.
    destruct is_booked, is_verified; simpl;
      repeat (rewrite andb_false_r; simpl);
      try (unfold gated, status, intro, data, closing, preamble, gated_framing;
           simpl; by rewrite ?append_assoc).
    unfold descriptions_are_text.
    destruct (decide (cs = [])) as [->|Hcs];
      [|rewrite (bool_decide_false _ Hcs); simpl;
        rewrite (campaigns_block_eq _ Hcs);
        destruct (forallb _ (take 5 cs)); [|done]]; simpl;
      (destruct (decide (items = [])) as [->|Hitems];
       [|rewrite (bool_decide_false _ Hitems); simpl;
         rewrite (menu_block_eq _ Hitems);
         destruct (forallb _ items); [|done]]); simpl;
      unfold opened, intro, data, closing, preamble, open_framing;
      simpl; by rewrite ?append_assoc. }
  clearbody intro data closing.
  split.
  { unfold gated. apply contains_later, contains_here. by vm_compute. }
  split.
  { unfold gated. do 4 apply contains_later. apply contains_here, contains_refl. }
  split.
  { intros Hne. unfold opened. do 5 apply contains_later. apply contains_here.
    destruct items; [done|]. unfold menu_part.
    do 2 apply contains_later. apply contains_here, contains_refl. }
  split.
  { intros item Hitem. unfold opened. do 5 apply contains_later.
    apply contains_here. destruct items as [|i items']; [by apply elem_of_nil in Hitem|].
    unfold menu_part. do 4 apply contains_later.
    apply contains_concat_all, list_elem_of_fmap. by exists item. }
  split.
  { intros Hne. unfold opened. do 9 apply contains_later.
    destruct cs; [done|]. unfold campaigns_part.
    do 2 apply contains_later. apply contains_here, contains_refl. }
  split.
  { intros campaign Hc. unfold opened. do 9 apply contains_later.
    destruct cs as [|c cs']; [by apply elem_of_nil in Hc|].
    unfold campaigns_part. do 4 apply contains_later.
    apply contains_concat_all, list_elem_of_fmap. by exists campaign. }
  split.
  { intros [] [] Hgate; try discriminate Hgate;
      (eexists; split; [reflexivity|by vm_compute]). }
  split; [eexists; split; [reflexivity|by vm_compute]|].
  by vm_compute.
Qed.

(** ** Dialogue engine: a failing completion *)

(** C2, refuted as stated: with a model call that times out, [ask]
    answers with the apology, and the history of the key then holds the
    user turn alone; no assistant turn carries the apology. *)
Lemma C2_counterexample_apology_not_in_history :
  (ask world_down "hello" (Some "guest") demo_bot).2 = apology
  ∧ chat_history (ask world_down "hello" (Some "guest") demo_bot).1
      !! KStr "user_guest"
    = Some [Turn User "hello" "t1"].
Proof. by vm_compute. Qed.

(** C2, amended.  If the completion capability raises on every prompt,
    [ask] returns the fixed apology string and appends no assistant
    turn: when identity resolution succeeds the bot is left as after
    the sheet refresh with the user turn appended to the history of the
    key, and when identity resolution itself raises no history is
    touched. *)
Theorem C2_apology_returned_user_turn_left_unanswered
    (w : World) (query : string) (uid : option string) (st : Bot) :
  (∀ prompt, ∃ e, llm_invoke w prompt = Raise e) →
  (ask w query uid st).2 = apology
  ∧ match resolved (refreshed w st) uid with
    | Raise _ => (ask w query uid st).1 = refreshed w st
    | Ok client_row =>
        let key := _get_chat_history_key w client_row uid in
        (ask w query uid st).1 =
          with_history key (history_at st key ++ [user_turn w query])
            (refreshed w st)
    end.
Proof.
  intros Hdown. unfold ask.
  pose proof (ask_body_cases w query uid st) as Hcases. simpl in Hcases.
  destruct (resolved (refreshed w st) uid) as [client_row|e];
    [|by rewrite Hcases].
  destruct (prompt_of _ _ _ _ _) as [prompt|e]; [|by rewrite Hcases].
  destruct (Hdown prompt) as [e He]. rewrite He in Hcases. by rewrite Hcases.
Qed.

(** C2 at a bot without sheets whose model call times out. *)
Lemma C2_apology_returned_witness :
  (ask world_down "hello" (Some "guest") demo_bot).2 = apology.
Proof.
  exact (proj1 (C2_apology_returned_user_turn_left_unanswered
                  world_down "hello" (Some "guest") demo_bot
                  (λ _, ex_intro _ (ExternalError "timeout") eq_refl))).
Defined.

(** ** Policy evaluator *)

(** C3, the code at the failing inputs: with a stage other than
    "confirmed", the placeholder "N/A" in the booking-id cell and the
    placeholder "None" in the room cell make the guest booked, while
    their lower-case spellings do not; the list of placeholders is
    matched against the trimmed cell without lower-casing it. *)
Theorem C3_placeholders_are_compared_case_sensitively :
  _is_user_booked
    (Some [("Workflow Stage", VStr "Pending"); ("Booking Id", VStr "N/A")]) = true
  ∧ _is_user_booked
      (Some [("Workflow Stage", VStr "Pending"); ("Booking Id", VStr "n/a")]) = false
  ∧ _is_user_booked
      (Some [("Workflow Stage", VStr "Pending"); ("Room Alloted", VStr "None")]) = true
  ∧ _is_user_booked
      (Some [("Workflow Stage", VStr "Pending"); ("Room Alloted", VStr "none")]) = false.
Proof. by vm_compute. Qed.

(** ** Knowledge retriever *)



(** C5.  With a non-negative retrieval size [k] (the argument, or
    [retriever_k] when the argument is absent or 0), sheet retrieval
    never raises, leaves the bot as it was and is a function of the
    rows, the query and [k] alone; its result is the first [k] entries
    of the rows' passages ranked in non-increasing score order with
    equal scores kept in row order, so it has at most [k] passages,
    is itself sorted, keeps ties in row order, and is empty for an
    empty corpus.  The score of a passage, by which it is ranked and
    tied, is the float the interpreter computes for the text of its
    row. *)
Theorem C5_sheet_retrieval_top_k_stable
    (st : Bot) (query : string) (k : option Z) :
  0 ≤ k_or k (retriever_k st) →
  ∃ result ranked,
    _retrieve_from_sheets query k st = (st, Ok result)
    ∧ ranked ≡ₚ passage_of query <$> qna_rows st
    ∧ StronglySorted passage_ge ranked
    ∧ (∀ s, filter (passage_tied s) ranked
            = filter (passage_tied s) (passage_of query <$> qna_rows st))
    ∧ result = take (Z.to_nat (k_or k (retriever_k st))) ranked
    ∧ (length result ≤ Z.to_nat (k_or k (retriever_k st)))%nat
    ∧ StronglySorted passage_ge result
    ∧ (∀ s, filter (passage_tied s) result `prefix_of`
              filter (passage_tied s) (passage_of query <$> qna_rows st))
    ∧ (qna_rows st = [] → result = [])
    ∧ (∀ p, p ∈ result →
         ∃ r, r ∈ qna_rows st
           ∧ p = Passage (_row_to_doc_text r)
                   (_score_doc_float (_row_to_doc_text r) query) r).
Proof.
  intros Hk.
  set (all := scored_of query <$> qna_rows st).
  set (n := Z.to_nat (k_or k (retriever_k st))).
  assert (passage_of query <$> qna_rows st = to_passage <$> all) as Hall.
  { unfold all. by rewrite <- list_fmap_compose. }
  exists (to_passage <$> take n (sort_desc all)), (to_passage <$> sort_desc all).
  assert (∀ s, filter (passage_tied s) (to_passage <$> sort_desc all)
               = filter (passage_tied s) (to_passage <$> all)) as Hstable.
  { intros s. by rewrite !filter_tied_fmap, sort_desc_stable. }
  rewrite Hall. split_and!.
  - unfold _retrieve_from_sheets. run. rewrite retrieve_rows_eq.
    by rewrite slice_to_nonneg.
  - by rewrite sort_desc_perm.
  - apply fmap_to_passage_sorted, sort_desc_sorted.
  - exact Hstable.
  - by rewrite fmap_take.
  - rewrite length_fmap, length_take. lia.
  - rewrite fmap_take.
    apply (StronglySorted_app_1_l _ _ (drop n (to_passage <$> sort_desc all))).
    rewrite take_drop. apply fmap_to_passage_sorted, sort_desc_sorted.
  - intros s. rewrite <- Hstable, fmap_take.
    rewrite <- (take_drop n (to_passage <$> sort_desc all)) at 2.
    rewrite filter_app. by apply prefix_app_r.
  - intros Hnil. unfold all. rewrite Hnil. simpl. by rewrite take_nil.
  - intros p (x & -> & Hx)%list_elem_of_fmap.
    apply (subseteq_take n) in Hx. rewrite sort_desc_perm in Hx.
    apply list_elem_of_fmap in Hx as (r & -> & Hr). by exists r.
Qed.

(** C5 at three question rows, the query "pool" and [k = 2]. *)
Lemma C5_sheet_retrieval_witness :
  ∃ result,
    _retrieve_from_sheets "pool" (Some 2) (set_qna_rows demo_rows demo_bot)
    = (set_qna_rows demo_rows demo_bot, Ok result)
    ∧ (length result ≤ 2)%nat.
Proof.
  destruct (C5_sheet_retrieval_top_k_stable
              (set_qna_rows demo_rows demo_bot) "pool" (Some 2))
    as (result & ranked & Hrun & _ & _ & _ & _ & Hlen & _).
  - vm_compute. discriminate.
  - exists result. split; [exact Hrun|exact Hlen].
Defined.


(** ** Conversation memory *)

(** C6, a slip of the code.  [ask] trims the history of its key, with
    the comment "keep last 50", only after the reply of the model has
    been appended (lemma [completed_call_trims]); a call whose model
    call raises has appended its user turn by then and trims nothing.
    With a model that is down, [n] calls for one guest leave [n] user
    turns under the guest's key, whatever [n] is, each call answered by
    the apology: 60 calls leave 60 turns.  Thirty completed calls leave
    the last 50 of their 60 turns, and one failed call after 27
    completed ones leaves 51 of the 55 turns appended.  A bot started
    in sheet mode holds 60 turns after 60 calls that time out, and 50
    after 60 calls that are answered. *)
Theorem C6_failed_calls_are_never_trimmed (n : nat) :
  let key := KStr "user_guest" in
  let u := Turn User "hi" "t1" in
  let a := Turn Assistant "ok" "t2" in
  let failed := ask_times n world_down "hi" (Some "guest") demo_bot in
  history_at failed key = replicate n u
  ∧ length (history_at failed key) = n
  ∧ (ask world_down "hi" (Some "guest") failed).2 = apology
  ∧ length (history_at
              (ask_times 60 world_down "hi" (Some "guest") demo_bot) key)
    = 60%nat
  ∧ history_at (ask_times 30 world_ok "hi" (Some "guest") demo_bot) key
    = last_n 50 (concat (replicate 30 [u; a]))
  ∧ history_at
      (ask world_down "hi" (Some "guest")
         (ask_times 27 world_ok "hi" (Some "guest") demo_bot)).1 key
    = last_n 51 (concat (replicate 27 [u; a]) ++ [u])
  ∧ turns_after 60 (hotel_world [] timing_out) hotel_config "hi"
      (Some "guest") key = Ok 60%nat
  ∧ turns_after 60 (hotel_world [] answering) hotel_config "hi"
      (Some "guest") key = Ok 50%nat.
Proof.
  intros key u a failed.
  assert (∀ prompt, ∃ e, llm_invoke world_down prompt = Raise e) as Hdown.
  { intros prompt. by eexists. }
  assert (∀ m, history_at (ask_times m world_down "hi" (Some "guest") demo_bot) key
               = replicate m u) as Hall.
  { intros m.
    exact (failed_calls_append world_down "hi" "guest" m demo_bot Hdown
             eq_refl eq_refl ltac:(done)). }
  split; [apply Hall|].
  split; [unfold failed; by rewrite Hall, length_replicate|].
  split.
  { unfold ask.
    pose proof (ask_body_cases world_down "hi" (Some "guest") failed) as Hcases.
    simpl in Hcases.
    destruct (resolved _ _) as [client_row|e]; [|by rewrite Hcases].
    destruct (prompt_of _ _ _ _ _) as [prompt|e]; by rewrite Hcases. }
  split; [by rewrite Hall, length_replicate|].
  by vm_compute.
Qed.

(** C7, refuted as stated: two anonymous calls half a second apart,
    within one second of the clock, get the same session key. *)
Lemma C7_counterexample_same_second_same_key :
  ¬ (now (world_at (1002 # 10)) == now (world_at (1007 # 10)))%Q
  ∧ _get_chat_history_key (world_at (1002 # 10)) None None
    = _get_chat_history_key (world_at (1007 # 10)) None None.
Proof. split; [by vm_compute|]. by vm_compute. Qed.

(** C7, amended.  Two calls whose records carry the same non-empty
    email get the same key, that email, whatever the clock and the
    caller-supplied identifiers are; two calls with no record and no
    identifier get the same session key exactly when their clocks show
    the same whole second, and different keys otherwise. *)
Theorem C7_key_stable_by_email_and_fresh_by_second :
  (∀ (w1 w2 : World) (r1 r2 : row) (uid1 uid2 : option string),
     truthy (get r1 "Email") = true → get r2 "Email" = get r1 "Email" →
     _get_chat_history_key w1 (Some r1) uid1 = key_of (get r1 "Email")
     ∧ _get_chat_history_key w2 (Some r2) uid2 = key_of (get r1 "Email"))
  ∧ (∀ (w1 w2 : World) (uid1 uid2 : option string),
       str_truthy uid1 = false → str_truthy uid2 = false →
       (_get_chat_history_key w1 None uid1 = _get_chat_history_key w2 None uid2
        ↔ int_of (now w1) = int_of (now w2))).
Proof.
  split.
  - intros w1 w2 r1 r2 uid1 uid2 Ht Heq.
    assert (∀ w (r : row) uid, truthy (get r "Email") = true →
              _get_chat_history_key w (Some r) uid = key_of (get r "Email")) as Hkey.
    { intros w r uid Hr. unfold _get_chat_history_key.
      destruct r as [|c r]; [done|]. simpl. by rewrite Hr. }
    split; [by apply Hkey|]. rewrite <- Heq. apply Hkey. by rewrite Heq.
  - intros w1 w2 uid1 uid2 H1 H2. unfold _get_chat_history_key; simpl.
    rewrite H1, H2. split.
    + intros [= Heq].
      change (pretty (int_of (now w1)) = pretty (int_of (now w2))) in Heq.
      by apply (inj pretty) in Heq.
    + by intros ->.
Qed.

(** C7 at two records with the same email, met at different times and
    with different caller-supplied identifiers. *)
Lemma C7_same_email_same_key_witness :
  _get_chat_history_key (world_at 1) (Some [("Email", VStr "a@x.com")]) None
  = _get_chat_history_key (world_at 2)
      (Some [("Name", VStr "Ann"); ("Email", VStr "a@x.com")]) (Some "ann").
Proof.
  destruct (proj1 C7_key_stable_by_email_and_fresh_by_second
              (world_at 1) (world_at 2)
              [("Email", VStr "a@x.com")]
              [("Name", VStr "Ann"); ("Email", VStr "a@x.com")]
              None (Some "ann") eq_refl eq_refl) as [H1 H2].
  exact (eq_trans H1 (eq_sym H2)).
Defined.

(** ** Identity resolver *)

(** C8, refuted as stated: the first record answers to the identifier
    by its name only, the second by its email; the first is returned. *)
Lemma C8_counterexample_name_match_before_email_match :
  find_client_row
    [ [("Email", VStr "b@x.com"); ("Name", VStr "a@x.com")];
      [("Email", VStr "a@x.com"); ("Name", VStr "Ann")] ]
    "a@x.com"
  = Ok (Some [("Email", VStr "b@x.com"); ("Name", VStr "a@x.com")])
  ∧ norm_cell [("Email", VStr "b@x.com"); ("Name", VStr "a@x.com")] "Email"
    ≠ "a@x.com"
  ∧ norm_cell [("Email", VStr "a@x.com"); ("Name", VStr "Ann")] "Email"
    = "a@x.com".
Proof. vm_compute. by repeat split. Qed.

(** C8, amended.  The identifier is trimmed and lower-cased; the
    records are visited in list order, each compared by email, then
    client id, then booking id, then display name, and the first record
    that answers by any of the four is returned, also when a later
    record answers by email.  Nothing is returned exactly when the
    identifier is empty or every record is passed over. *)
Theorem C8_first_record_answering_by_any_field
    (rows : list row) (identifier : string) (r : row) :
  let iid := lower (strip identifier) in
  (find_client_row rows identifier = Ok (Some r) ↔
     identifier ≠ ""
     ∧ ∃ before after, rows = before ++ r :: after
         ∧ answers_to iid r ∧ Forall (passed_over iid) before)
  ∧ (find_client_row rows identifier = Ok None ↔
       identifier = "" ∨ Forall (passed_over iid) rows).
Proof.
  intros iid. unfold find_client_row.
  case_bool_decide as Hid; simpl.
  { split; [split; [done|by intros [? _]]|]. split; auto. }
  case_bool_decide as Hrows; simpl.
  { subst rows. split.
    - split; [done|]. intros (_ & before & after & Hnil & _). by destruct before.
    - split; auto. }
  fold iid. rewrite find_row_some, find_row_none.
  setoid_rewrite row_matches_true.
  split; [split; [by split|by intros [_ ?]]|].
  split; [by right|by intros [?|?]].
Qed.

(** ** Booking-form directive *)

(** C9, refuted as stated: the handler of [main_new.py] leaves the
    form closed for a payment request without a keyword, the handler
    of [main.py] for a message with the keyword "reserve" whose intent
    is neither of the two. *)
Lemma C9_counterexample_each_handler_reads_one_trigger :
  MainNew.show_booking_form "I would like to pay now" "payment_request" = false
  ∧ Main.show_booking_form "can I reserve a room" "ask_room_price" = false.
Proof. by vm_compute. Qed.

(** C9, amended.  In [main_new.py] the directive is true exactly when
    the lower-cased message contains a booking keyword, whatever the
    intent; in [main.py] exactly when the intent is "payment_request"
    or "booking_request", whatever the message. *)
Theorem C9_booking_form_trigger_per_handler (message intent : string) :
  (MainNew.show_booking_form message intent = true ↔
     ∃ kw, kw ∈ MainNew.booking_keywords ∧ contains (lower message) kw = true)
  ∧ (Main.show_booking_form message intent = true ↔
       intent = "payment_request" ∨ intent = "booking_request").
Proof.
  split.
  - unfold MainNew.show_booking_form. rewrite existsb_exists.
    by setoid_rewrite list_elem_of_In.
  - unfold Main.show_booking_form, mem. rewrite bool_decide_eq_true.
    rewrite !elem_of_cons, elem_of_nil.
    split; [intros [?|[?|[]]]; auto|intros [?|?]; auto].
Qed.

(** * Further properties of the code *)

Import Py QAAgent.
Import TextSpec PolicySpec ScoreSpec AskSpec.
Import TextFacts PolicyFacts ScoreFacts RetrievalFacts AskFacts.
Import WordSpec SliceSpec SessionSpec QAInit WebChat.
Import PyFacts NormalFacts TokenFacts SliceFacts SessionFacts.

(** ** Text normalisation *)

(** X1.  A normalised text is its own tokens joined by single blanks;
    the tokens are the maximal runs of lower-case letters and digits of
    the lower-cased text, none of them empty. *)
Theorem normalized_text_joins_its_tokens (s : string) :
  _normalize_text s = join " " (split (_normalize_text s))
  ∧ split (_normalize_text s) = split (sub_non_alnum (lower s))
  ∧ Forall (word alnum) (split (_normalize_text s)).
Proof.
  rewrite split_normalize_text. split; [apply normalize_text_join|].
  split; [done|apply cleaned_words].
Qed.

(** X2.  Normalising twice is normalising once, and the case of the
    letters does not matter. *)
Theorem normalize_text_idempotent (s : string) :
  _normalize_text (_normalize_text s) = _normalize_text s
  ∧ _normalize_text (lower s) = _normalize_text s.
Proof. split; [apply normalize_text_idem|apply normalize_text_lower]. Qed.

(** ** Scores *)

(** X3.  The score of a document against a query is the score of their
    normalised texts: case, punctuation and the amount of blank space
    never change it. *)
Theorem score_of_normalized_texts (doc_text query : string) :
  _score_doc (_normalize_text doc_text) (_normalize_text query)
  = _score_doc doc_text query
  ∧ _score_doc (lower doc_text) (lower query) = _score_doc doc_text query.
Proof.
  split; [apply score_doc_normalized|].
  rewrite <- (score_doc_normalized (lower doc_text)), !normalize_text_lower.
  apply score_doc_normalized.
Qed.





(** X6.  The passage text of a row is empty exactly when no cell
    of the row is truthy, and such a row scores 0 against every
    query. *)
Theorem empty_passage_text_iff_no_truthy_cell (r : row) :
  (_row_to_doc_text r = "" ↔ Forall (λ v, truthy v = false) (values r))
  ∧ (_row_to_doc_text r = "" → ∀ query, _score_doc (_row_to_doc_text r) query = 0%Q).
Proof.
  split; [apply row_to_doc_text_empty|].
  intros -> query. unfold _score_doc. by rewrite orb_true_r.
Qed.

(** ** Sheet retrieval with any [k] *)

(** X7.  Whatever [k] is, negative values included, sheet retrieval
    returns the head of the stable ranking of the rows' passages by
    the scores the interpreter computes: the returned passages followed
    by those left out are all the passages, in non-increasing score
    order and with the passages of one score in row order; none of
    those left out outranks a returned one, and the number returned is
    what the slice [[:k]] keeps of as many entries as there are
    rows. *)
Theorem sheet_retrieval_is_a_head_of_the_ranking
    (st : Bot) (query : string) (k : option Z) :
  ∃ result rest,
    _retrieve_from_sheets query k st = (st, Ok result)
    ∧ result ++ rest ≡ₚ passage_of query <$> qna_rows st
    ∧ StronglySorted passage_ge (result ++ rest)
    ∧ (∀ s, filter (passage_tied s) (result ++ rest)
            = filter (passage_tied s) (passage_of query <$> qna_rows st))
    ∧ (∀ p q, p ∈ result → q ∈ rest → passage_ge p q)
    ∧ length result = kept (length (qna_rows st)) (k_or k (retriever_k st))
    ∧ (∀ r, passage_of query r
            = Passage (_row_to_doc_text r)
                (_score_doc_float (_row_to_doc_text r) query) r).
Proof.
  destruct (retrieve_rows_split (qna_rows st) (retriever_k st) query k)
    as (Hsplit & Hlen & Hdom).
  set (ranked := to_passage <$> sort_desc (scored_of query <$> qna_rows st)) in *.
  set (result := retrieve_rows (qna_rows st) (retriever_k st) query k) in *.
  exists result, (drop (length result) ranked).
  split; [done|]. rewrite <- Hsplit. split.
  { unfold ranked. rewrite sort_desc_perm. by rewrite <- list_fmap_compose. }
  split; [apply fmap_to_passage_sorted, sort_desc_sorted|].
  split.
  { intros s. unfold ranked.
    by rewrite filter_tied_fmap, sort_desc_stable, <- filter_tied_fmap,
      <- list_fmap_compose. }
  done.
Qed.

Import Py QAAgent.
Import TextSpec PolicySpec ScoreSpec AskSpec.
Import TextFacts PolicyFacts ScoreFacts RetrievalFacts AskFacts.
Import WordSpec SliceSpec SessionSpec QAInit WebChat.
Import PyFacts NormalFacts TokenFacts SliceFacts SessionFacts.

(** ** Start-up and the two retrieval modes *)

(** X8.  [__init__] fails exactly when the model client cannot be
    built.  The bot it leaves has no history; it is in sheet mode
    exactly when a sheet endpoint is configured and all five sheets
    were fetched, and then its [retriever] attribute was never assigned
    while [menu] was; out of sheet mode [retriever] is assigned, to the
    vector-store retriever or to [None].  [menu] stays unassigned
    exactly when no endpoint is configured or one of the four sheets up
    to the menu could not be fetched. *)
Theorem init_outcome (w : World) (c : Config) :
  match __init__ w c with
  | Raise e => make_llm c = Raise e
  | Ok st =>
      make_llm c = Ok ()
      ∧ chat_history st = ∅
      ∧ (use_sheet st = true ↔
           sheet_api_set c = true
           ∧ Forall (λ name, ∃ rows, fetch w name = Ok rows) (sheets c))
      ∧ (use_sheet st = true →
           retriever st = Unset ∧ ∃ items, menu st = Attr items)
      ∧ (use_sheet st = false →
           retriever st = Attr (is_ok (make_retriever c)))
      ∧ (menu st = Unset ↔
           sheet_api_set c = false
           ∨ Exists (λ name, ∃ e, fetch w name = Raise e) (sheets_up_to_menu c))
  end.
Proof.
  unfold __init__. destruct (make_llm c) as [[]|e]; [|done].
  unfold mbind, result_bind.
  set (st1 := init_sheets w (blank_bot c)).
  destruct (init_sheets_outcome w c) as (Hh & Hr & Hu & Hm). fold st1 in Hh, Hr, Hu, Hm.
  destruct (init_vector_store_keeps c st1) as (Hh2 & Hu2 & Hm2 & Hr2).
  destruct (init_dos_donts_keeps c (init_vector_store c st1))
    as (Hh3 & Hu3 & Hm3 & Hr3).
  rewrite Hh3, Hu3, Hm3, Hr3, Hh2, Hu2, Hm2, Hr2.
  split; [done|]. split; [done|]. split; [done|].
  split; [|split; [by intros ->|done]].
  intros Hon. rewrite Hon. split; [done|].
  destruct (menu st1) as [|items] eqn:Hmenu; [|by eexists].
  exfalso. apply proj1 in Hm. apply proj1 in Hu.
  destruct (Hu Hon) as [Hapi Hall].
  destruct (Hm eq_refl) as [Hoff|Hex]; [congruence|].
  rewrite Forall_forall in Hall.
  apply Exists_exists in Hex as (name & Hin & e & He).
  destruct (Hall name) as [rows Hrows]; [|congruence].
  unfold sheets. apply elem_of_app. by left.
Qed.

(** X9.  A bot started without a sheet endpoint, or while one of the
    four sheets up to the menu could not be fetched, answers every
    later call with the apology, whatever the query, the caller and the
    world of the call: [menu] is assigned by a refresh only, and out of
    sheet mode no call refreshes. *)
Theorem bot_without_menu_only_apologizes
    (w0 : World) (c : Config) (st : Bot)
    (calls : list (World * string * option string)) :
  sheet_api_set c = false
  ∨ Exists (λ name, ∃ e, fetch w0 name = Raise e) (sheets_up_to_menu c) →
  __init__ w0 c = Ok st →
  Forall (λ reply, reply = apology) (ask_all calls st).2.
Proof.
  intros Hdown Hinit.
  pose proof (menu_after_init w0 c st Hinit) as [Hmenu Hoff].
  apply ask_all_without_menu; [by apply Hmenu|].
  apply Hoff. by apply Hmenu.
Qed.

(** X9 at a configuration without endpoint and two calls whose model
    answers. *)
Lemma bot_without_menu_only_apologizes_witness :
  ∃ st, __init__ world_ok config_without_sheet = Ok st
    ∧ Forall (λ reply, reply = apology)
        (ask_all [(world_ok, "hi", None); (world_ok, "menu?", Some "guest")] st).2.
Proof.
  eexists. split; [reflexivity|].
  apply (bot_without_menu_only_apologizes world_ok config_without_sheet);
    [by left|reflexivity].
Defined.

Import Py QAAgent.
Import TextSpec PolicySpec ScoreSpec AskSpec.
Import TextFacts PolicyFacts ScoreFacts RetrievalFacts AskFacts.
Import WordSpec SliceSpec SessionSpec QAInit WebChat.
Import PyFacts NormalFacts TokenFacts SliceFacts SessionFacts.

(** X10.  In sheet mode with the [retriever] attribute unassigned, as
    [__init__] leaves a bot in sheet mode, a call whose Q&A sheet comes
    back empty, or a bot whose [retriever_k] is 0, is answered with the
    apology: with no passage at hand [ask] reads [self.retriever]. *)
Theorem sheet_bot_without_passages_apologizes
    (w : World) (query : string) (uid : option string) (st : Bot) :
  use_sheet st = true → retriever st = Unset →
  fetch w (qna_sheet st) = Ok [] ∨ retriever_k st = 0 →
  (ask w query uid st).2 = apology.
Proof.
  intros Hon Hret Hnone.
  destruct (refreshed_keeps w st) as (_ & Hu & Hk & Hr).
  apply ask_apology_without_prompt. intros key client_row msgs.
  exists AttributeError. unfold prompt_of.
  rewrite docs_of_sheet_without_passages; [done|..].
  - simpl. by rewrite Hu.
  - simpl. by rewrite Hr.
  - simpl. destruct Hnone as [Hfetch|Hk0].
    + left. by apply refreshed_qna_empty.
    + right. by rewrite Hk.
Qed.

(** X10 at a bot in sheet mode whose sheets are all empty. *)
Lemma sheet_bot_without_passages_apologizes_witness :
  (ask world_empty_sheets "pool hours" (Some "guest") sheet_bot).2 = apology.
Proof.
  apply (sheet_bot_without_passages_apologizes world_empty_sheets "pool hours"
           (Some "guest") sheet_bot); [reflexivity|reflexivity|by left].
Defined.

(** X11.  In sheet mode with a Q&A sheet that is not empty and a
    positive [retriever_k], the hotel data of the prompt are the texts
    of the first [retriever_k] passages of the ranking (all of them if
    there are fewer), and [self.retriever] is not read: the bot
    answers without a vector store. *)
Theorem sheet_bot_with_passages_needs_no_retriever
    (w : World) (query : string) (key : hkey) (client_row : option row)
    (st : Bot) :
  use_sheet st = true → qna_rows st ≠ [] → 0 < retriever_k st →
  let docs := retrieve_rows (qna_rows st) (retriever_k st) query
                (Some (retriever_k st)) in
  length docs = (Z.to_nat (retriever_k st) `min` length (qna_rows st))%nat
  ∧ docs ≠ []
  ∧ prompt_of w query key client_row st =
      (_build_prompt w (join (nl +:+ nl) (page_content <$> docs)) query (Some key)
         (if row_truthy client_row then _is_user_booked client_row else false)
         (if row_truthy client_row then _is_id_verified client_row else false)
         st).2.
Proof.
  intros Hon Hrows Hk docs.
  destruct (retrieve_rows_split (qna_rows st) (retriever_k st) query
              (Some (retriever_k st))) as (_ & Hlen & _).
  fold docs in Hlen.
  assert (k_or (Some (retriever_k st)) (retriever_k st) = retriever_k st) as Hkor.
  { unfold k_or. by destruct (retriever_k st =? 0). }
  rewrite Hkor in Hlen. unfold kept in Hlen.
  rewrite (proj2 (Z.leb_le 0 (retriever_k st))) in Hlen by lia.
  assert (docs ≠ []) as Hdocs.
  { intros Hnil. rewrite Hnil in Hlen. simpl in Hlen.
    destruct (qna_rows st); [done|]. simpl in Hlen. lia. }
  split; [done|]. split; [done|].
  unfold prompt_of, docs_of. rewrite Hon. fold docs.
  by rewrite bool_decide_false.
Qed.

(** X11 at three question rows and the default [retriever_k] of 5. *)
Lemma sheet_bot_with_passages_needs_no_retriever_witness :
  retrieve_rows demo_rows 5 "pool" (Some 5) ≠ [].
Proof.
  refine (proj1 (proj2 (sheet_bot_with_passages_needs_no_retriever
            world_ok "pool" KNone None (set_qna_rows demo_rows sheet_bot)
            _ _ _))); [reflexivity|discriminate|reflexivity].
Defined.

(** X12.  A call of [ask] never changes the retrieval mode, the
    retriever, the retrieval size or the sheet names, and out of sheet
    mode it changes nothing but the histories.  It touches the history
    of at most one key: that history is left as it was (identity
    resolution raised), or has the user turn appended (the apology was
    returned), or has the user turn and the assistant turn appended and
    is then cut to its last 50 turns (the reply is the stripped
    completion). *)
Theorem ask_touches_one_conversation
    (w : World) (query : string) (uid : option string) (st : Bot) :
  let st' := (ask w query uid st).1 in
  use_sheet st' = use_sheet st ∧ retriever st' = retriever st
  ∧ retriever_k st' = retriever_k st
  ∧ (qna_sheet st', dos_sheet st', campaign_sheet st', menu_sheet st',
     client_sheet st')
    = (qna_sheet st, dos_sheet st, campaign_sheet st, menu_sheet st,
       client_sheet st)
  ∧ (use_sheet st = false → set_chat_history (chat_history st) st' = st)
  ∧ ∃ key,
      (∀ k, k ≠ key → chat_history st' !! k = chat_history st !! k)
      ∧ (history_at st' key = history_at st key
         ∨ history_at st' key = history_at st key ++ [user_turn w query]
           ∧ (ask w query uid st).2 = apology
         ∨ ∃ content,
             history_at st' key =
               last_n 50 (history_at st key
                          ++ [user_turn w query; assistant_turn w content])
             ∧ (ask w query uid st).2 = strip content).
Proof.
  intros st'.
  destruct (refreshed_keeps w st) as (Hh & Hu & Hk & Hr).
  destruct (refreshed_keeps_names w st) as (Hn1 & Hn2 & Hn3 & Hn4 & Hn5).
  destruct (ask_frame w query uid st) as [h Hst']. fold st' in Hst'.
  split; [by rewrite Hst'|]. split; [by rewrite Hst'|].
  split; [by rewrite Hst'|].
  split; [rewrite Hst'; simpl; congruence|].
  split.
  { intros Hoff. rewrite Hst', refreshed_off by done. by destruct st. }
  unfold st', ask.
  pose proof (ask_body_cases w query uid st) as Hcases. simpl in Hcases.
  destruct (resolved (refreshed w st) uid) as [client_row|e].
  2:{ rewrite Hcases. simpl. exists KNone.
      split; [by rewrite Hh|]. left. unfold history_at. by rewrite Hh. }
  set (key := _get_chat_history_key w client_row uid) in *.
  assert (∀ msgs k, k ≠ key →
    chat_history (with_history key msgs (refreshed w st)) !! k
    = chat_history st !! k) as Hother.
  { intros msgs k Hk'. unfold with_history. simpl.
    rewrite lookup_insert_ne by done. by rewrite Hh. }
  exists key.
  destruct (prompt_of _ _ _ _ _) as [prompt|e].
  2:{ rewrite Hcases. simpl. split; [apply Hother|].
      right. left. by rewrite history_at_with. }
  destruct (llm_invoke w prompt) as [content|e]; rewrite Hcases; simpl.
  - split; [apply Hother|]. right. right. exists content.
    by rewrite history_at_with.
  - split; [apply Hother|]. right. left. by rewrite history_at_with.
Qed.

(** ** The web chat handler and the history in the prompt *)

(** X13.  The [/chat] handler of [main_new.py] names no caller to the
    bot.  Whatever the request says about the guest, the turn is filed
    under the key of the current second, and the prompt, when one is
    built, is the one of a guest who is not booked: persona, the
    "confirmed booking and ID verification are required" sentence and
    the status "Not Booked". *)
Theorem web_chat_is_always_gated (w : World) (req : ChatReq) (st : Bot) :
  let key := KStr ("session_" +:+ pretty (int_of (now w))) in
  let st2 := with_history key (history_at st key ++ [user_turn w (message req)])
               (refreshed w st) in
  match prompt_of w (message req) key None st2 with
  | Ok prompt =>
      (∃ rest, prompt = preamble (agent_name_of (agents_json w)) +:+ gated_framing
                        +:+ "Status: Not Booked" +:+ rest)
      ∧ bot_reply_text w req st =
          match llm_invoke w prompt with
          | Ok content =>
              (with_history key
                 (last_n 50 (history_at st key
                             ++ [user_turn w (message req);
                                 assistant_turn w content]))
                 (refreshed w st),
               strip content)
          | Raise _ => (st2, apology)
          end
  | Raise _ => bot_reply_text w req st = (st2, apology)
  end.
Proof.
  intros key st2. unfold bot_reply_text, ask.
  pose proof (ask_body_cases w (message req) None st) as Hcases.
  cbv zeta in Hcases.
  change (resolved (refreshed w st) None) with (@Ok (option row) None) in Hcases.
  cbv iota beta in Hcases.
  change (_get_chat_history_key w None None) with key in Hcases.
  fold st2 in Hcases.
  destruct (prompt_of w (message req) key None st2) as [prompt|e] eqn:Hprompt;
    [|by rewrite Hcases].
  split.
  - unfold prompt_of in Hprompt.
    destruct (docs_of w (message req) st2) as [docs|e]; [|done].
    unfold mbind, result_bind in Hprompt. simpl in Hprompt.
    unfold _build_prompt in Hprompt. revert Hprompt. run.
    rewrite !andb_false_r. simpl.
    destruct (menu (refreshed w st)) as [|items]; simpl; [done|].
    rewrite andb_false_r. simpl. intros [= <-].
    by exists (nl +:+ nl +:+ "Hotel Data:" +:+ nl
               +:+ join (nl +:+ nl) (page_content <$> docs) +:+ nl +:+ nl
               +:+ history_text_of (chat_history st2) (Some key) +:+ nl
               +:+ "Guest Query: " +:+ message req +:+ nl
               +:+ rules_text_of (dos_donts (refreshed w st))).
  - destruct (llm_invoke w prompt) as [content|e]; by rewrite Hcases.
Qed.

(** X14.  The history key is never falsy, so the prompt of a call
    always carries a history block; the block holds the last four
    turns the key had before the call, followed by the query of the
    call itself as its last line. *)
Theorem prompt_history_ends_with_the_query
    (w : World) (client_row : option row) (uid : option string)
    (query : string) (st : Bot) :
  let key := _get_chat_history_key w client_row uid in
  let st2 := with_history key (history_at st key ++ [user_turn w query]) st in
  key_truthy key = true
  ∧ history_text_of (chat_history st2) (Some key) =
      nl +:+ "Previous conversation context:" +:+ nl
      +:+ concat_all (history_line <$> last_n 4 (history_at st key))
      +:+ "User: " +:+ query +:+ nl.
Proof.
  intros key st2.
  pose proof (chat_history_key_truthy w client_row uid) as Hkey. fold key in Hkey.
  split; [done|].
  unfold history_text_of. rewrite Hkey. unfold st2, with_history. simpl.
  rewrite lookup_insert_eq, last_n_snoc, fmap_app, concat_all_app.
  change (concat_all (history_line <$> [user_turn w query]))
    with (("User: " +:+ query +:+ nl) +:+ "").
  by rewrite append_nil_r.
Qed.

Import Py QAAgent.
Import PyMore Tickets TicketSpec PyFacts TicketFacts.

(** ** Tickets and sentiment in [main_new.py] *)

(** X15.  The keyword heuristics of [main_new.py] read the lower-cased
    message only: the ticket test, the ticket category, the sentiment
    and the booking-form test give the same answer for a message and
    for its lower-case spelling. *)
Theorem message_heuristics_ignore_case
    (message intent : string) (addon_matches : option (list string)) :
  is_ticket_request (lower message) intent addon_matches
  = is_ticket_request message intent addon_matches
  ∧ classify_ticket_category (lower message) = classify_ticket_category message
  ∧ _naive_sentiment (lower message) = _naive_sentiment message
  ∧ MainNew.show_booking_form (lower message) intent
    = MainNew.show_booking_form message intent.
Proof.
  assert (bool_decide (lower message = "") = bool_decide (message = "")) as Hempty.
  { apply bool_decide_ext, lower_empty. }
  unfold is_ticket_request, classify_ticket_category, _naive_sentiment,
    MainNew.show_booking_form.
  by rewrite Hempty, !lower_idem.
Qed.

(** X16.  A message that asks for a ticket still does so with any text
    put before or after it, for the same intent and add-on matches. *)
Theorem ticket_request_survives_more_text
    (message intent : string) (addon_matches : option (list string))
    (before after : string) :
  is_ticket_request message intent addon_matches = true →
  is_ticket_request (before +:+ message +:+ after) intent addon_matches = true.
Proof.
  unfold is_ticket_request. case_bool_decide as Hm; [done|].
  rewrite bool_decide_false by by apply append_nonempty.
  destruct (mem intent ticket_intents); [done|].
  destruct (any_in (lower message) keywords) eqn:Hk.
  - by rewrite (any_in_lower_app _ _ _ _ Hk).
  - intros Haddon. rewrite Haddon. by destruct (any_in (lower (before +:+ message +:+ after)) keywords).
Qed.

(** X16 at the message "tea" inside a longer sentence. *)
Lemma ticket_request_survives_more_text_witness :
  is_ticket_request ("Could I get some " +:+ "tea" +:+ ", please?")
    "smalltalk" None = true.
Proof.
  apply (ticket_request_survives_more_text "tea" "smalltalk" None
           "Could I get some " ", please?").
  reflexivity.
Defined.

(** X17.  A message that is a ticket request by keyword and falls in
    the category "General" holds one of the five keywords no category
    list knows: "order", "bring", "deliver", "bathroom" or "shower".
    Every other ticket keyword puts the message in one of the three
    staffed categories. *)
Theorem general_ticket_holds_an_uncategorized_keyword (message : string) :
  any_in (lower message) keywords = true →
  classify_ticket_category message = "General" →
  any_in (lower message) uncategorized_keywords = true.
Proof.
  intros Hk Hgen. apply classify_general in Hgen as (Hf & Hr & He).
  apply any_in_true in Hk as (k & Hin & Hk).
  pose proof keywords_categorized as Hall.
  rewrite forallb_forall in Hall. specialize (Hall k).
  rewrite <- list_elem_of_In in Hall. specialize (Hall Hin).
  apply orb_prop in Hall as [Hcat|Hun].
  - exfalso. unfold categorized in Hcat.
    apply orb_prop in Hcat as [Hcat|Hcat]; [apply orb_prop in Hcat as [Hcat|Hcat]|].
    + by rewrite (any_in_trans _ _ _ Hk Hcat) in Hf.
    + by rewrite (any_in_trans _ _ _ Hk Hcat) in Hr.
    + by rewrite (any_in_trans _ _ _ Hk Hcat) in He.
  - apply any_in_true. exists k. split; [|done].
    unfold mem in Hun. by apply bool_decide_eq_true in Hun.
Qed.

(** X17 at a request for a pillow. *)
Lemma general_ticket_holds_an_uncategorized_keyword_witness :
  any_in (lower "Please bring a pillow") uncategorized_keywords = true.
Proof.
  apply (general_ticket_holds_an_uncategorized_keyword "Please bring a pillow");
    reflexivity.
Defined.

(** X18.  Every ticket gets one of the four categories, each category
    has its entry in the staff table, so the default of the lookup is
    never used, and the front desk is assigned exactly to the category
    "General". *)
Theorem every_ticket_category_is_staffed (message : string) :
  let category := classify_ticket_category message in
  category ∈ categories
  ∧ dict_get staff_by_category category = Some (assign_staff_for_category category)
  ∧ (assign_staff_for_category category = "Front Desk" ↔ category = "General").
Proof.
  intros category. pose proof (classify_cases message) as Hcases.
  fold category in Hcases. split; [done|].
  clearbody category. unfold categories in Hcases.
  repeat (apply elem_of_cons in Hcases as [->|Hcases];
    [split; [reflexivity|split; intros Heq; first [reflexivity|discriminate Heq]]|]).
  by apply elem_of_nil in Hcases.
Qed.

(** X19.  Text put before or after a message never turns its sentiment
    round: a sentiment that is not empty stays as it is or becomes
    empty. *)
Theorem sentiment_is_never_reversed (message before after : string) :
  _naive_sentiment (before +:+ message +:+ after) = _naive_sentiment message
  ∨ _naive_sentiment (before +:+ message +:+ after) = ""
  ∨ _naive_sentiment message = "".
Proof.
  destruct (decide (message = "")) as [->|Hm]; [by right; right|].
  unfold _naive_sentiment.
  rewrite (bool_decide_false (message = "")) by done.
  rewrite bool_decide_false by by apply append_nonempty.
  pose proof (any_in_lower_app message negative_words before after) as Hneg.
  pose proof (any_in_lower_app message positive_words before after) as Hpos.
  destruct (any_in (lower message) negative_words),
    (any_in (lower message) positive_words),
    (any_in (lower (before +:+ message +:+ after)) negative_words),
    (any_in (lower (before +:+ message +:+ after)) positive_words);
    simpl; auto; first [by specialize (Hneg eq_refl)|by specialize (Hpos eq_refl)].
Qed.

(** X20.  The room number of a ticket row is never one of the
    placeholders "-", "", "None" and "not assigned"; it is the text
    "Not Assigned" whenever no email is given, no endpoint is
    configured or the lookup raises; and the row names the staff of its
    own category. *)
Theorem ticket_row_room_and_staff
    (w : TicketWorld) (message : string) (email : option string) :
  let r := create_ticket_row_payload w message email in
  (get r "Room No" ∉ VStr <$> room_placeholders)
  ∧ truthy (get r "Room No") = true
  ∧ (str_truthy email = false ∨ webapp_url_set w = false
     ∨ (∃ e, get_user_data w (default "" email) = Raise e)
     → get r "Room No" = VStr "Not Assigned")
  ∧ (∃ category, get r "Category" = VStr category
       ∧ get r "Assigned To" = VStr (assign_staff_for_category category)).
Proof.
  intros r.
  change (get r "Room No") with (room_no_of w email).
  assert (∀ v, truthy v = true → not_placeholder v = true →
            v ∉ (VStr <$> room_placeholders)) as Hout.
  { intros v _ Hv [s [-> Hin]]%list_elem_of_fmap. simpl in Hv.
    apply negb_true_iff in Hv. unfold mem in Hv.
    by apply bool_decide_eq_false in Hv. }
  assert (truthy (room_no_of w email) = true
          ∧ not_placeholder (room_no_of w email) = true) as [Ht Hn].
  { unfold room_no_of.
    destruct (str_truthy email && webapp_url_set w); [|done].
    destruct (get_user_data w (default "" email)) as [[found [user_data|]]|];
      [|done..].
    destruct (truthy found); [|done].
    destruct (truthy (get user_data "Room Alloted")) eqn:Ht; [|done].
    destruct (not_placeholder (get user_data "Room Alloted")) eqn:Hn; done. }
  split; [by apply Hout|]. split; [done|]. split.
  - unfold room_no_of. intros [->|[->|[e ->]]]; [done| |].
    + by rewrite andb_false_r.
    + by destruct (str_truthy email && webapp_url_set w).
  - by exists (classify_ticket_category message).
Qed.

Import Py QAAgent.
Import TextSpec PolicySpec ScoreSpec AskSpec.
Import PolicyFacts.
Import PyMore Http EndpointSpec PyFacts DictFacts DemoFacts AuthFacts.

(** ** Sign-up and the bot *)

(** X21.  The record [signup] of [auth_api.py] writes for a user is
    found by the identity resolver under the user's email, provided no
    earlier record answers to it; the guest it describes is neither
    booked nor verified, and the history of the guest is kept under
    the email. *)
Theorem signed_up_guest_is_known_and_gated
    (aw : AuthApi.AuthWorld) (req : AuthApi.SignupReq) (w : World)
    (rows : list row) :
  AuthApi.username req ≠ "" →
  find_row (lower (strip (AuthApi.username req))) rows = Ok None →
  let r := AuthApi.signup_row aw req in
  find_client_row (rows ++ [r]) (AuthApi.username req) = Ok (Some r)
  ∧ _is_user_booked (Some r) = false
  ∧ _is_id_verified (Some r) = false
  ∧ _get_chat_history_key w (Some r) (Some (AuthApi.username req))
    = KStr (AuthApi.username req).
Proof.
  intros Hname Hnone r. split; [|split; [done|split; [done|]]].
  - unfold find_client_row. rewrite bool_decide_false by done.
    rewrite bool_decide_false by by destruct rows.
    simpl. rewrite find_row_app by done. simpl.
    unfold row_matches. simpl. by rewrite bool_decide_true.
  - unfold _get_chat_history_key. simpl. by rewrite bool_decide_false.
Qed.

(** X21 at the first sign-up of a sheet. *)
Lemma signed_up_guest_is_known_and_gated_witness :
  find_client_row ([] ++ [AuthApi.signup_row auth_world ann]) "ann@example.com"
  = Ok (Some (AuthApi.signup_row auth_world ann)).
Proof.
  apply (signed_up_guest_is_known_and_gated auth_world ann (world_at 0) []);
    [discriminate|reflexivity].
Defined.

(** X22.  [signup] answers with the registration or with status 500,
    never with 400: the status 400 it raises for a row the sheet did
    not accept is caught by its own handler.  [update_workflow], which
    raises an [HTTPException] again as it is, does answer 400 when the
    sheet reports an error. *)
Theorem signup_never_answers_400
    (w : AuthApi.AuthWorld) (req : AuthApi.SignupReq)
    (ureq : AuthApi.UpdateWorkflowReq) :
  AuthApi.signup w req ≠ Failed 400
  ∧ match AuthApi.push_row_to_sheet w "Client_workflow" (AuthApi.signup_row w req) with
    | Ok resp =>
        if AuthApi.accepted resp
        then ∃ body, AuthApi.signup w req = Returned body
               ∧ get body "clientId" = VStr (AuthApi.client_id_of w)
        else AuthApi.signup w req = Failed 500
    | Raise _ => AuthApi.signup w req = Failed 500
    end
  ∧ match AuthApi.post_update w (AuthApi.upd_username ureq)
            (AuthApi.updates_of ureq) with
    | Ok data =>
        "error" ∈ data.*1 → AuthApi.update_workflow w ureq = Failed 400
    | Raise _ => AuthApi.update_workflow w ureq = Failed 500
    end.
Proof.
  unfold AuthApi.signup, AuthApi.signup_body, AuthApi.update_workflow,
    AuthApi.update_workflow_body.
  split; [|split].
  - destruct (AuthApi.push_row_to_sheet _ _ _) as [resp|e]; [|done].
    by destruct (AuthApi.accepted resp).
  - destruct (AuthApi.push_row_to_sheet _ _ _) as [resp|e]; [|done].
    destruct (AuthApi.accepted resp); [|done]. by eexists.
  - destruct (AuthApi.post_update _ _ _) as [data|e]; [|done].
    intros Herr. by rewrite bool_decide_true.
Qed.

(** X23.  The flags the front end receives at login and the policy of
    the bot, over the same record of the sheet: whoever the bot takes
    for verified is reported as [id_verified]; whoever is reported as
    [booked] the bot takes for booked unless the booking id, trimmed,
    is one of the placeholders; and a guest the bot takes for booked
    while the report says otherwise owes it to the stage "confirmed"
    or to an allotted room. *)
Theorem login_flags_and_bot_policy (email : value) (r : row) :
  let user := MainNewAuth.user_of email r in
  (_is_id_verified (Some r) = true → get user "id_verified" = VBool true)
  ∧ (get user "booked" = VBool true →
     trimmed_cell r "Booking Id" ∉ placeholders →
     _is_user_booked (Some r) = true)
  ∧ (get user "booked" = VBool false → _is_user_booked (Some r) = true →
     stage_cell r = "confirmed" ∨ trimmed_cell r "Room Alloted" ∉ placeholders).
Proof.
  intros user.
  change (get user "id_verified") with (VBool (truthy (get r "Id Link"))).
  change (get user "booked") with (VBool (truthy (get r "Booking Id"))).
  split; [|split].
  - intros (_ & -> & _)%PolicyFacts.is_id_verified_iff. done.
  - intros [= Hb] Hout. apply PolicyFacts.is_user_booked_iff.
    split; [by destruct r|]. by right; left.
  - intros [= Hb] (_ & [?|[Hout|?]])%PolicyFacts.is_user_booked_iff; auto.
    exfalso. apply Hout. unfold trimmed_cell, por. rewrite Hb.
    apply (bool_decide_unpack _). by vm_compute.
Qed.

(** ** The bot of [main.py] *)

(** X24.  The bot of [services/qa_agent.py] never answers with the
    empty text: an empty completion is replaced by a fixed sentence. *)
Theorem legacy_answer_is_never_empty
    (w : Legacy.World) (query : string) (user_type : value) :
  Legacy.ask w query user_type ≠ "".
Proof.
  unfold Legacy.ask, Legacy.ask_body.
  destruct (_ && _); [done|].
  destruct (Legacy.retriever_invoke w query) as [docs|e]; simpl; [|done].
  destruct (Legacy._build_prompt w _ query) as [prompt|e]; simpl; [|done].
  destruct (Legacy.llm_invoke w prompt) as [content|e]; simpl; [|done].
  by case_bool_decide.
Qed.

(** X25.  [ask] of [services/qa_agent.py] restricts a caller only when
    [user_type] is the text "non-guest"; the [/chat] handler of
    [main.py] passes a boolean, so the guest flag of a request never
    changes the reply.  For the text "non-guest" a query that names a
    restricted service is turned away without any call to the
    retriever or the model. *)
Theorem legacy_guest_flag_is_ignored
    (w : Legacy.World) (message : string) (flag flag' : option bool) :
  Legacy.bot_reply_text w message flag = Legacy.bot_reply_text w message flag'
  ∧ Legacy.bot_reply_text w message flag = Legacy.ask w message VNone
  ∧ Legacy.ask w message (VStr "non-guest") =
      if existsb (λ term, contains (lower message) term) Legacy.restricted_services
      then Legacy.guests_only
      else Legacy.ask w message VNone.
Proof.
  unfold Legacy.bot_reply_text, Legacy.ask, Legacy.ask_body.
  rewrite !(bool_decide_false (VBool _ = _)) by done.
  rewrite (bool_decide_false (VNone = _)) by done.
  rewrite bool_decide_true by done. rewrite ?andb_false_l, ?andb_true_l.
  split; [done|]. split; [done|].
  by destruct (existsb (λ term, contains (lower message) term)
                 Legacy.restricted_services).
Qed.

(** ** Demo bookings *)

(** X26.  After [admin_seed_demo] the demo bookings are numbered 1 to
    [count] in order, and [demo_get_booking] finds the booking of
    every number in that range and answers 404 for any other. *)
Theorem seeded_bookings_are_numbered (d : Demo.Dice) (count : nat) (id : Z) :
  length (Demo.admin_seed_demo d count) = count
  ∧ (λ b, get b "id") <$> Demo.admin_seed_demo d count
    = (λ i, VInt (Z.of_nat i + 1)) <$> seq 0 count
  ∧ Demo.demo_get_booking (Demo.admin_seed_demo d count) id =
      if (1 <=? id) && (id <=? Z.of_nat count)
      then inr (Demo.seeded_booking d (Z.to_nat (id - 1)))
      else inl (HTTPException 404).
Proof.
  unfold Demo.admin_seed_demo. split; [by rewrite length_fmap, length_seq|].
  split; [by rewrite <- list_fmap_compose|].
  assert (∀ start,
    Demo.demo_get_booking (Demo.seeded_booking d <$> seq start count) id =
      if (Z.of_nat start + 1 <=? id) && (id <=? Z.of_nat start + Z.of_nat count)
      then inr (Demo.seeded_booking d (Z.to_nat (id - 1)))
      else inl (HTTPException 404)) as Hgen.
  { induction count as [|n IH]; intros start.
    - simpl. destruct (Z.leb_spec (Z.of_nat start + 1) id),
        (Z.leb_spec id (Z.of_nat start + Z.of_nat 0)); simpl; try done; lia.
    - change (Demo.demo_get_booking (Demo.seeded_booking d <$> seq start (S n)) id)
        with (if Z.of_nat start + 1 =? id then inr (Demo.seeded_booking d start)
              else Demo.demo_get_booking
                     (Demo.seeded_booking d <$> seq (S start) n) id).
      rewrite IH. destruct (Z.eqb_spec (Z.of_nat start + 1) id) as [Heq|Hne].
      + rewrite (proj2 (Z.leb_le _ _)) by lia.
        rewrite (proj2 (Z.leb_le _ _)) by lia. simpl.
        do 2 f_equal. lia.
      + destruct (Z.leb_spec (Z.of_nat (S start) + 1) id),
          (Z.leb_spec id (Z.of_nat (S start) + Z.of_nat n)),
          (Z.leb_spec (Z.of_nat start + 1) id),
          (Z.leb_spec id (Z.of_nat start + Z.of_nat (S n)));
          simpl; try done; lia. }
  apply (Hgen 0%nat).
Qed.

(** X27.  [demo_update_booking] never changes the number of a booking
    nor the order of the bookings.  When it answers with a booking,
    that is the first booking of the given number with every field of
    the patch set to its value and every other field as it was, and
    [demo_get_booking] returns it from then on; when it fails, so does
    [demo_get_booking], in the same way, and no booking has changed. *)
Theorem demo_update_then_get
    (sample_bookings : list row) (booking_id : Z) (patch : Demo.DemoBookingUpdate) :
  let r := Demo.demo_update_booking sample_bookings booking_id patch in
  (λ b, getitem b "id") <$> r.1 = (λ b, getitem b "id") <$> sample_bookings
  ∧ match r.2 with
    | inr b' =>
        Demo.demo_get_booking r.1 booking_id = inr b'
        ∧ (∀ k v, (k, v) ∈ Demo.patch_items patch → getitem b' k = Ok v)
        ∧ ∃ b, Demo.demo_get_booking sample_bookings booking_id = inr b
            ∧ ∀ k, k ∉ (Demo.patch_items patch).*1 → getitem b' k = getitem b k
    | inl e =>
        r.1 = sample_bookings
        ∧ Demo.demo_get_booking sample_bookings booking_id = inl e
    end.
Proof.
  destruct (patch_items_keys patch) as [Hnd Hid].
  induction sample_bookings as [|b bs IH]; [done|].
  cbn [Demo.demo_update_booking Demo.demo_get_booking].
  destruct (getitem b "id") as [v|e] eqn:Hb.
  2:{ cbn [fst snd fmap list_fmap Demo.demo_get_booking]. by rewrite Hb. }
  destruct (eq_int v booking_id) eqn:Hv.
  - cbn [fst snd fmap list_fmap Demo.demo_get_booking].
    rewrite getitem_apply_patch_other by done. rewrite Hb, Hv.
    split; [done|]. split; [done|]. split.
    + intros k x Hin. by apply getitem_apply_patch.
    + exists b. split; [done|]. intros k Hk. by apply getitem_apply_patch_other.
  - cbv zeta in IH. destruct IH as [IH1 IH2].
    destruct (Demo.demo_update_booking bs booking_id patch) as [bs' r2].
    cbn [fst snd fmap list_fmap] in *. rewrite IH1. split; [done|].
    destruct r2 as [e|b'].
    + destruct IH2 as [-> IH2]. done.
    + cbn [Demo.demo_get_booking]. by rewrite Hb, Hv.
Qed.

Import Py QAAgent.
Import PyMore WebChat Whatsapp WhatsappSpec.
Import PyFacts NormalFacts SplitFacts WhatsappFacts.

(** ** The reply in parts *)

(** X28.  The parts of a reply, joined again by blank lines, are the
    reply; there is always at least one part, and a reply without a
    blank line is its own single part. *)
Theorem reply_parts_join_back (reply : string) :
  join (nl +:+ nl) (reply_parts reply) = reply
  ∧ reply_parts reply ≠ []
  ∧ (contains reply (nl +:+ nl) = false → reply_parts reply = [reply]).
Proof.
  unfold reply_parts. split; [by apply join_split_on|].
  split; [done|]. apply split_on_without.
Qed.

(** ** The WhatsApp dialogue *)

(** X29.  At the first step of the WhatsApp dialogue the test for
    "guest" comes first and "non-guest" holds "guest": the branch for
    visitors is taken exactly when the message holds "visitor" and not
    "guest", and a sender who answers "non-guest" is registered as a
    guest. *)
Theorem non_guest_reply_registers_a_guest
    (incoming_msg : string) (user_session : Session) :
  identify incoming_msg user_session =
    (if contains (lower incoming_msg) "guest" then
       set_stage "start" (set_user_type "guest" user_session)
     else if contains (lower incoming_msg) "visitor" then
       set_stage "start" (set_user_type "non-guest" user_session)
     else user_session)
  ∧ (contains (lower incoming_msg) "non-guest" = true →
     user_type (identify incoming_msg user_session) = Some "guest").
Proof.
  assert (contains (lower incoming_msg) "non-guest" = true →
          contains (lower incoming_msg) "guest" = true) as Hsub.
  { intros Hng. by apply (contains_trans _ "non-guest"). }
  unfold identify.
  destruct (contains (lower incoming_msg) "guest") eqn:Hg; [done|].
  destruct (contains (lower incoming_msg) "non-guest") eqn:Hng.
  { by specialize (Hsub eq_refl). }
  done.
Qed.

(** X30.  Whatever is sent to the WhatsApp handler, by whomever and in
    whatever order, every session stays well formed: a session waiting
    for identification is a fresh one, only guests are in a booking
    stage, and each booking stage finds the room, the nights, the
    payment mode and the price the earlier stages stored, the price
    being that of the room times the nights.  No call ends in the
    outermost handler for a missing key; the only exception that
    reaches it is the [ValueError] of [int] on a room choice that
    [isdigit] let through. *)
Theorem whatsapp_sessions_stay_well_formed
    (ROOM_PRICES : list (string * Z)) (calls : list (World * string * string)) :
  let r := replies ROOM_PRICES calls ∅ in
  map_Forall (λ _, session_ok ROOM_PRICES) r.1
  ∧ Forall (λ o, o = Sent ∨ o = WentWrong ValueError) r.2.
Proof. apply replies_ok, map_Forall_empty. Qed.
